(** * Job-application form filler: tracker, extractor, matcher, classifier and agent loop

    A shallow embedding of the form-understanding core of the repository:
    - [FormTracker] and the tracked fill functions of [form-filler.ts];
    - [deduplicateFields] and the label resolution of [form-extractor.ts];
    - [getProfileValue] and [findMatchingOption] of the question handler;
    - [isJobListingPage] / [isApplicationFormPage] of [application-navigator.ts];
    - [observePage], [executeAction] and [runFormAgent] of the agentic filler;
    - the remaining scans of the extractor and [extractFormFields];
    - [detectATS], [groupJobsByATS] and [getFieldSelectors] of [ats-detector.ts];
    - the application history, the submission with retry and the required-field
      check, the application of generated answers, the native-select and
      degree matching of [dropdown-handler.ts], the merge of [parseJobs] and
      the reading of the oracle's answer.

    Page interaction (Playwright) is modelled as an interface whose calls may
    throw; every call is appended to a log, so that "does not touch the page"
    is a statement about that log.  Selector queries are interpreted over a
    document model with the compound selectors that the code writes.

    The file has three parts: the embedding, a few concrete scenarios, and
    the properties. *)

From Stdlib Require Import Ascii String.
From stdpp Require Import gmap strings list pretty.
From Stdlib Require Import Permutation.

Local Open Scope string_scope.
Local Open Scope list_scope.

(** ** JavaScript string operations

    Strings are sequences of 8-bit characters; case conversion and white
    space are those of ASCII. *)

Module JS.

Definition lower_ascii (c : ascii) : ascii :=
  let n := nat_of_ascii c in
  if Nat.leb 65 n && Nat.leb n 90 then ascii_of_nat (n + 32) else c.

(** [s.toLowerCase()] *)
Fixpoint toLowerCase (s : string) : string :=
  match s with
  | EmptyString => EmptyString
  | String c s' => String (lower_ascii c) (toLowerCase s')
  end.

(** [s.includes(sub)] *)
Fixpoint includes (s sub : string) : bool :=
  String.prefix sub s
  || match s with
     | EmptyString => false
     | String _ s' => includes s' sub
     end.

(** White space as matched by [\s] and removed by [trim()]. *)
Definition is_space (c : ascii) : bool :=
  let n := nat_of_ascii c in
  Nat.eqb n 32 || (Nat.leb 9 n && Nat.leb n 13).

Fixpoint trimStart (s : string) : string :=
  match s with
  | String c s' => if is_space c then trimStart s' else s
  | EmptyString => EmptyString
  end.

Fixpoint trimEnd (s : string) : string :=
  match s with
  | EmptyString => EmptyString
  | String c s' =>
      match trimEnd s' with
      | EmptyString => if is_space c then EmptyString else String c EmptyString
      | t => String c t
      end
  end.

(** [s.trim()] *)
Definition trim (s : string) : string := trimEnd (trimStart s).

(** [s.replace(/\s+/g, ' ')]: every maximal run of white space becomes one
    space. *)
Fixpoint collapseSpaces (s : string) : string :=
  match s with
  | EmptyString => EmptyString
  | String c s' =>
      if is_space c then
        match s' with
        | String c' _ => if is_space c' then collapseSpaces s'
                         else String " " (collapseSpaces s')
        | EmptyString => String " " EmptyString
        end
      else String c (collapseSpaces s')
  end.

(** The double-quote character, as a one-character string. *)
Definition dquote : string := String (ascii_of_nat 34) EmptyString.

(** Truthiness of a string: only the empty string is falsy. *)
Definition truthy (s : string) : bool := negb (String.eqb s "").

(** [a || b] on strings. *)
Definition or_else (a b : string) : string := if truthy a then a else b.

End JS.

(** ** Outcomes of calls that may throw *)

Inductive Outcome (A : Type) : Type :=
| Returned (a : A)
| Thrown (err : string).
Arguments Returned {A} a.
Arguments Thrown {A} err.

(** ** The tracker ([form-tracker]) *)

Module Tracker.

Record FieldFillRecord := mkFill {
  ffr_selector : string;
  ffr_label : string;
  ffr_value : string;
  ffr_timestamp : nat;
  ffr_success : bool;
  ffr_module : string
}.

Record FailureInfo := mkFailure {
  fi_label : string;
  fi_reason : string
}.

Record FormTracker := mkTracker {
  filledFields : gmap string FieldFillRecord;
  failedFields : gmap string FailureInfo;
  attemptedSelectors : gset string
}.

(** [new FormTracker()] *)
Definition empty : FormTracker := mkTracker ∅ ∅ ∅.

Definition isFieldFilled (selector : string) (t : FormTracker) : bool :=
  bool_decide (is_Some (filledFields t !! selector))
  || bool_decide (selector ∈ attemptedSelectors t).

Definition markAttempted (selector : string) (t : FormTracker) : FormTracker :=
  mkTracker (filledFields t) (failedFields t) ({[selector]} ∪ attemptedSelectors t).

Definition truncateValue (value : string) : string :=
  if Nat.ltb 50 (String.length value) then String.substring 0 47 value +:+ "..." else value.

Definition recordFill (now : nat) (selector label value module : string)
    (t : FormTracker) : FormTracker :=
  match filledFields t !! selector with
  | Some _ => t
  | None =>
      mkTracker
        (<[selector := mkFill selector (JS.or_else label selector) (truncateValue value)
                         now true module]> (filledFields t))
        (failedFields t) (attemptedSelectors t)
  end.

Definition recordFailure (selector label reason module : string)
    (t : FormTracker) : FormTracker :=
  mkTracker (filledFields t)
    (<[selector := mkFailure (JS.or_else label selector) reason]> (failedFields t))
    (attemptedSelectors t).

Definition getFilledCount (t : FormTracker) : nat := size (filledFields t).

Definition reset (t : FormTracker) : FormTracker := mkTracker ∅ ∅ ∅.

(** Growth of the tracker between two resets. *)
Definition grows (t t' : FormTracker) : Prop :=
  (forall s, is_Some (filledFields t !! s) -> is_Some (filledFields t' !! s))
  /\ attemptedSelectors t ⊆ attemptedSelectors t'.

End Tracker.

Import Tracker.

(** ** The page interface used by the tracked fills

    [P] is the state of the live page and [H] an element handle.  Each
    operation may throw and may change the page. *)

Class PageModel (P H : Type) := {
  (* page.$(selector) *)
  page_query : string -> P -> Outcome (option H) * P;
  (* element.isVisible() *)
  el_isVisible : H -> P -> Outcome bool * P;
  (* element.inputValue() *)
  el_inputValue : H -> P -> Outcome string * P;
  (* element.click() *)
  el_click : H -> P -> Outcome unit * P;
  (* element.fill(value) *)
  el_fill : H -> string -> P -> Outcome unit * P;
  (* element.selectOption({ label }) *)
  el_selectByLabel : H -> string -> P -> Outcome unit * P;
  (* element.selectOption({ value }) *)
  el_selectByValue : H -> string -> P -> Outcome unit * P;
  (* element.evaluate(el => el.tagName.toLowerCase()) *)
  el_tagName : H -> P -> Outcome string * P
}.

Inductive PageCall :=
| CallQuery (selector : string)
| CallIsVisible
| CallInputValue
| CallClick
| CallFill (value : string)
| CallSelectByLabel (value : string)
| CallSelectByValue (value : string)
| CallTagName.

Section Filler.

Context {P H : Type} `{PM : PageModel P H}.

(** The process state seen by the fill functions: the singleton tracker, the
    live page, the log of page calls so far and the wall clock. *)
Record World := mkWorld {
  tracker : FormTracker;
  page : P;
  calls : list PageCall;
  now : nat
}.

Definition M (A : Type) : Type := World -> Outcome A * World.

Definition ret {A} (a : A) : M A := fun w => (Returned a, w).

Definition bind {A B} (m : M A) (k : A -> M B) : M B :=
  fun w => match m w with
           | (Returned a, w') => k a w'
           | (Thrown e, w') => (Thrown e, w')
           end.

Notation "'let*' x ':=' m 'in' k" := (bind m (fun x => k))
  (at level 10, x name, m at level 100, k at level 200).

(** [try { m } catch (error) { handler(String(error)) }] *)
Definition try_catch {A} (m : M A) (handler : string -> M A) : M A :=
  fun w => match m w with
           | (Returned a, w') => (Returned a, w')
           | (Thrown e, w') => handler e w'
           end.

Definition onTracker (f : FormTracker -> FormTracker) : M unit :=
  fun w => (Returned tt, mkWorld (f (tracker w)) (page w) (calls w) (now w)).

Definition readTracker {A} (f : FormTracker -> A) : M A :=
  fun w => (Returned (f (tracker w)), w).

Definition withClock (f : nat -> FormTracker -> FormTracker) : M unit :=
  fun w => (Returned tt, mkWorld (f (now w) (tracker w)) (page w) (calls w) (now w)).

(** A call into the page: logged, then performed. *)
Definition pageCall {A} (c : PageCall) (op : P -> Outcome A * P) : M A :=
  fun w => let '(r, p') := op (page w) in
           (r, mkWorld (tracker w) p' (calls w ++ [c]) (now w)).

(** [fillTextField(page, selector, value, label, module)] *)
Definition fillTextField (selector value label module : string) : M bool :=
  let* filled := readTracker (isFieldFilled selector) in
  if filled then ret false else
  let* _ := onTracker (markAttempted selector) in
  try_catch
    (let* element := pageCall (CallQuery selector) (page_query selector) in
     match element with
     | None =>
         let* _ := onTracker (recordFailure selector label "Element not found" module) in
         ret false
     | Some el =>
         let* isVisible := pageCall CallIsVisible (el_isVisible el) in
         if negb isVisible then
           let* _ := onTracker (recordFailure selector label "Element not visible" module) in
           ret false
         else
           let* currentValue := try_catch (pageCall CallInputValue (el_inputValue el))
                                          (fun _ => ret "") in
           if String.eqb currentValue value then ret false
           else
             let* _ := pageCall CallClick (el_click el) in
             let* _ := pageCall (CallFill "") (el_fill el "") in
             let* _ := pageCall (CallFill value) (el_fill el value) in
             let* _ := withClock (fun t => recordFill t selector label value module) in
             ret true
     end)
    (fun error =>
       let* _ := onTracker (recordFailure selector label error module) in
       ret false).

(** [fillSelectField(page, selector, value, label, module)] *)
Definition fillSelectField (selector value label module : string) : M bool :=
  let* filled := readTracker (isFieldFilled selector) in
  if filled then ret false else
  let* _ := onTracker (markAttempted selector) in
  try_catch
    (let* element := pageCall (CallQuery selector) (page_query selector) in
     match element with
     | None =>
         let* _ := onTracker (recordFailure selector label "Element not found" module) in
         ret false
     | Some el =>
         try_catch
           (let* _ := pageCall (CallSelectByLabel value) (el_selectByLabel el value) in
            let* _ := withClock (fun t => recordFill t selector label value module) in
            ret true)
           (fun _ =>
              let* _ := pageCall (CallSelectByValue value) (el_selectByValue el value) in
              let* _ := withClock (fun t => recordFill t selector label value module) in
              ret true)
     end)
    (fun error =>
       let* _ := onTracker (recordFailure selector label error module) in
       ret false).

(** Step 1 of [autofillForm]: the basic fields, each tried on its candidate
    selectors until one fill succeeds.  [profileValue] is
    [getProfileValue(profile, name)] with [null] read as the empty string
    (both are skipped), [fieldSelectors] is [getFieldSelectors(atsType, name)]. *)
Definition basicFields : list (string * string) :=
  [ ("first_name", "First Name"); ("last_name", "Last Name"); ("email", "Email");
    ("phone", "Phone"); ("location", "Location"); ("linkedin", "LinkedIn");
    ("github", "GitHub") ].

Fixpoint trySelectors (selectors : list string) (value label : string) : M unit :=
  match selectors with
  | [] => ret tt
  | selector :: rest =>
      let* element := pageCall (CallQuery selector) (page_query selector) in
      match element with
      | None => trySelectors rest value label
      | Some el =>
          let* isVisible := pageCall CallIsVisible (el_isVisible el) in
          if negb isVisible then trySelectors rest value label
          else
            let* tagName := pageCall CallTagName (el_tagName el) in
            let* success :=
              (if String.eqb tagName "select"
               then fillSelectField selector value label "BasicFields"
               else fillTextField selector value label "BasicFields") in
            if success then ret tt else trySelectors rest value label
      end
  end.

Fixpoint fillBasicFields (profileValue : string -> string)
    (fieldSelectors : string -> list string) (fields : list (string * string)) : M unit :=
  match fields with
  | [] => ret tt
  | (name, label) :: rest =>
      let value := profileValue name in
      if negb (JS.truthy value) then fillBasicFields profileValue fieldSelectors rest
      else
        let* _ := trySelectors (fieldSelectors name) value label in
        fillBasicFields profileValue fieldSelectors rest
  end.

Definition autofillStep1 (profileValue : string -> string)
    (fieldSelectors : string -> list string) : M unit :=
  let* _ := onTracker reset in
  fillBasicFields profileValue fieldSelectors basicFields.

(** A sequence of tracked fill calls, as issued by the fill passes that share
    the tracker. *)
Inductive FillCall :=
| TextFill (selector value label module : string)
| SelectFill (selector value label module : string).

Definition callSelector (c : FillCall) : string :=
  match c with
  | TextFill s _ _ _ | SelectFill s _ _ _ => s
  end.

Definition runCall (c : FillCall) : M bool :=
  match c with
  | TextFill s v l m => fillTextField s v l m
  | SelectFill s v l m => fillSelectField s v l m
  end.

(** What else happens in a session between two tracked fills: another pass
    writes the tracker directly, or something acts on the page while time
    passes. *)
Inductive TrackerWrite :=
| WriteAttempted (selector : string)
| WriteFill (selector label value module : string)
| WriteFailure (selector label reason module : string).

Definition applyWrite (now : nat) (u : TrackerWrite) (t : FormTracker) : FormTracker :=
  match u with
  | WriteAttempted s => markAttempted s t
  | WriteFill s l v m => recordFill now s l v m t
  | WriteFailure s l r m => recordFailure s l r m t
  end.

Inductive SessionEvent :=
| EvFill (c : FillCall)
| EvWrite (u : TrackerWrite)
| EvOutside (f : P -> P) (elapsed : nat).

(** The result of an event is the boolean of a tracked fill, if it is one. *)
Definition runEvent (e : SessionEvent) : M (option bool) :=
  match e with
  | EvFill c => let* b := runCall c in ret (Some b)
  | EvWrite u => let* _ := withClock (fun n => applyWrite n u) in ret None
  | EvOutside f elapsed =>
      fun w => (Returned None,
                mkWorld (tracker w) (f (page w)) (calls w) (now w + elapsed))
  end.

Fixpoint runSession (es : list SessionEvent) : M (list (option bool)) :=
  match es with
  | [] => ret []
  | e :: rest =>
      let* r := runEvent e in
      let* rs := runSession rest in
      ret (r :: rs)
  end.

(** Successful tracked fills of [selector] in a session. *)
Fixpoint successesOn (selector : string) (es : list SessionEvent)
    (rs : list (option bool)) : nat :=
  match es, rs with
  | EvFill c :: es', Some b :: rs' =>
      (if b && String.eqb (callSelector c) selector then 1 else 0)
      + successesOn selector es' rs'
  | _ :: es', _ :: rs' => successesOn selector es' rs'
  | _, _ => 0
  end.

(** [await element.inputValue().catch(() => '')] *)
Definition currentValueOf (el : H) (p : P) : string * P :=
  match el_inputValue el p with
  | (Returned v, p') => (v, p')
  | (Thrown _, p') => ("", p')
  end.

(** The element behind [selector] is found, is visible and already holds
    [value]. *)
Definition AlreadyHolds (selector value : string) (w : World) : Prop :=
  exists el p1 p2 p3,
    page_query selector (page w) = (Returned (Some el), p1)
    /\ el_isVisible el p1 = (Returned true, p2)
    /\ currentValueOf el p2 = (value, p3).

(** What one tracked fill did, when it got past the already-filled check. *)
Inductive Attempt (selector value label module : string) (w : World)
  : bool -> FormTracker -> Prop :=
| AttemptFilled :
    Attempt selector value label module w true
      (recordFill (now w) selector label value module (markAttempted selector (tracker w)))
| AttemptFailed reason :
    Attempt selector value label module w false
      (recordFailure selector label reason module (markAttempted selector (tracker w)))
| AttemptSkipped :
    AlreadyHolds selector value w ->
    Attempt selector value label module w false (markAttempted selector (tracker w)).

(** The tracker records left by one attempt: a FillRecord, a failure record
    with its reason, or (last case, only under [skip]) nothing. *)
Definition Recorded (selector value label module : string) (w : World)
    (b : bool) (w' : World) (skip : Prop) : Prop :=
  (b = true
   /\ filledFields (tracker w') !! selector
       = Some (mkFill selector (JS.or_else label selector) (truncateValue value)
                 (now w) true module)
   /\ failedFields (tracker w') = failedFields (tracker w))
  \/ (b = false
      /\ (exists reason,
            failedFields (tracker w') !! selector
            = Some (mkFailure (JS.or_else label selector) reason))
      /\ filledFields (tracker w') = filledFields (tracker w))
  \/ (skip /\ b = false
      /\ filledFields (tracker w') = filledFields (tracker w)
      /\ failedFields (tracker w') = failedFields (tracker w)).

(** The probes made by the basic-fields pass itself, outside any [try]: on
    this page they return. *)
Definition ProbesReturn : Prop :=
  (forall sel (p : P), exists r p', page_query sel p = (Returned r, p'))
  /\ (forall (h : H) (p : P), exists r p', el_isVisible h p = (Returned r, p'))
  /\ (forall (h : H) (p : P), exists r p', el_tagName h p = (Returned r, p')).

End Filler.

Arguments World : clear implicits.
Arguments M : clear implicits.

(** ** A concrete page: elements addressed by their selector *)

Module SimplePage.

Record SimpleElement := mkSimple {
  se_tag : string;
  se_visible : bool;
  se_editable : bool;
  se_value : string;
  (* options of a select: (value, label) *)
  se_options : list (string * string)
}.

Definition setValue (v : string) (e : SimpleElement) : SimpleElement :=
  mkSimple (se_tag e) (se_visible e) (se_editable e) v (se_options e).

Definition withElement {A} (h : string) (p : gmap string SimpleElement)
    (f : SimpleElement -> Outcome A * gmap string SimpleElement)
    : Outcome A * gmap string SimpleElement :=
  match p !! h with
  | Some e => f e
  | None => (Thrown "Element is not attached to the DOM", p)
  end.

#[global] Instance simplePage : PageModel (gmap string SimpleElement) string := {|
  page_query := fun sel p =>
    (Returned (if bool_decide (is_Some (p !! sel)) then Some sel else None), p);
  el_isVisible := fun h p =>
    (Returned (match p !! h with Some e => se_visible e | None => false end), p);
  el_inputValue := fun h p => withElement h p (fun e => (Returned (se_value e), p));
  el_click := fun h p => withElement h p (fun e =>
    if se_visible e then (Returned tt, p) else (Thrown "Timeout exceeded", p));
  el_fill := fun h v p => withElement h p (fun e =>
    if se_visible e && se_editable e then (Returned tt, <[h := setValue v e]> p)
    else (Thrown "Element is not editable", p));
  el_selectByLabel := fun h v p => withElement h p (fun e =>
    match List.find (fun o => String.eqb (snd o) v) (se_options e) with
    | Some o => (Returned tt, <[h := setValue (fst o) e]> p)
    | None => (Thrown "No option with that label", p)
    end);
  el_selectByValue := fun h v p => withElement h p (fun e =>
    match List.find (fun o => String.eqb (fst o) v) (se_options e) with
    | Some o => (Returned tt, <[h := setValue (fst o) e]> p)
    | None => (Thrown "No option with that value", p)
    end);
  el_tagName := fun h p =>
    (Returned (match p !! h with Some e => se_tag e | None => "" end), p)
|}.

Definition start (p : gmap string SimpleElement)
    : World (gmap string SimpleElement) :=
  mkWorld Tracker.empty p [] 0.

End SimplePage.

(** ** Field extraction ([form-extractor.ts]) *)

Module Extractor.

Record FieldOption := mkOption {
  opt_value : string;
  opt_text : string
}.

Record ExtractedField := mkField {
  id : string;
  name : string;
  selector : string;
  type : string;
  label : string;
  placeholder : string;
  required : bool;
  currentValue : string;
  options : option (list FieldOption);
  groupName : option string
}.

(** The loop of [deduplicateFields]: [seen] is the [Set] of keys, [unique]
    the array built so far. *)
Fixpoint dedupLoop (fields : list ExtractedField) (seen : gset string)
    (unique : list ExtractedField) : list ExtractedField :=
  match fields with
  | [] => unique
  | field :: rest =>
      let key := JS.or_else (selector field) (label field) in
      if JS.truthy key && negb (bool_decide (key ∈ seen))
      then dedupLoop rest ({[key]} ∪ seen) (unique ++ [field])
      else dedupLoop rest seen unique
  end.

Definition deduplicateFields (fields : list ExtractedField) : list ExtractedField :=
  dedupLoop fields ∅ [].

(** What the in-page callback of [extractTextInputs] reads from the document
    for one [input] element. *)
Record LabelElement := mkLabelEl {
  le_textContent : string;
  (* labelEl.querySelector('input') is not null *)
  le_containsInput : bool
}.

Record TextInputView := mkInputView {
  in_id : string;
  in_name : string;
  in_type : string;
  (* input.getAttribute('aria-label'), None when the attribute is absent *)
  in_ariaLabel : option string;
  in_placeholder : string;
  (* text of document.querySelector(`label[for="${id}"]`), None when null *)
  in_labelFor : option string;
  (* input.closest('div, label, fieldset'), and inside it
     parent.querySelector('label, .label, [class*="label"]') *)
  in_container : option (option LabelElement);
  in_required : bool;
  in_ariaRequired : option string;
  in_value : string;
  (* computed style: display is none / visibility is hidden *)
  in_displayNone : bool;
  in_visibilityHidden : bool
}.

(** Label of a text input, lines 176-193 of [extractTextInputs]. *)
Definition textInputLabel (v : TextInputView) : string :=
  let label := JS.or_else (default "" (in_ariaLabel v)) (JS.or_else (in_placeholder v) "") in
  let label :=
    if negb (JS.truthy label) && JS.truthy (in_id v) then
      match in_labelFor v with
      | Some text => JS.or_else (JS.trim text) ""
      | None => label
      end
    else label in
  let label :=
    if negb (JS.truthy label) then
      match in_container v with
      | Some (Some labelEl) =>
          if negb (le_containsInput labelEl)
          then JS.or_else (JS.trim (le_textContent labelEl)) ""
          else label
      | _ => label
      end
    else label in
  JS.trim (JS.collapseSpaces label).

Section Scan.

(** [CSS.escape], a browser built-in. *)
Variable CSS_escape : string -> string.

Definition fieldSelector (id name : string) : string :=
  if JS.truthy id then "#" +:+ CSS_escape id
  else if JS.truthy name then "[name=" +:+ JS.dquote +:+ name +:+ JS.dquote +:+ "]"
  else "".



End Scan.

(** Label of a field in [analyzeForm] ([form-filler.ts], lines 74-88):
    [ariaLabel] and [placeholder] are [getAttribute(..) || ''], [labelFor] is
    the [textContent()] of [page.$(`label[for="${id}"]`)] when that element
    exists ([Some None] when the text content is null). *)
Definition analyzeFormLabel (ariaLabel placeholder id : string)
    (labelFor : option (option string)) : string :=
  let label := JS.or_else ariaLabel placeholder in
  let label :=
    if negb (JS.truthy label) && JS.truthy id then
      match labelFor with
      | Some text => JS.or_else (default "" text) ""
      | None => label
      end
    else label in
  JS.trim label.

(** The resolution order as the specification words it: ARIA attribute,
    explicit label association, placeholder, nearest ancestor container's
    labeled child, raw name/id, positional fallback; first non-empty wins. *)
Definition firstNonEmpty (candidates : list string) : string :=
  default "" (List.find JS.truthy candidates).

Definition containerLabelText (v : TextInputView) : string :=
  match in_container v with
  | Some (Some labelEl) =>
      if le_containsInput labelEl then "" else JS.trim (le_textContent labelEl)
  | _ => ""
  end.

Definition labelForText (v : TextInputView) : string :=
  if JS.truthy (in_id v) then JS.trim (default "" (in_labelFor v)) else "".

Definition specLabelOrder (v : TextInputView) (idx : nat) : string :=
  firstNonEmpty
    [ default "" (in_ariaLabel v);
      labelForText v;
      in_placeholder v;
      containerLabelText v;
      JS.or_else (in_name v) (in_id v);
      "Field " +:+ pretty (S idx) ].

Definition sameSelector (g f : ExtractedField) : bool :=
  String.eqb (selector f) (selector g).

(** The first-discovered record with the selector of [g]. *)
Definition firstWithSelector (g : ExtractedField) (fields : list ExtractedField)
    : option ExtractedField :=
  List.find (sameSelector g) fields.

End Extractor.

(** ** Question handler: profile paths and option matching *)

Module Questions.

(** Values of the candidate profile as loaded by [JSON.parse]. *)
#[warnings="-register-all"]
Inductive JSValue :=
| JUndefined
| JNull
| JBool (b : bool)
| JNumber (n : nat)
| JString (s : string)
| JArray (items : list JSValue)
| JObject (fields : list (string * JSValue)).

(** The candidate profile of [types/index.ts]; optional members are options
    and are left out of the JSON object when absent. *)
Record Address := mkAddress {
  street : string; city : string; state : string; zip : string; country : string
}.

Record PersonalInfo := mkPersonal {
  first_name : string;
  last_name : string;
  email : string;
  phone : string;
  phone_digits : option string;
  phone_country_code : option string;
  phone_device_type : option string;
  location : string;
  address : option Address;
  work_authorization : string;
  willing_to_relocate : option bool;
  start_date : option string;
  salary_expectation : option string;
  hourly_rate : option string;
  internship_dates : option string
}.

Record Education := mkEducation {
  school : string;
  degree : string;
  field : string;
  graduation : string;
  gpa : option string
}.

Record WorkExperience := mkWork {
  company : string;
  title : string;
  work_location : string;
  work_start_date : string;
  end_date : string;
  current : option bool;
  description : list string
}.

Record Skills := mkSkills {
  languages : list string; ml : list string; tools : list string
}.

Record Links := mkLinks {
  github : string; linkedin : string; portfolio : option string; website : option string
}.

Record ComplianceInfo := mkCompliance {
  require_sponsorship : bool;
  authorized_to_work : bool;
  is_veteran : bool;
  veteran_status : string;
  disability_status : string;
  gender : option string;
  race_ethnicity : option string;
  lgbtq : option string
}.

Record CandidateProfile := mkProfile {
  personal : PersonalInfo;
  education : list Education;
  work_experience : option (list WorkExperience);
  skills : Skills;
  links : Links;
  compliance : option ComplianceInfo;
  (* application_defaults, resume, ai_responses: kept as parsed *)
  application_defaults : option JSValue;
  resume : option JSValue;
  ai_responses : option JSValue
}.

Definition optional {A} (key : string) (f : A -> JSValue) (o : option A)
    : list (string * JSValue) :=
  match o with
  | Some a => [(key, f a)]
  | None => []
  end.

Definition strings (l : list string) : JSValue := JArray (map JString l).

Definition addressJS (a : Address) : JSValue :=
  JObject [ ("street", JString (street a)); ("city", JString (city a));
            ("state", JString (state a)); ("zip", JString (zip a));
            ("country", JString (country a)) ].

Definition personalJS (p : PersonalInfo) : JSValue :=
  JObject
    ([ ("first_name", JString (first_name p)); ("last_name", JString (last_name p));
       ("email", JString (email p)); ("phone", JString (phone p)) ]
     ++ optional "phone_digits" JString (phone_digits p)
     ++ optional "phone_country_code" JString (phone_country_code p)
     ++ optional "phone_device_type" JString (phone_device_type p)
     ++ [ ("location", JString (location p)) ]
     ++ optional "address" addressJS (address p)
     ++ [ ("work_authorization", JString (work_authorization p)) ]
     ++ optional "willing_to_relocate" JBool (willing_to_relocate p)
     ++ optional "start_date" JString (start_date p)
     ++ optional "salary_expectation" JString (salary_expectation p)
     ++ optional "hourly_rate" JString (hourly_rate p)
     ++ optional "internship_dates" JString (internship_dates p)).

Definition educationJS (e : Education) : JSValue :=
  JObject
    ([ ("school", JString (school e)); ("degree", JString (degree e));
       ("field", JString (field e)); ("graduation", JString (graduation e)) ]
     ++ optional "gpa" JString (gpa e)).

Definition workJS (x : WorkExperience) : JSValue :=
  JObject
    ([ ("company", JString (company x)); ("title", JString (title x));
       ("location", JString (work_location x));
       ("start_date", JString (work_start_date x));
       ("end_date", JString (end_date x)) ]
     ++ optional "current" JBool (current x)
     ++ [ ("description", strings (description x)) ]).

Definition skillsJS (k : Skills) : JSValue :=
  JObject [ ("languages", strings (languages k)); ("ml", strings (ml k));
            ("tools", strings (tools k)) ].

Definition linksJS (l : Links) : JSValue :=
  JObject
    ([ ("github", JString (github l)); ("linkedin", JString (linkedin l)) ]
     ++ optional "portfolio" JString (portfolio l)
     ++ optional "website" JString (website l)).

Definition complianceJS (c : ComplianceInfo) : JSValue :=
  JObject
    ([ ("require_sponsorship", JBool (require_sponsorship c));
       ("authorized_to_work", JBool (authorized_to_work c));
       ("is_veteran", JBool (is_veteran c));
       ("veteran_status", JString (veteran_status c));
       ("disability_status", JString (disability_status c)) ]
     ++ optional "gender" JString (gender c)
     ++ optional "race_ethnicity" JString (race_ethnicity c)
     ++ optional "lgbtq" JString (lgbtq c)).

(** The profile as the value that [getProfileValue] walks. *)
Definition profileJS (p : CandidateProfile) : JSValue :=
  JObject
    ([ ("personal", personalJS (personal p));
       ("education", JArray (map educationJS (education p))) ]
     ++ optional "work_experience" (fun l => JArray (map workJS l)) (work_experience p)
     ++ [ ("skills", skillsJS (skills p)); ("links", linksJS (links p)) ]
     ++ optional "compliance" complianceJS (compliance p)
     ++ optional "application_defaults" (fun v => v) (application_defaults p)
     ++ optional "resume" (fun v => v) (resume p)
     ++ optional "ai_responses" (fun v => v) (ai_responses p)).

Definition is_digit (c : ascii) : bool :=
  let n := nat_of_ascii c in Nat.leb 48 n && Nat.leb n 57.

(** [\w] *)
Definition is_word (c : ascii) : bool :=
  let n := nat_of_ascii c in
  is_digit c || (Nat.leb 65 n && Nat.leb n 90) || (Nat.leb 97 n && Nat.leb n 122)
  || Nat.eqb n 95.

(** [parseInt] on a string of decimal digits. *)
Fixpoint parseDigits (acc : nat) (s : string) : nat :=
  match s with
  | EmptyString => acc
  | String c s' => parseDigits (10 * acc + (nat_of_ascii c - 48)) s'
  end.

Definition parseInt (s : string) : nat := parseDigits 0 s.

Fixpoint all_chars (p : ascii -> bool) (s : string) : bool :=
  match s with
  | EmptyString => true
  | String c s' => p c && all_chars p s'
  end.

(** A property key that is a canonical array index: decimal digits without a
    leading zero. *)
Definition arrayIndex (key : string) : option nat :=
  match key with
  | EmptyString => None
  | String c rest =>
      if all_chars is_digit key
         && (negb (Ascii.eqb c "0") || String.eqb rest "")
      then Some (parseInt key) else None
  end.

Fixpoint assoc (key : string) (fields : list (string * JSValue)) : JSValue :=
  match fields with
  | [] => JUndefined
  | (k, v) :: rest => if String.eqb k key then v else assoc key rest
  end.

(** [value[key]] for a value that is neither null nor undefined.  Own data
    properties only: members inherited from prototypes are functions and are
    not part of the model. *)
Definition getProp (value : JSValue) (key : string) : JSValue :=
  match value with
  | JObject fields => assoc key fields
  | JArray items =>
      if String.eqb key "length" then JNumber (List.length items)
      else match arrayIndex key with
           | Some i => nth i items JUndefined
           | None => JUndefined
           end
  | JString s =>
      if String.eqb key "length" then JNumber (String.length s)
      else match arrayIndex key with
           | Some i => match String.get i s with
                       | Some c => JString (String c EmptyString)
                       | None => JUndefined
                       end
           | None => JUndefined
           end
  | _ => JUndefined
  end.

(** [fieldPath.split('.')] *)
Fixpoint splitDots (s : string) : list string :=
  match s with
  | EmptyString => [EmptyString]
  | String c s' =>
      match splitDots s' with
      | h :: t => if Ascii.eqb c "." then EmptyString :: h :: t else String c h :: t
      | [] => [String c EmptyString]
      end
  end.

(** Longest prefix of characters satisfying [p], and the rest. *)
Fixpoint span (p : ascii -> bool) (s : string) : string * string :=
  match s with
  | EmptyString => (EmptyString, EmptyString)
  | String c s' =>
      if p c then let '(w, r) := span p s' in (String c w, r)
      else (EmptyString, s)
  end.

(** A match of [(\w+)\[(\d+)\]] starting at the head of [s]. *)
Definition arrayMatchAt (s : string) : option (string * string) :=
  let '(arrName, r) := span is_word s in
  if JS.truthy arrName then
    match r with
    | String "[" r' =>
        let '(index, r'') := span is_digit r' in
        if JS.truthy index then
          match r'' with
          | String "]" _ => Some (arrName, index)
          | _ => None
          end
        else None
    | _ => None
    end
  else None.

(** [part.match(/(\w+)\[(\d+)\]/)]: the leftmost match anywhere in [part]. *)
Fixpoint arrayMatch (part : string) : option (string * string) :=
  match arrayMatchAt part with
  | Some m => Some m
  | None =>
      match part with
      | EmptyString => None
      | String _ rest => arrayMatch rest
      end
  end.

Definition isArray (v : JSValue) : bool :=
  match v with JArray _ => true | _ => false end.

Definition isNullish (v : JSValue) : bool :=
  match v with JUndefined | JNull => true | _ => false end.

(** One iteration of the loop body, after the null check. *)
Definition stepPart (value : JSValue) (part : string) : JSValue :=
  match arrayMatch part with
  | Some (arrName, index) =>
      let value := getProp value arrName in
      match value with
      | JArray items => nth (parseInt index) items JUndefined
      | _ => value
      end
  | None => getProp value part
  end.

(** The [for] loop of [getProfileValue]; [None] is the early
    [return undefined]. *)
Fixpoint walkParts (parts : list string) (value : JSValue) : option JSValue :=
  match parts with
  | [] => Some value
  | part :: rest =>
      if isNullish value then None
      else walkParts rest (stepPart value part)
  end.

Inductive ProfileValue :=
| PVString (s : string)
| PVBool (b : bool)
| PVUndefined.

Definition getProfileValue (profile : JSValue) (fieldPath : string) : ProfileValue :=
  match walkParts (splitDots fieldPath) profile with
  | None => PVUndefined
  | Some (JString s) => PVString s
  | Some (JBool b) => PVBool b
  | Some _ => PVUndefined
  end.

(** Options of a [select], as read by [page.$$eval(`${selector} option`, ..)]. *)
Record SelectOption := mkSelectOption {
  so_value : string;
  so_text : string
}.

(** The alias rule: the body of [if (optionMatches) { for ... }]. *)
Fixpoint aliasRule (options : list SelectOption) (lowerTarget : string)
    (optionMatches : list (string * list string)) : option string :=
  match optionMatches with
  | [] => None
  | (key, matches) :: rest =>
      if existsb (fun m => JS.includes lowerTarget (JS.toLowerCase m)) matches then
        match List.find (fun o =>
                 JS.includes (JS.toLowerCase (so_text o)) key
                 || JS.includes (JS.toLowerCase (so_value o)) key
                 || existsb (fun m => JS.includes (JS.toLowerCase (so_text o))
                                                  (JS.toLowerCase m)) matches)
                options with
        | Some opt => Some (so_value opt)
        | None => aliasRule options lowerTarget rest
        end
      else aliasRule options lowerTarget rest
  end.

(** The predicate of the "direct text match" [find]. *)
Definition exactTest (lowerTarget : string) (o : SelectOption) : bool :=
  String.eqb (JS.toLowerCase (so_text o)) lowerTarget
  || String.eqb (JS.toLowerCase (so_value o)) lowerTarget.

(** The predicate of the "partial match" [find]. *)
Definition partialTest (lowerTarget : string) (o : SelectOption) : bool :=
  JS.includes (JS.toLowerCase (so_text o)) lowerTarget
  || JS.includes lowerTarget (JS.toLowerCase (so_text o)).

Definition exactRule (options : list SelectOption) (lowerTarget : string)
    : option SelectOption :=
  List.find (exactTest lowerTarget) options.

Definition partialRule (options : list SelectOption) (lowerTarget : string)
    : option SelectOption :=
  List.find (partialTest lowerTarget) options.

(** The alias rule as [findMatchingOption] applies it: skipped without a
    table. *)
Definition aliasPart (options : list SelectOption) (lowerTarget : string)
    (optionMatches : option (list (string * list string))) : option string :=
  match optionMatches with
  | Some entries => aliasRule options lowerTarget entries
  | None => None
  end.

(** [findMatchingOption]: [pageOptions] is the outcome of the [$$eval] call
    (a throw is caught and gives [null]); [optionMatches] are the entries of
    the optional alias table in insertion order. *)
Definition findMatchingOption (pageOptions : Outcome (list SelectOption))
    (targetValue : string) (optionMatches : option (list (string * list string)))
    : option string :=
  match pageOptions with
  | Thrown _ => None
  | Returned options =>
      let lowerTarget := JS.toLowerCase targetValue in
      match aliasPart options lowerTarget optionMatches with
      | Some v => Some v
      | None =>
          match exactRule options lowerTarget with
          | Some exactMatch => Some (so_value exactMatch)
          | None =>
              match partialRule options lowerTarget with
              | Some partialMatch => Some (so_value partialMatch)
              | None => None
              end
          end
      end
  end.

End Questions.

(** ** A document model for the selector queries

    An element carries what the callbacks read: tag, attributes, text content,
    layout box and the computed style properties that are tested.  A document
    is the list of its elements in document order.  The selectors the code
    writes are compound selectors without combinators, in comma-separated
    lists. *)

Module Dom.

Record Element := mkElement {
  (* tag and attribute names as the document writes them: HTML reads both
     without regard to ASCII case *)
  tag : string;
  attrs : list (string * string);
  textContent : string;
  (* getBoundingClientRect() *)
  box_width : nat;
  box_height : nat;
  (* computed style *)
  visibilityHidden : bool;
  pointerEventsNone : bool;
  opacityZero : bool;
  (* another element would receive a click at this element's position *)
  obscured : bool;
  (* document.getElementById('job-agent-overlay').contains(el) *)
  inOverlay : bool;
  (* disabled through an ancestor: a form control inside a disabled fieldset,
     or an element below an ancestor with aria-disabled="true" *)
  disabledByAncestor : bool
}.

(** [el.localName] *)
Definition localName (e : Element) : string := JS.toLowerCase (tag e).

(** [el.getAttribute(name)]: the first attribute of that name. *)
Fixpoint getAttribute (name : string) (l : list (string * string)) : option string :=
  match l with
  | [] => None
  | (k, v) :: rest =>
      if String.eqb (JS.toLowerCase k) (JS.toLowerCase name) then Some v
      else getAttribute name rest
  end.

Definition hasAttribute (name : string) (e : Element) : bool :=
  bool_decide (is_Some (getAttribute name (attrs e))).

(** The white space on which HTML splits an attribute into tokens: space,
    tab, line feed, form feed and carriage return. *)
Definition html_space (c : ascii) : bool :=
  let n := nat_of_ascii c in
  Nat.eqb n 32 || Nat.eqb n 9 || Nat.eqb n 10 || Nat.eqb n 12 || Nat.eqb n 13.

(** Split on white space, dropping empty tokens ([classList]). *)
Fixpoint tokens (cur : string) (s : string) : list string :=
  match s with
  | EmptyString => if JS.truthy cur then [cur] else []
  | String c s' =>
      if html_space c
      then (if JS.truthy cur then [cur] else []) ++ tokens EmptyString s'
      else tokens (cur +:+ String c EmptyString) s'
  end.

Definition classList (e : Element) : list string :=
  tokens EmptyString (default "" (getAttribute "class" (attrs e))).

Definition hasClass (cls : string) (e : Element) : bool :=
  existsb (String.eqb cls) (classList e).

Inductive AttrTest :=
| AttrIs (name value : string)       (* [name="value"] *)
| AttrHas (name sub : string)        (* [name*="sub"] *)
| AttrHasCI (name sub : string).     (* [name*="sub" i] *)

Record Compound := mkCompound {
  c_tag : option string;
  c_id : option string;
  c_class : option string;
  c_attrs : list AttrTest;
  (* Playwright's :has-text("...") *)
  c_hasText : option string
}.

Definition Selector := list Compound.

(** Attributes whose values an HTML document compares without regard to
    ASCII case in an attribute selector. *)
Definition caseInsensitiveValue (name : string) : bool :=
  existsb (String.eqb name)
    [ "accept"; "accept-charset"; "align"; "alink"; "axis"; "bgcolor"; "charset";
      "checked"; "clear"; "codetype"; "color"; "compact"; "declare"; "defer"; "dir";
      "direction"; "disabled"; "enctype"; "face"; "frame"; "hreflang"; "http-equiv";
      "lang"; "language"; "link"; "media"; "method"; "multiple"; "nohref"; "noresize";
      "noshade"; "nowrap"; "readonly"; "rel"; "rev"; "rules"; "scope"; "scrolling";
      "selected"; "shape"; "target"; "text"; "type"; "valign"; "valuetype"; "vlink" ].

(** The value as the comparison of the selector sees it. *)
Definition comparedValue (name value : string) : string :=
  if caseInsensitiveValue name then JS.toLowerCase value else value.

(** A substring test with an empty substring matches nothing. *)
Definition attrTest (t : AttrTest) (e : Element) : bool :=
  match t with
  | AttrIs n v =>
      match getAttribute n (attrs e) with
      | Some a => String.eqb (comparedValue n a) (comparedValue n v)
      | None => false
      end
  | AttrHas n sub =>
      match getAttribute n (attrs e) with
      | Some a => JS.truthy sub && JS.includes (comparedValue n a) (comparedValue n sub)
      | None => false
      end
  | AttrHasCI n sub =>
      match getAttribute n (attrs e) with
      | Some a => JS.truthy sub && JS.includes (JS.toLowerCase a) (JS.toLowerCase sub)
      | None => false
      end
  end.

Definition normalizeText (s : string) : string :=
  JS.toLowerCase (JS.trim (JS.collapseSpaces s)).

(** [:has-text(t)]: case-insensitive substring of the white-space-normalized
    text content. *)
Definition hasText (t : string) (e : Element) : bool :=
  JS.includes (normalizeText (textContent e)) (normalizeText t).

Definition optTest {A} (o : option A) (f : A -> bool) : bool :=
  match o with
  | Some a => f a
  | None => true
  end.

(** The type selectors that the code writes are in lower case. *)
Definition matchesCompound (c : Compound) (e : Element) : bool :=
  optTest (c_tag c) (fun t => String.eqb t (localName e))
  && optTest (c_id c) (fun i => bool_decide (getAttribute "id" (attrs e) = Some i))
  && optTest (c_class c) (fun k => hasClass k e)
  && forallb (fun t => attrTest t e) (c_attrs c)
  && optTest (c_hasText c) (fun t => hasText t e).

Definition matchesSel (sel : Selector) (e : Element) : bool :=
  existsb (fun c => matchesCompound c e) sel.

(** [page.$$(sel)] *)
Definition queryAll (sel : Selector) (doc : list Element) : list Element :=
  List.filter (matchesSel sel) doc.

(** [page.$(sel)] *)
Definition query (sel : Selector) (doc : list Element) : option Element :=
  List.find (matchesSel sel) doc.

(** Playwright's [isVisible()]: a non-empty bounding box and no
    [visibility: hidden]. *)
Definition isVisible (e : Element) : bool :=
  Nat.ltb 0 (box_width e) && Nat.ltb 0 (box_height e) && negb (visibilityHidden e).

(** Selector constructors, one per shape used in the source. *)
Definition anyEl : Compound := mkCompound None None None [] None.
Definition byTag (t : string) : Compound := mkCompound (Some t) None None [] None.
Definition byId (i : string) : Compound := mkCompound None (Some i) None [] None.
Definition byClass (k : string) : Compound := mkCompound None None (Some k) [] None.
Definition byAttr (a : AttrTest) : Compound := mkCompound None None None [a] None.
Definition tagAttr (t : string) (a : AttrTest) : Compound :=
  mkCompound (Some t) None None [a] None.
Definition tagText (t text : string) : Compound :=
  mkCompound (Some t) None None [] (Some text).


End Dom.

(** ** Page-state detection ([application-navigator.ts]) *)

Module Navigator.

Import Dom.

Record Page := mkPage {
  url : string;
  (* page.textContent('body') || '' *)
  bodyText : string;
  elements : list Element
}.

(** [JOB_LISTING_INDICATORS.searchFields] *)
Definition searchFields : list Selector :=
  [ [tagAttr "input" (AttrHas "placeholder" "Search by Keyword")];
    [tagAttr "input" (AttrHas "placeholder" "Search by Location")];
    [tagAttr "input" (AttrHas "name" "searchKeyword")];
    [tagAttr "select" (AttrHas "aria-label" "Job Function")];
    [tagAttr "select" (AttrHas "aria-label" "Brand")];
    [tagAttr "select" (AttrHas "aria-label" "Job Type")];
    [byAttr (AttrIs "data-testid" "job-search")];
    [byClass "job-search-form"];
    [byClass "job-filters"] ].

(** The name, e-mail and phone markers of [APPLICATION_FORM_INDICATORS]. *)
Definition personalInfoMarkers : list Selector :=
  [ [tagAttr "input" (AttrHas "name" "firstName")];
    [tagAttr "input" (AttrHas "name" "first_name")];
    [tagAttr "input" (AttrHas "name" "lastName")];
    [tagAttr "input" (AttrHas "name" "last_name")];
    [tagAttr "input" (AttrHas "name" "email")];
    [tagAttr "input" (AttrHas "name" "phone")] ].

(** Its resume-upload markers. *)
Definition resumeMarkers : list Selector :=
  [ [tagAttr "input" (AttrIs "type" "file")];
    [byAttr (AttrHas "class" "resume-upload")];
    [byAttr (AttrHas "class" "resumeUpload")];
    [tagText "button" "Upload Resume"];
    [tagText "button" "Upload CV"] ].

(** [APPLICATION_FORM_INDICATORS] *)
Definition APPLICATION_FORM_INDICATORS : list Selector :=
  personalInfoMarkers ++ resumeMarkers ++
  [ [tagAttr "form" (AttrHas "class" "application")];
    [tagAttr "form" (AttrHas "id" "application")];
    [byAttr (AttrHas "class" "application-form")];
    [byAttr (AttrHas "class" "applicationForm")];
    [byId "application-form"];
    [byId "application"];
    [byClass "application-form"];
    [byClass "posting-application"];
    [byClass "application-page"];
    [byAttr (AttrIs "data-automation-id" "applicationForm")];
    [tagAttr "input" (AttrHas "name" "school")];
    [tagAttr "input" (AttrHas "name" "university")];
    [tagAttr "input" (AttrHas "name" "degree")];
    [tagAttr "input" (AttrHas "name" "company")] ].


(** Visible matches of one selector: [page.$$(selector)], then [isVisible()]
    on each, summed. *)
Definition visibleCount (doc : list Element) (sel : Selector) : nat :=
  List.length (List.filter isVisible (queryAll sel doc)).

(** The counter accumulated over a list of selectors. *)
Definition countVisible (sels : list Selector) (doc : list Element) : nat :=
  fold_left (fun acc sel => acc + visibleCount doc sel) sels 0.

Definition searchFieldCount (p : Page) : nat := countVisible searchFields (elements p).

Definition applicationFieldCount (p : Page) : nat :=
  countVisible APPLICATION_FORM_INDICATORS (elements p).


(** The first loop of [isApplicationFormPage]: [true] is the early return. *)
Fixpoint markerLoop (sels : list Selector) (doc : list Element) (foundCount : nat) : bool :=
  match sels with
  | [] => false
  | sel :: rest =>
      match query sel doc with
      | Some element =>
          if isVisible element then
            if Nat.leb 2 (S foundCount) then true
            else markerLoop rest doc (S foundCount)
          else markerLoop rest doc foundCount
      | None => markerLoop rest doc foundCount
      end
  end.

Definition nameFieldSel : Selector :=
  [ tagAttr "input" (AttrHasCI "name" "name");
    tagAttr "input" (AttrHasCI "placeholder" "name") ].

Definition emailFieldSel : Selector :=
  [ tagAttr "input" (AttrIs "type" "email");
    tagAttr "input" (AttrHasCI "name" "email") ].

Definition isApplicationFormPage (p : Page) : bool :=
  if markerLoop APPLICATION_FORM_INDICATORS (elements p) 0 then true
  else
    match query nameFieldSel (elements p), query emailFieldSel (elements p) with
    | Some _, Some _ => true
    | _, _ => false
    end.




(** A marker is present and visible: [page.$] finds an element for it and
    that element is visible. *)
Definition markerPresent (doc : list Element) (sel : Selector) : bool :=
  match query sel doc with
  | Some element => isVisible element
  | None => false
  end.



(** The URL rule of [isJobListingPage]. *)
Definition jobUrl (p : Page) : bool :=
  JS.includes (url p) "/job/" && negb (JS.includes (url p) "/apply").

End Navigator.

(** ** The agentic form filler: observation of buttons, execution of a
    [click_button] action, and the agent loop *)

Module Agent.

Import Dom.

Inductive ButtonType := BAdd | BNext | BSubmit | BOther.

Record ObservedButton := mkButton {
  ob_selector : string;
  ob_text : string;
  ob_type : ButtonType
}.

Record AgentAction := mkAction {
  a_type : string;
  a_target : option string;
  a_value : option string;
  a_reason : string
}.

Record AgentResult := mkResult {
  success : bool;
  steps : nat;
  reason : string
}.

(** [(el as HTMLButtonElement).disabled]: the property exists on form
    controls and reflects the attribute. *)
Definition disabledProp (e : Element) : bool :=
  hasAttribute "disabled" e
  && existsb (String.eqb (localName e))
       ["button"; "input"; "select"; "textarea"; "fieldset"; "optgroup"; "option"].

Definition isDisabled (e : Element) : bool :=
  hasAttribute "disabled" e
  || bool_decide (getAttribute "aria-disabled" (attrs e) = Some "true")
  || disabledProp e
  || hasClass "disabled" e.

Definition buttonSelectors : list Selector :=
  [ [byTag "button"];
    [tagAttr "a" (AttrIs "role" "button")];
    [byAttr (AttrHas "class" "btn")];
    [tagAttr "input" (AttrIs "type" "submit")];
    [tagAttr "input" (AttrIs "type" "button")] ].

Definition classifyButton (text ariaLabel : string) : ButtonType :=
  if JS.includes text "add" || JS.includes ariaLabel "add" then BAdd
  else if JS.includes text "next" || JS.includes text "continue"
          || JS.includes text "save and continue" then BNext
  else if JS.includes text "submit" || JS.includes text "apply" then BSubmit
  else BOther.

Definition isOther (t : ButtonType) : bool :=
  match t with BOther => true | _ => false end.

Definition hasTextSelector (el : Element) : string :=
  "button:has-text(" +:+ JS.dquote +:+ JS.trim (textContent el) +:+ JS.dquote +:+ ")".

(** The callback run on every match of a button selector in [observePage]. *)
Definition observeButton (el : Element) : option ObservedButton :=
  if inOverlay el then None
  else
    let text := JS.toLowerCase (JS.trim (textContent el)) in
    let ariaLabel := JS.toLowerCase (default "" (getAttribute "aria-label" (attrs el))) in
    let isVisible := Nat.ltb 0 (box_width el) && Nat.ltb 0 (box_height el) in
    if negb isVisible then None
    else
      let isClickable :=
        negb (pointerEventsNone el) && negb (opacityZero el) && negb (isDisabled el) in
      let buttonType := classifyButton text ariaLabel in
      if isClickable && (negb (isOther buttonType) || Nat.ltb (String.length text) 30)
      then Some (mkButton
                   (match getAttribute "id" (attrs el) with
                    | Some i => if JS.truthy i then "#" +:+ i else hasTextSelector el
                    | None => hasTextSelector el
                    end)
                   (JS.trim (textContent el))
                   buttonType)
      else None.

(** Elements behind [result.buttons], in the order they are pushed. *)
Definition observedButtonElements (doc : list Element) : list Element :=
  flat_map (fun sel => List.filter (fun el => bool_decide (is_Some (observeButton el)))
                                   (queryAll sel doc))
           buttonSelectors.

(** [result.buttons] of [observePage]. *)
Definition observeButtons (doc : list Element) : list ObservedButton :=
  flat_map (fun sel => omap observeButton (queryAll sel doc)) buttonSelectors.

(** The [isEnabled] callback of [executeAction]. *)
Definition isEnabled (e : Element) : bool :=
  negb (hasAttribute "disabled" e)
  && negb (bool_decide (getAttribute "aria-disabled" (attrs e) = Some "true"))
  && negb (disabledProp e)
  && negb (hasClass "disabled" e).

(** Playwright's [click({ force: false })] returns when the element is
    visible, receives pointer events at its position and passes the enabled
    check (it is not a disabled control and is not disabled through an
    ancestor); otherwise it throws after the timeout. *)
Definition clickReturns (e : Element) : bool :=
  isVisible e && negb (pointerEventsNone e) && negb (obscured e)
  && negb (disabledProp e) && negb (disabledByAncestor e).

Definition exactButtonSel (target : string) : Selector :=
  [ tagText "button" target;
    tagText "a" target;
    mkCompound None None None [AttrIs "role" "button"] (Some target) ].

(** The selector string of the first strategy, with the target interpolated
    between double quotes. *)
Definition exactButtonQuery (target : string) : string :=
  "button:has-text(" +:+ JS.dquote +:+ target +:+ JS.dquote
  +:+ "), a:has-text(" +:+ JS.dquote +:+ target +:+ JS.dquote
  +:+ "), [role=" +:+ JS.dquote +:+ "button" +:+ JS.dquote
  +:+ "]:has-text(" +:+ JS.dquote +:+ target +:+ JS.dquote +:+ ")".

Definition partialButtonSel : Selector :=
  [ byTag "button";
    tagAttr "a" (AttrIs "role" "button");
    byAttr (AttrIs "role" "button") ].

(** The partial-match predicate of the fallback loop. *)
Definition partialMatch (target : string) (btn : Element) : bool :=
  JS.truthy (textContent btn)
  && JS.includes (JS.toLowerCase (textContent btn)) (JS.toLowerCase target).

Section Click.

(** Playwright's reading of a selector string; [page.$] throws on a string
    that is not a selector, as the interpolated one is for a target with a
    double quote in it. *)
Variable parseSelector : string -> Outcome Selector.
(** Whether the wait that follows the click of an element returns: it throws
    when [page.waitForTimeout] rejects first, as on a page that the click has
    closed. *)
Variable waitSettles : Element -> bool.

(** The interpolated string, when Playwright reads it as a selector, is read
    as the three alternatives around the target. *)
Definition readsAsWritten (target : string) : Prop :=
  forall sel, parseSelector (exactButtonQuery target) = Returned sel ->
              sel = exactButtonSel target.

(** The two strategies that locate the button. *)
Definition findButton (target : string) (doc : list Element) : Outcome (option Element) :=
  match parseSelector (exactButtonQuery target) with
  | Thrown err => Thrown err
  | Returned sel =>
      match query sel doc with
      | Some button => Returned (Some button)
      | None => Returned (List.find (partialMatch target) (queryAll partialButtonSel doc))
      end
  end.

(** The [click_button] case of [executeAction]: the boolean returned, and the
    element that received the click, if any.  A throw of the search lands in
    the [catch] that ends [executeAction]; a throw of the click or of the wait
    after it in the [catch] around them. *)
Definition clickButton (target : option string) (doc : list Element)
    : bool * option Element :=
  match target with
  | None => (false, None)
  | Some t =>
      if negb (JS.truthy t) then (false, None)
      else
        match findButton t doc with
        | Thrown _ => (false, None)
        | Returned (Some button) =>
            if negb (isEnabled button) then (false, None)
            else if clickReturns button then
              (if waitSettles button then (true, Some button) else (false, Some button))
            else (false, None)
        | Returned None => (false, None)
        end
  end.

End Click.

(** Elements a [click_button] action can reach: [button], [a] and
    [[role="button"]] elements. *)
Definition buttonLike (e : Element) : bool :=
  matchesSel [byTag "button"; byTag "a"; byAttr (AttrIs "role" "button")] e.

(** The target is a case-insensitive substring of the element's text, after
    white-space normalization ([:has-text]) or as it is (the fallback loop). *)
Definition textMatches (target : string) (e : Element) : bool :=
  hasText target e || partialMatch target e.

(** *** The loop of [runFormAgent] *)

Definition actionKey (action : AgentAction) : string :=
  a_type action +:+ ":" +:+ JS.or_else (default "" (a_target action)) "".

(** [recentActions.push(key); if (recentActions.length > 5) recentActions.shift()] *)
Definition pushRecent (recentActions : list string) (key : string) : list string :=
  let r := (recentActions ++ [key])%list in
  if Nat.ltb 5 (List.length r) then tail r else r.

(** The last five entries of a list of keys. *)
Definition lastFive (keys : list string) : list string :=
  drop (length keys - 5) keys.

Definition sameActionCount (recentActions : list string) (key : string) : nat :=
  List.length (List.filter (String.eqb key) recentActions).

Record LoopState := mkLoop {
  ls_steps : nat;
  ls_consecutiveFailures : nat;
  ls_recentActions : list string;
  ls_actionHistory : list string
}.

Definition initialLoop : LoopState := mkLoop 0 0 [] [].

Definition targetText (action : AgentAction) : string :=
  JS.or_else (default "" (a_target action)) "".

Section Loop.

(** [W] is the state of the page and of the oracle; [Obs] the observation
    with the prompt built from it.  Every awaited call may throw.  A throw of
    [executeAction] is caught by the loop's [try]; [observePage],
    [decideAction] and [page.waitForTimeout] are awaited outside of it, so
    their throw rejects the run.  The resume text, loaded before the loop by
    a function that catches its own failures, only enters the prompt. *)
Context {W Obs : Type}.
Variable observePage : W -> Outcome Obs * W.
Variable decideAction : Obs -> list string -> W -> Outcome AgentAction * W.
Variable executeAction : AgentAction -> W -> Outcome bool * W.
Variable waitForTimeout : nat -> W -> Outcome unit * W.

Inductive StepResult :=
| Stop (r : AgentResult)
| Continue (st : LoopState)
| Raise (err : string).

(** [await page.waitForTimeout(100)] at the end of the body, then the next
    iteration with the updated counters. *)
Definition pause (st : LoopState) (w : W) : StepResult * W :=
  match waitForTimeout 100 w with
  | (Returned _, w') => (Continue st, w')
  | (Thrown err, w') => (Raise err, w')
  end.

(** One iteration of the [while] body. *)
Definition agentStep (st : LoopState) (w : W) : StepResult * W :=
  let steps := S (ls_steps st) in
  match observePage w with
  | (Thrown err, w1) => (Raise err, w1)
  | (Returned observation, w1) =>
  match decideAction observation (ls_actionHistory st) w1 with
  | (Thrown err, w2) => (Raise err, w2)
  | (Returned action, w2) =>
      let key := actionKey action in
      let recentActions := pushRecent (ls_recentActions st) key in
      if Nat.leb 3 (sameActionCount recentActions key) then
        (Stop (mkResult false steps
                 ("Action loop detected: " +:+ a_type action +:+ " - " +:+ targetText action)),
         w2)
      else
        let actionHistory :=
          (ls_actionHistory st ++
           ["Step " +:+ pretty steps +:+ ": " +:+ a_type action +:+ " - "
              +:+ targetText action +:+ " - " +:+ a_reason action])%list in
        if String.eqb (a_type action) "done" then
          (Stop (mkResult true steps (a_reason action)), w2)
        else if String.eqb (a_type action) "need_help" then
          (Stop (mkResult false steps (a_reason action)), w2)
        else
          match executeAction action w2 with
          | (Returned true, w3) =>
              pause (mkLoop steps 0 recentActions actionHistory) w3
          | (Returned false, w3) =>
              let cf := S (ls_consecutiveFailures st) in
              let cf := if String.eqb (a_type action) "click_button" && Nat.ltb cf 5
                        then Nat.max 0 (cf - 1) else cf in
              if Nat.leb 5 cf then
                (Stop (mkResult false steps
                         ("Too many failed actions. Last action: " +:+ a_type action
                            +:+ " - " +:+ targetText action)),
                 w3)
              else
                pause (mkLoop steps cf recentActions actionHistory) w3
          | (Thrown error, w3) =>
              let cf := S (ls_consecutiveFailures st) in
              if Nat.leb 5 cf then
                (Stop (mkResult false steps ("Action execution error: " +:+ error)), w3)
              else
                pause (mkLoop steps cf recentActions actionHistory) w3
          end
  end
  end.

(** [while (steps < maxSteps) { ... }]: [remaining] is [maxSteps - steps].  A
    [Thrown] outcome is the rejected promise of [runFormAgent]. *)
Fixpoint agentLoop (remaining : nat) (st : LoopState) (w : W)
    : Outcome AgentResult * W :=
  match remaining with
  | 0 => (Returned (mkResult false (ls_steps st) "Max steps reached"), w)
  | S remaining' =>
      match agentStep st w with
      | (Stop r, w') => (Returned r, w')
      | (Raise err, w') => (Thrown err, w')
      | (Continue st', w') => agentLoop remaining' st' w'
      end
  end.

Definition runFormAgent (maxSteps : nat) (w : W) : Outcome AgentResult * W :=
  agentLoop maxSteps initialLoop w.

End Loop.

End Agent.

(** * Further parts of the code *)

(** ** Tracker writes by kind *)

(** The write is a [recordFailure] on [selector]. *)
Definition isFailureOn (selector : string) (u : TrackerWrite) : bool :=
  match u with
  | WriteFailure s _ _ _ => String.eqb s selector
  | _ => false
  end.

(** ** Page calls by kind *)

(** The call only reads the page: [page.$], [isVisible()], [inputValue()] or
    the tag-name [evaluate]. *)
Definition isProbe (c : PageCall) : bool :=
  match c with
  | CallQuery _ | CallIsVisible | CallInputValue | CallTagName => true
  | _ => false
  end.

(** A candidate selector that gives nothing to fill on page [p]: no element,
    or an element that is not visible; the probe leaves the page as it is. *)
Definition nothingToFill {P H : Type} `{PM : PageModel P H} (p : P) (selector : string)
    : Prop :=
  page_query selector p = (Returned None, p)
  \/ exists el, page_query selector p = (Returned (Some el), p)
                /\ el_isVisible el p = (Returned false, p).

(** ** Markers matched by one element *)

Definition markersMatched (sels : list Dom.Selector) (e : Dom.Element) : nat :=
  length (List.filter (fun sel => Dom.matchesSel sel e) sels).

(** ** States of the agent loop *)

(** The loop state after [i] steps that each executed the next action of
    [script] and failed. *)
Definition afterFailures (script : nat -> Agent.AgentAction) (i : nat)
    (st : Agent.LoopState) : Prop :=
  Agent.ls_steps st = i /\ Agent.ls_consecutiveFailures st = i
  /\ Agent.ls_recentActions st = map (fun i => Agent.actionKey (script i)) (seq 0 i)
  /\ length (Agent.ls_actionHistory st) = i.

(** ** The other scans of [form-extractor.ts] and [extractFormFields]

    As for the text inputs, each in-page callback is given what it reads from
    the document for one element. *)

Module Scans.

Import Extractor.

(** [el.textContent?.trim() || ''] *)
Definition trimmedText (text : string) : string := JS.or_else (JS.trim text) "".

(** [label.replace(/\s+/g, ' ').trim()] *)
Definition cleanLabel (label : string) : string := JS.trim (JS.collapseSpaces label).

(** A [try { fields.push(...await scan()) } catch { }] step. *)
Definition orEmpty {A} (scan : Outcome (list A)) : list A :=
  match scan with
  | Returned l => l
  | Thrown _ => []
  end.

Record TextareaView := mkTextareaView {
  ta_id : string;
  ta_name : string;
  ta_ariaLabel : option string;
  ta_placeholder : string;
  (* text of document.querySelector(`label[for="${id}"]`), None when null *)
  ta_labelFor : option string;
  (* textarea.closest('div, fieldset'), and inside it
     parent.querySelector('label, .label') *)
  ta_container : option (option string);
  ta_required : bool;
  ta_value : string;
  ta_displayNone : bool;
  ta_visibilityHidden : bool
}.

Record SelectView := mkSelectView {
  sv_id : string;
  sv_name : string;
  sv_ariaLabel : option string;
  sv_labelFor : option string;
  (* select.closest('div[class*="field"], div[class*="form"]'), and inside it
     parent.querySelector('label') *)
  sv_container : option (option string);
  (* select.options: value and text content of each *)
  sv_options : list (string * string);
  sv_required : bool;
  sv_value : string;
  sv_displayNone : bool;
  sv_visibilityHidden : bool
}.

Record CheckboxView := mkCheckboxView {
  cb_id : string;
  cb_name : string;
  cb_labelFor : option string;
  (* text of checkbox.closest('label') *)
  cb_closestLabel : option string;
  (* checkbox.closest('div'), and inside it parent.querySelector('label, span') *)
  cb_closestDiv : option (option string);
  cb_required : bool;
  cb_checked : bool;
  cb_displayNone : bool;
  cb_visibilityHidden : bool
}.

(** What [extractSingleDropdown] reads from a custom dropdown container. *)
Record DropdownView := mkDropdownView {
  dv_id : string;
  dv_testid : option string;
  dv_ariaLabel : option string;
  (* htmlEl.closest('div[class*="field"], div[class*="form-group"], fieldset, label'),
     inside it parent.querySelector('label, [class*="label"]'): its text and
     whether it contains the container *)
  dv_parentLabel : option (option (string * bool));
  (* text of htmlEl.querySelector('[class*="single-value"], ...') *)
  dv_valueEl : option string;
  (* id and name of htmlEl.querySelector('input') *)
  dv_input : option (string * string)
}.

(** What [getDropdownOptionsWithoutClick] reads: the text contents of the
    options of the linked listbox, when [aria-controls] or [aria-owns] names an
    element of the document, and those of the option elements inside the
    container. *)
Record OptionSources := mkOptionSources {
  os_listbox : option (list string);
  os_visible : list string
}.

(** A container handle: each of the two [evaluate] calls may throw. *)
Record DropdownContainer := mkContainer {
  dc_info : Outcome DropdownView;
  dc_options : Outcome OptionSources
}.

Record RadioScanView := mkRadioScan {
  rs_name : string;
  rs_displayNone : bool;
  rs_visibilityHidden : bool
}.

Record RadioInput := mkRadioInput {
  ri_id : string;
  ri_value : string;
  ri_labelFor : option string;
  (* text of radio.closest('label') *)
  ri_closestLabel : option string;
  ri_checked : bool;
  ri_required : bool
}.

Record RadioGroupView := mkRadioGroup {
  rg_radios : list RadioInput;
  (* first.closest('fieldset'), and the text of its legend *)
  rg_fieldset : option (option string);
  (* first.closest('div[class*="field"], ...'), and the text of
     parent.querySelector('label:not([for]), [class*="label"], h3, h4, legend') *)
  rg_parent : option (option string)
}.

(** The live page as the extraction reads it. *)
Record FormPage := mkFormPage {
  fp_url : string;
  fp_title : Outcome string;
  fp_inputs : Outcome (list TextInputView);
  fp_textareas : Outcome (list TextareaView);
  fp_selects : Outcome (list SelectView);
  (* page.$$(selector) for a dropdown pattern *)
  fp_containers : string -> Outcome (list DropdownContainer);
  fp_radios : Outcome (list RadioScanView);
  (* page.$$eval(`input[type="radio"][name="${groupName}"]`, ..) *)
  fp_radioGroup : string -> Outcome RadioGroupView;
  fp_checkboxes : Outcome (list CheckboxView)
}.


(** [getDropdownOptionsWithoutClick] *)
Definition pushListboxOption (options : list FieldOption) (opt : string)
    : list FieldOption :=
  let text := JS.trim opt in
  if JS.truthy text then options ++ [mkOption text text] else options.

Definition pushVisibleOption (options : list FieldOption) (opt : string)
    : list FieldOption :=
  let text := JS.trim opt in
  if JS.truthy text
     && negb (bool_decide (is_Some (List.find (fun o => String.eqb (opt_text o) text) options)))
  then options ++ [mkOption text text] else options.

Definition getDropdownOptionsWithoutClick (sources : Outcome OptionSources)
    : list FieldOption :=
  match sources with
  | Thrown _ => []
  | Returned src =>
      let options := fold_left pushListboxOption (default [] (os_listbox src)) [] in
      let options := fold_left pushVisibleOption (os_visible src) options in
      take 20 options
  end.

Section WithEscape.

(** [CSS.escape] inside the page, and the same call made from the Node
    process by [extractSingleDropdown], where it may throw. *)
Variable CSS_escape : string -> string.
Variable nodeEscape : string -> Outcome string.








(** The [info] object of [extractSingleDropdown]. *)
Record DropdownInfo := mkInfo {
  info_id : string;
  info_label : string;
  info_currentValue : string;
  info_inputId : string;
  info_inputName : string
}.

Definition dropdownInfo (v : DropdownView) : DropdownInfo :=
  let id := JS.or_else (dv_id v) (JS.or_else (default "" (dv_testid v)) "") in
  let label := JS.or_else (default "" (dv_ariaLabel v)) "" in
  let label :=
    if negb (JS.truthy label) then
      match dv_parentLabel v with
      | Some (Some (text, containsEl)) => if negb containsEl then trimmedText text else label
      | _ => label
      end
    else label in
  let currentValue :=
    match dv_valueEl v with
    | Some text => trimmedText text
    | None => ""
    end in
  mkInfo id label currentValue
    (JS.or_else (default "" (fst <$> dv_input v)) "")
    (JS.or_else (default "" (snd <$> dv_input v)) "").

(** [extractSingleDropdown]: [None] is [null]. *)
Definition extractSingleDropdown (container : DropdownContainer) : option ExtractedField :=
  match dc_info container with
  | Thrown _ => None
  | Returned v =>
      let info := dropdownInfo v in
      if negb (JS.truthy (info_label info)) && negb (JS.truthy (info_id info)) then None
      else
        let options := getDropdownOptionsWithoutClick (dc_options container) in
        let selector :=
          if JS.truthy (info_inputId info) then
            match nodeEscape (info_inputId info) with
            | Returned e => Returned ("#" +:+ e)
            | Thrown err => Thrown err
            end
          else if JS.truthy (info_id info) then
            match nodeEscape (info_id info) with
            | Returned e => Returned ("#" +:+ e)
            | Thrown err => Thrown err
            end
          else Returned "" in
        match selector with
        | Thrown _ => None
        | Returned selector =>
            if negb (JS.truthy selector) then None
            else Some (mkField (JS.or_else (info_id info) (info_inputId info))
                         (info_inputName info) selector "select"
                         (cleanLabel (info_label info)) "" false
                         (info_currentValue info) (Some options) None)
        end
  end.

Definition dropdownSelectors : list string :=
  [ "[class*=" +:+ JS.dquote +:+ "react-select" +:+ JS.dquote +:+ "]:not(option)";
    "[class*=" +:+ JS.dquote +:+ "Select__control" +:+ JS.dquote +:+ "]";
    "[role=" +:+ JS.dquote +:+ "combobox" +:+ JS.dquote +:+ "][aria-haspopup="
      +:+ JS.dquote +:+ "listbox" +:+ JS.dquote +:+ "]";
    "[data-testid*=" +:+ JS.dquote +:+ "select" +:+ JS.dquote +:+ "]" ].

(** [extractCustomDropdownsSafe] *)
Definition extractCustomDropdownsSafe (containers : string -> Outcome (list DropdownContainer))
    : list ExtractedField :=
  flat_map (fun selector => omap extractSingleDropdown (take 10 (orEmpty (containers selector))))
           dropdownSelectors.










End WithEscape.

End Scans.

(** An option as the two loops of [getDropdownOptionsWithoutClick] build
    it: value and text are the same non-empty string. *)
Definition plainOption (o : Extractor.FieldOption) : Prop :=
  Extractor.opt_value o = Extractor.opt_text o /\ Extractor.opt_text o <> "".

(** ** ATS detection ([ats-detector.ts])

    The mappings are loaded from a configuration file; they are a parameter
    here. *)

Module ATS.

Inductive ATSType := greenhouse | lever | workday | ashby | icims | custom.

#[global] Instance ATSType_eq_dec : EqDecision ATSType.
Proof. solve_decision. Defined.

Record ATSPattern := mkPattern {
  urlPattern : option string;
  pattern_name : string;
  resumeSelectors : list string;
  fieldMappings : gmap string (list string)
}.

Record Job := mkJob {
  company : string;
  role : string;
  location : string;
  apply_url : string
}.

Section Mappings.

(** [getMappings().patterns] *)
Variable patterns : ATSType -> ATSPattern.

Definition atsTypes : list ATSType := [greenhouse; lever; workday; ashby; icims].

(** The test of the loop of [detectATS] for one ATS. *)
Definition urlMatches (lowerUrl : string) (ats : ATSType) : bool :=
  match urlPattern (patterns ats) with
  | Some pattern => JS.truthy pattern && JS.includes lowerUrl pattern
  | None => false
  end.

Definition detectATS (url : string) : ATSType :=
  let lowerUrl := JS.toLowerCase url in
  default custom (List.find (urlMatches lowerUrl) atsTypes).

Definition getATSConfig (atsType : ATSType) : ATSPattern := patterns atsType.

Definition normalizeJob (job : Job) : Job * ATSType := (job, detectATS (apply_url job)).

Definition normalizeJobs (jobs : list Job) : list (Job * ATSType) := map normalizeJob jobs.

(** A [Map] in insertion order: [groups.set(ats, existing)] keeps the
    position of a key that is present. *)
Fixpoint mapSet {V} (key : ATSType) (value : V) (m : list (ATSType * V))
    : list (ATSType * V) :=
  match m with
  | [] => [(key, value)]
  | (k, v) :: rest =>
      if bool_decide (k = key) then (k, value) :: rest else (k, v) :: mapSet key value rest
  end.

Fixpoint mapGet {V} (key : ATSType) (m : list (ATSType * V)) : option V :=
  match m with
  | [] => None
  | (k, v) :: rest => if bool_decide (k = key) then Some v else mapGet key rest
  end.

Definition groupJobsByATS (jobs : list Job) : list (ATSType * list Job) :=
  fold_left (fun groups job =>
               let ats := detectATS (apply_url job) in
               let existing := default [] (mapGet ats groups) in
               mapSet ats (existing ++ [job]) groups)
            jobs [].

(** [config.fieldMappings[fieldName] || []] *)
Definition mappingFor (atsType : ATSType) (fieldName : string) : list string :=
  default [] (fieldMappings (getATSConfig atsType) !! fieldName).

Definition getFieldSelectors (atsType : ATSType) (fieldName : string) : list string :=
  let atsSelectors := mappingFor atsType fieldName in
  if Nat.eqb (length atsSelectors) 0 && negb (bool_decide (atsType = custom))
  then mappingFor custom fieldName
  else atsSelectors.

Definition getResumeSelectors (atsType : ATSType) : list string :=
  resumeSelectors (getATSConfig atsType).

(** The jobs of [ats] in their order, as a group: no group for no job. *)
Definition groupOf (ats : ATSType) (jobs : list Job) : option (list Job) :=
  match List.filter (fun job => bool_decide (detectATS (apply_url job) = ats)) jobs with
  | [] => None
  | group => Some group
  end.

End Mappings.

End ATS.

(** ** Application history ([application-history.ts])

    The history file is the state: absent, unreadable, or holding a history
    (a file that parses is taken to hold a value of the declared type).
    A write to it may fail, which the code logs and ignores. *)

Module History.

Inductive Status := submitted | partial | failed.

#[global] Instance Status_eq_dec : EqDecision Status.
Proof. solve_decision. Defined.

Record AppliedJob := mkApplied {
  aj_company : string;
  aj_role : string;
  aj_url : string;
  aj_applied_at : string;
  aj_status : Status;
  aj_notes : option string
}.

Record ApplicationHistory := mkHistory {
  last_updated : string;
  total_applications : nat;
  jobs : list AppliedJob
}.

Inductive HistoryFile :=
| Missing
| Unreadable
| Stored (history : ApplicationHistory).

Record Disk := mkDisk {
  file : HistoryFile;
  (* fs.mkdirSync / fs.writeFileSync succeed *)
  writable : bool;
  (* new Date().toISOString() *)
  clock : string
}.

Section Urls.

(** [new URL(url)], the removal of the five tracking parameters and
    [toString()]; [None] when the constructor throws. *)
Variable withoutTracking : string -> option string.

Definition loadHistory (d : Disk) : ApplicationHistory :=
  match file d with
  | Stored history => history
  | Missing | Unreadable => mkHistory (clock d) 0 []
  end.

Definition saveHistory (history : ApplicationHistory) (d : Disk) : Disk :=
  if writable d
  then mkDisk (Stored (mkHistory (clock d) (total_applications history) (jobs history)))
              (writable d) (clock d)
  else d.

Definition normalizeUrl (url : string) : string :=
  match withoutTracking url with
  | Some stripped => JS.toLowerCase stripped
  | None => JS.toLowerCase url
  end.

(** The predicate of [hasApplied] and [getApplicationStatus]. *)
Definition sameJob (normalizedUrl : string) (job : AppliedJob) : bool :=
  let jobUrl := normalizeUrl (aj_url job) in
  String.eqb jobUrl normalizedUrl
  || JS.includes jobUrl normalizedUrl
  || JS.includes normalizedUrl jobUrl.

Definition hasApplied (url : string) (d : Disk) : bool :=
  existsb (sameJob (normalizeUrl url)) (jobs (loadHistory d)).

Definition getApplicationStatus (url : string) (d : Disk) : option AppliedJob :=
  List.find (sameJob (normalizeUrl url)) (jobs (loadHistory d)).

(** [jobs.findIndex(..)] followed by the update or the push. *)
Fixpoint replaceFirst (normalizedUrl : string) (application : AppliedJob)
    (l : list AppliedJob) : option (list AppliedJob) :=
  match l with
  | [] => None
  | job :: rest =>
      if String.eqb (normalizeUrl (aj_url job)) normalizedUrl
      then Some (application :: rest)
      else (fun r => job :: r) <$> replaceFirst normalizedUrl application rest
  end.

Definition recordApplication (company role url : string) (status : Status)
    (notes : option string) (d : Disk) : Disk :=
  let history := loadHistory d in
  let normalizedUrl := normalizeUrl url in
  let application := mkApplied company role url (clock d) status notes in
  let history :=
    match replaceFirst normalizedUrl application (jobs history) with
    | Some updated => mkHistory (last_updated history) (total_applications history) updated
    | None =>
        mkHistory (last_updated history) (S (total_applications history))
          (jobs history ++ [application])
    end in
  saveHistory history d.

Record Stats := mkStats {
  st_total : nat;
  st_submitted : nat;
  st_partial : nat;
  st_failed : nat
}.

Definition countStatus (s : Status) (l : list AppliedJob) : nat :=
  length (List.filter (fun j => bool_decide (aj_status j = s)) l).

Definition getStats (d : Disk) : Stats :=
  let history := loadHistory d in
  mkStats (length (jobs history)) (countStatus submitted (jobs history))
    (countStatus partial (jobs history)) (countStatus failed (jobs history)).

Definition listApplications (d : Disk) : list AppliedJob := jobs (loadHistory d).

(** A request to record an application, and a run of such requests; the
    clock and the state of the file system may change in between. *)
Record Request := mkRequest {
  rq_company : string;
  rq_role : string;
  rq_url : string;
  rq_status : Status;
  rq_notes : option string;
  rq_writable : bool;
  rq_clock : string
}.

Definition serve (d : Disk) (r : Request) : Disk :=
  recordApplication (rq_company r) (rq_role r) (rq_url r) (rq_status r) (rq_notes r)
    (mkDisk (file d) (rq_writable r) (rq_clock r)).

(** A history in which the counter is the number of entries and no two
    entries have the same normalized URL. *)
Definition consistent (h : ApplicationHistory) : Prop :=
  total_applications h = length (jobs h)
  /\ NoDup (map (fun j => normalizeUrl (aj_url j)) (jobs h)).

End Urls.

End History.

(** ** Required fields, validation and submission

    [checkRequiredFields] of [form-filler.ts] and the submission module. *)

Module Submit.

(** What [checkRequiredFields] reads for one required input: its value (a
    throw gives the empty string), and, read only when the value is blank, the
    attributes and the text of the associated label; a throw there skips the
    input. *)
Record RequiredDetails := mkDetails {
  rd_id : option string;
  rd_name : option string;
  rd_placeholder : option string;
  rd_ariaLabel : option string;
  (* page.$(`label[for="${id}"]`) and its textContent() *)
  rd_labelFor : option (option string)
}.

Record RequiredInput := mkRequired {
  ri_value : Outcome string;
  ri_details : Outcome RequiredDetails
}.

Definition fieldName (d : RequiredDetails) : string :=
  let id := JS.or_else (default "" (rd_id d)) "" in
  let name := JS.or_else (default "" (rd_name d)) "" in
  let placeholder := JS.or_else (default "" (rd_placeholder d)) "" in
  let ariaLabel := JS.or_else (default "" (rd_ariaLabel d)) "" in
  let label := JS.or_else ariaLabel placeholder in
  let label :=
    if negb (JS.truthy label) && JS.truthy id then
      match rd_labelFor d with
      | Some text => JS.or_else (JS.trim (default "" text)) ""
      | None => label
      end
    else label in
  JS.or_else label (JS.or_else name (JS.or_else id "unknown field")).

(** [!value || value.trim() === ''] *)
Definition isBlank (value : string) : bool :=
  negb (JS.truthy value) || String.eqb (JS.trim value) "".

Definition missingName (input : RequiredInput) : option string :=
  let value := match ri_value input with Returned v => v | Thrown _ => "" end in
  if isBlank value then
    match ri_details input with
    | Returned d => Some (fieldName d)
    | Thrown _ => None
    end
  else None.

(** The loop of [checkRequiredFields] over the required inputs found. *)
Definition missingFields (requiredInputs : list RequiredInput) : list string :=
  omap missingName requiredInputs.

(** [parts.join(sep)] *)
Fixpoint join (sep : string) (parts : list string) : string :=
  match parts with
  | [] => ""
  | [p] => p
  | p :: rest => p +:+ sep +:+ join sep rest
  end.

Record Validation := mkValidation {
  valid : bool;
  errors : list string
}.

Record SubmitResult := mkSubmit {
  sr_success : bool;
  sr_error : option string
}.

Record RetryResult := mkRetry {
  rr_success : bool;
  rr_error : option string;
  attempts : nat
}.

Section Browser.

(** [W] is the state of the browser and the page; every operation on it may
    throw. *)
Context {W : Type}.
Variable getPage : W -> Outcome unit.
Variable checkRequiredFields : W -> Outcome (list string) * W.
Variable takeScreenshot : string -> W -> Outcome unit * W.
Variable findAndClickSubmit : W -> Outcome bool * W.
Variable waitForTimeout : nat -> W -> Outcome unit * W.
Variable detectSubmissionSuccess : W -> Outcome bool * W.
Variable detectSubmissionError : W -> Outcome (option string) * W.
(** [await new Promise(resolve => setTimeout(resolve, ms))] *)
Variable sleep : nat -> W -> W.

Definition validateBeforeSubmit (w : W) : Outcome Validation * W :=
  match checkRequiredFields w with
  | (Thrown e, w1) => (Thrown e, w1)
  | (Returned missing, w1) =>
      let errors :=
        if Nat.ltb 0 (length missing)
        then ["Missing required fields: " +:+ join ", " missing]
        else [] in
      (Returned (mkValidation (Nat.eqb (length errors) 0) errors), w1)
  end.

Definition submitApplication (w : W) : Outcome SubmitResult * W :=
  match getPage w with
  | Thrown e => (Thrown e, w)
  | Returned _ =>
  match validateBeforeSubmit w with
  | (Thrown e, w1) => (Thrown e, w1)
  | (Returned validation, w1) =>
  if negb (valid validation)
  then (Returned (mkSubmit false (Some (join "; " (errors validation)))), w1)
  else
  match takeScreenshot "pre-submit" w1 with
  | (Thrown e, w2) => (Thrown e, w2)
  | (Returned _, w2) =>
  match findAndClickSubmit w2 with
  | (Thrown e, w3) => (Thrown e, w3)
  | (Returned clicked, w3) =>
  if negb clicked
  then (Returned (mkSubmit false (Some "Could not find submit button")), w3)
  else
  let w4 := snd (waitForTimeout 3000 w3) in
  match takeScreenshot "post-submit" w4 with
  | (Thrown e, w5) => (Thrown e, w5)
  | (Returned _, w5) =>
  match detectSubmissionSuccess w5 with
  | (Thrown e, w6) => (Thrown e, w6)
  | (Returned true, w6) => (Returned (mkSubmit true None), w6)
  | (Returned false, w6) =>
  match detectSubmissionError w6 with
  | (Thrown e, w7) => (Thrown e, w7)
  | (Returned submissionError, w7) =>
      if JS.truthy (default "" submissionError)
      then (Returned (mkSubmit false submissionError), w7)
      else (Returned (mkSubmit false (Some "Could not confirm submission status")), w7)
  end end end end end end end.

(** [lastError?.includes('Missing required fields')] *)
Definition isValidationError (lastError : option string) : bool :=
  match lastError with
  | Some e => JS.includes e "Missing required fields"
  | None => false
  end.

(** The [while (attempts < maxRetries)] loop of [submitWithRetry];
    [remaining] is [maxRetries - attempts]. *)
Fixpoint retryLoop (remaining attempts : nat) (lastError : option string) (w : W)
    : Outcome RetryResult * W :=
  match remaining with
  | 0 => (Returned (mkRetry false lastError attempts), w)
  | S remaining' =>
      let attempts := S attempts in
      match submitApplication w with
      | (Thrown e, w1) => (Thrown e, w1)
      | (Returned result, w1) =>
          if sr_success result then (Returned (mkRetry true None attempts), w1)
          else
            let lastError := sr_error result in
            if isValidationError lastError
            then (Returned (mkRetry false lastError attempts), w1)
            else
              retryLoop remaining' attempts lastError
                (match remaining' with
                 | 0 => w1
                 | S _ => sleep 2000 w1
                 end)
      end
  end.

Definition submitWithRetry (maxRetries : nat) (w : W) : Outcome RetryResult * W :=
  retryLoop maxRetries 0 None w.

End Browser.

End Submit.

(** ** The agent's observation of form fields ([observePage]) *)

Module Observe.

Inductive Kind := KInput | KTextarea | KSelect.

(** What the callback reads for one [input], [textarea] or [select]. *)
Record FieldElement := mkFieldElement {
  fe_kind : Kind;
  (* overlayUI && overlayUI.contains(el) *)
  fe_inOverlay : bool;
  (* el.type *)
  fe_type : string;
  fe_id : string;
  fe_name : string;
  (* text of document.querySelector(`label[for="${el.id}"]`) *)
  fe_labelFor : option string;
  (* el.closest('label, .field, ...'), and inside it
     parent.querySelector('label, .label, [class*="label"], [class*="Label"]') *)
  fe_parentLabel : option (option string);
  fe_ariaLabel : option string;
  fe_placeholder : string;
  fe_value : string;
  fe_required : bool;
  fe_ariaRequired : option string;
  (* getBoundingClientRect(), in whole pixels *)
  fe_width : Z;
  fe_height : Z;
  fe_top : Z;
  fe_bottom : Z;
  (* options of a select: text and value *)
  fe_options : list (string * string)
}.

Record ObservedField := mkObserved {
  of_selector : string;
  of_label : string;
  of_type : string;
  of_value : string;
  of_required : bool;
  of_isEmpty : bool;
  of_isVisible : bool;
  of_options : option (list (string * string))
}.

Definition isSelect (el : FieldElement) : bool :=
  match fe_kind el with KSelect => true | _ => false end.

Definition fieldSelector (el : FieldElement) (idx : nat) : string :=
  if JS.truthy (fe_id el) then "#" +:+ fe_id el
  else if JS.truthy (fe_name el)
       then "[name=" +:+ JS.dquote +:+ fe_name el +:+ JS.dquote +:+ "]"
       else "input:nth-of-type(" +:+ pretty (idx + 1) +:+ ")".

(** The label before the final clean-up. *)
Definition rawLabel (el : FieldElement) (idx : nat) : string :=
  let label := "" in
  let label :=
    if JS.truthy (fe_id el) then
      match fe_labelFor el with
      | Some text => JS.or_else (JS.trim text) ""
      | None => label
      end
    else label in
  let label :=
    if negb (JS.truthy label) then
      match fe_parentLabel el with
      | Some (Some text) => JS.or_else (JS.trim text) ""
      | _ => label
      end
    else label in
  let label :=
    if negb (JS.truthy label) then
      match fe_kind el with
      | KInput | KTextarea =>
          JS.or_else (default "" (fe_ariaLabel el))
            (JS.or_else (fe_placeholder el) (JS.or_else (fe_name el) ""))
      | KSelect => label
      end
    else label in
  if negb (JS.truthy label) then "Field " +:+ pretty (idx + 1) else label.

Definition observeField (innerHeight : Z) (el : FieldElement) (idx : nat) : ObservedField :=
  mkObserved (fieldSelector el idx)
    (JS.trim (JS.collapseSpaces (rawLabel el idx)))
    (if isSelect el then "select" else JS.or_else (fe_type el) "text")
    (JS.or_else (fe_value el) "")
    (fe_required el || bool_decide (fe_ariaRequired el = Some "true"))
    (negb (JS.truthy (fe_value el)) || String.eqb (fe_value el) "")
    (Z.ltb 0 (fe_width el) && Z.ltb 0 (fe_height el)
     && Z.ltb (fe_top el) (innerHeight + 1000) && Z.ltb (-1000) (fe_bottom el))
    (if isSelect el
     then Some (map (fun o => (JS.trim o.1, o.2)) (fe_options el))
     else None).

(** Whether the callback leaves the element out before looking at its
    selector. *)
Definition skipped (el : FieldElement) : bool :=
  fe_inOverlay el
  || match fe_kind el with
     | KInput => String.eqb (fe_type el) "hidden"
     | _ => false
     end.

(** [allInputs.forEach((input, idx) => ...)] with the set
    [processedSelectors]. *)
Fixpoint observeLoop (innerHeight : Z) (allInputs : list FieldElement) (idx : nat)
    (processedSelectors : gset string) : list ObservedField :=
  match allInputs with
  | [] => []
  | el :: rest =>
      if skipped el then observeLoop innerHeight rest (S idx) processedSelectors
      else
        let selector := fieldSelector el idx in
        if bool_decide (selector ∈ processedSelectors)
        then observeLoop innerHeight rest (S idx) processedSelectors
        else observeField innerHeight el idx
             :: observeLoop innerHeight rest (S idx) ({[selector]} ∪ processedSelectors)
  end.

(** [result.formFields] *)
Definition observeFields (innerHeight : Z) (allInputs : list FieldElement)
    : list ObservedField :=
  observeLoop innerHeight allInputs 0 ∅.

(** The element has nothing to take a label from. *)
Definition unlabeled (el : FieldElement) : Prop :=
  (fe_id el = "" \/ fe_labelFor el = None)
  /\ (fe_parentLabel el = None \/ fe_parentLabel el = Some None)
  /\ match fe_kind el with
     | KSelect => True
     | _ => default "" (fe_ariaLabel el) = "" /\ fe_placeholder el = "" /\ fe_name el = ""
     end.

End Observe.

(** ** Applying generated answers ([applyAnswersToForm], [fillCheckbox]) *)

Module AIFiller.

Import Extractor.

Record AIGeneratedAnswer := mkAnswer {
  fieldIndex : Z;
  fieldLabel : string;
  answer : string
}.

(** [form.fields[fieldIndex]], [undefined] outside the array. *)
Definition fieldAt (fields : list ExtractedField) (fieldIndex : Z)
    : option ExtractedField :=
  if Z.ltb fieldIndex 0 then None else fields !! Z.to_nat fieldIndex.

Section Apply.

Context {P : Type}.
(** [fillField(page, field, value)] and [page.waitForTimeout(ms)] *)
Variable fillField : ExtractedField -> string -> P -> Outcome bool * P.
Variable waitForTimeout : nat -> P -> Outcome unit * P.

(** The loop of [applyAnswersToForm] with its two counters. *)
Fixpoint applyLoop (fields : list ExtractedField) (answers : list AIGeneratedAnswer)
    (filled failed : nat) (w : World P) : Outcome (nat * nat) * World P :=
  match answers with
  | [] => (Returned (filled, failed), w)
  | a :: rest =>
      match fieldAt fields (fieldIndex a - 1) with
      | None => applyLoop fields rest filled (S failed) w
      | Some field =>
          if isFieldFilled (selector field) (tracker w)
          then applyLoop fields rest filled failed w
          else
            let '(r, p1) := fillField field (answer a) (page w) in
            let '(filled', failed', tracker') :=
              match r with
              | Returned true =>
                  (S filled, failed,
                   recordFill (now w) (selector field)
                     (JS.or_else (label field) (name field)) (answer a) "AI" (tracker w))
              | Returned false =>
                  (filled, S failed,
                   recordFailure (selector field)
                     (JS.or_else (label field) (name field)) "Could not fill" "AI"
                     (tracker w))
              | Thrown _ => (filled, S failed, tracker w)
              end in
            match waitForTimeout 50 p1 with
            | (Thrown e, p2) => (Thrown e, mkWorld tracker' p2 (calls w) (now w))
            | (Returned _, p2) =>
                applyLoop fields rest filled' failed' (mkWorld tracker' p2 (calls w) (now w))
            end
      end
  end.

Definition applyAnswersToForm (fields : list ExtractedField)
    (answers : list AIGeneratedAnswer) (w : World P) : Outcome (nat * nat) * World P :=
  applyLoop fields answers 0 0 w.

End Apply.

Section Checkbox.

Context {P H : Type}.
(** [page.$(selector)], [element.isChecked()], [element.click()] *)
Variable query : string -> P -> Outcome (option H) * P.
Variable isChecked : H -> P -> Outcome bool * P.
Variable click : H -> P -> Outcome unit * P.

Definition shouldCheck (value : string) : bool :=
  String.eqb (JS.toLowerCase value) "check"
  || String.eqb (JS.toLowerCase value) "yes"
  || String.eqb (JS.toLowerCase value) "true".

Definition fillCheckbox (selector value : string) (p : P) : Outcome bool * P :=
  match query selector p with
  | (Thrown e, p1) => (Thrown e, p1)
  | (Returned None, p1) => (Returned false, p1)
  | (Returned (Some element), p1) =>
      match isChecked element p1 with
      | (Thrown e, p2) => (Thrown e, p2)
      | (Returned checked, p2) =>
          if negb (Bool.eqb checked (shouldCheck value)) then
            match click element p2 with
            | (Thrown e, p3) => (Thrown e, p3)
            | (Returned _, p3) => (Returned true, p3)
            end
          else (Returned true, p2)
      end
  end.

End Checkbox.

End AIFiller.

(** ** Native selects and degree names ([dropdown-handler.ts]) *)

Module Dropdowns.

(** An [option] element as the callback of [tryNativeSelect] reads it:
    [getAttribute('value')] and [textContent]. *)
Record NativeOption := mkNative {
  no_valueAttr : option string;
  no_textContent : option string
}.

(** The mapped option: [value] and lower-case trimmed [text]. *)
Definition readOption (o : NativeOption) : string * string :=
  (JS.or_else (default "" (no_valueAttr o)) "",
   JS.toLowerCase (JS.trim (JS.or_else (default "" (no_textContent o)) ""))).

(** The predicate of [options.find(..)]. *)
Definition nativeTest (lowerTarget : string) (o : string * string) : bool :=
  String.eqb o.2 lowerTarget
  || JS.includes o.2 lowerTarget
  || JS.includes lowerTarget o.2
  || String.eqb (JS.toLowerCase o.1) lowerTarget.

(** What [tryNativeSelect] gets from the page: the element behind the
    selector and its tag name, the options, and the outcome of
    [page.selectOption(selector, value)]. *)
Record NativeProbe := mkProbe {
  np_element : Outcome (option (Outcome string));
  np_options : Outcome (list NativeOption);
  np_selectOption : string -> Outcome unit
}.

(** [tryNativeSelect]: the boolean returned, and the value passed to
    [selectOption] when that call was made. *)
Definition tryNativeSelect (probe : NativeProbe) (targetValue : string)
    : bool * option string :=
  match np_element probe with
  | Returned (Some (Returned tagName)) =>
      if negb (String.eqb tagName "select") then (false, None)
      else
        match np_options probe with
        | Returned opts =>
            let options := map readOption opts in
            let lowerTarget := JS.toLowerCase targetValue in
            match List.find (nativeTest lowerTarget) options with
            | Some m =>
                match np_selectOption probe m.1 with
                | Returned _ => (true, Some m.1)
                | Thrown _ => (false, Some m.1)
                end
            | None => (false, None)
            end
        | Thrown _ => (false, None)
        end
  | _ => (false, None)
  end.

(** The degree names of [fillEducationDropdowns], in the order of the
    object literal. *)
Definition degreeMap : list (string * list string) :=
  [ ("Bachelor's", ["bachelor"; "bs"; "ba"; "b.s."; "b.a."; "undergraduate"]);
    ("Master's", ["master"; "ms"; "ma"; "m.s."; "m.a."; "graduate"]);
    ("PhD", ["phd"; "ph.d."; "doctorate"; "doctoral"]);
    ("Associate's", ["associate"; "aa"; "as"; "a.a."; "a.s."]);
    ("High School", ["high school"; "hs"; "diploma"]) ].

Definition degreeMatches (degree : string) (entry : string * list string) : bool :=
  JS.includes (JS.toLowerCase degree) (JS.toLowerCase entry.1)
  || existsb (fun a => JS.includes (JS.toLowerCase degree) a) entry.2.

(** The value looked for in a degree dropdown. *)
Definition degreeValue (degree : string) : string :=
  match List.find (degreeMatches degree) degreeMap with
  | Some (key, _) => key
  | None => degree
  end.

End Dropdowns.

(** ** Merging the parsed job tables ([parseJobs])

    The two table parsers work by regular expressions; they are parameters
    here. *)

Module Ingest.

Import ATS.

Section Parsers.

Variable parseHtmlTable : string -> list Job.
Variable parseMarkdownTable : string -> list Job.

(** The body of the loop over the Markdown jobs. *)
Definition pushIfNew (jobs : list Job) (job : Job) : list Job :=
  if existsb (fun j => String.eqb (apply_url j) (apply_url job)) jobs
  then jobs else jobs ++ [job].

Definition htmlPart (content : string) : list Job :=
  if JS.includes content "<table>" || JS.includes content "<tbody>"
  then parseHtmlTable content else [].

Definition markdownPart (content : string) : list Job :=
  if JS.includes content "|" then parseMarkdownTable content else [].

Definition parseJobs (content : string) : list Job :=
  let jobs := htmlPart content in
  if JS.includes content "|"
  then fold_left pushIfNew (parseMarkdownTable content) jobs
  else jobs.

End Parsers.

End Ingest.

(** ** The oracle's answer ([parseActionFromText], [decideAction])

    The search for a JSON object in the answer is a parameter: it gives the
    action found, if any. *)

Module Oracle.

Import Agent.

Section Answers.

Variable jsonAction : string -> option AgentAction.

(** The fall-back on natural language. *)
Definition keywordAction (text : string) : option AgentAction :=
  let lowerText := JS.toLowerCase text in
  if JS.includes lowerText "click" && JS.includes lowerText "add" then
    Some (mkAction "click_button" (Some "Add") None "Detected need to click Add button")
  else if JS.includes lowerText "click"
          && (JS.includes lowerText "next" || JS.includes lowerText "continue") then
    Some (mkAction "click_button" (Some "Next") None "Detected need to click Next")
  else if JS.includes lowerText "complete" || JS.includes lowerText "done"
          || JS.includes lowerText "filled" then
    Some (mkAction "done" None None "AI indicated completion")
  else if JS.includes lowerText "help" || JS.includes lowerText "cannot"
          || JS.includes lowerText "can't" then
    Some (mkAction "need_help" None None "AI needs assistance")
  else None.

Definition parseActionFromText (text : string) : option AgentAction :=
  match jsonAction text with
  | Some action => Some action
  | None => keywordAction text
  end.

(** An answer in which no JSON object is found, which does not mention a
    click, and which contains one of the words of completion. *)
Definition saysDone (text : string) : Prop :=
  jsonAction text = None
  /\ JS.includes (JS.toLowerCase text) "click" = false
  /\ (JS.includes (JS.toLowerCase text) "complete" = true
      \/ JS.includes (JS.toLowerCase text) "done" = true
      \/ JS.includes (JS.toLowerCase text) "filled" = true).

Context {W Obs : Type}.
(** The prompt built from the observation and the history, and the request
    to the model: the content of its answer, or a throw. *)
Variable getAgentPrompt : Obs -> list string -> string.
Variable complete : string -> W -> Outcome string * W.

Definition decideAction (prompt : string) (w : W) : Outcome AgentAction * W :=
  match complete prompt w with
  | (Thrown e, w') => (Thrown e, w')
  | (Returned content, w') =>
      (Returned (default (mkAction "need_help" None None
                            "Could not parse AI response - try manual filling")
                         (parseActionFromText content)), w')
  end.

(** [decideAction] as the loop calls it. *)
Definition decide (observation : Obs) (actionHistory : list string) (w : W)
    : Outcome AgentAction * W :=
  decideAction (getAgentPrompt observation actionHistory) w.

End Answers.

End Oracle.

(** ** Values of the basic fields ([getProfileValue] of [form-filler.ts]) *)

Module FormFiller.

Import Questions.

(** The [mapping] object. *)
Definition mapping (profile : CandidateProfile) : list (string * string) :=
  [ ("first_name", first_name (personal profile));
    ("last_name", last_name (personal profile));
    ("email", email (personal profile));
    ("phone", phone (personal profile));
    ("location", location (personal profile));
    ("work_authorization", work_authorization (personal profile));
    ("linkedin", linkedin (links profile));
    ("github", github (links profile)) ].

(** [mapping[fieldName] || null], own properties only. *)
Fixpoint mapped (fieldName : string) (entries : list (string * string)) : option string :=
  match entries with
  | [] => None
  | (k, v) :: rest =>
      if String.eqb k fieldName then (if JS.truthy v then Some v else None)
      else mapped fieldName rest
  end.

Definition getProfileValue (profile : CandidateProfile) (fieldName : string)
    : option string :=
  match education profile with
  | first :: _ =>
      if JS.includes fieldName "school" then Some (school first)
      else if JS.includes fieldName "degree" then Some (degree first)
      else if JS.includes fieldName "field" then Some (field first)
      else if JS.includes fieldName "graduation" then Some (graduation first)
      else mapped fieldName (mapping profile)
  | [] => mapped fieldName (mapping profile)
  end.

(** The value of a basic field as the first step of [autofillForm] uses it:
    [null] and the empty string are both skipped. *)
Definition basicValue (profile : CandidateProfile) (name : string) : string :=
  default "" (getProfileValue profile name).

(** Step 1 of [autofillForm] for a profile and an ATS. *)
Definition autofillBasics {P H : Type} `{PM : PageModel P H}
    (patterns : ATS.ATSType -> ATS.ATSPattern) (profile : CandidateProfile)
    (atsType : ATS.ATSType) : M P unit :=
  autofillStep1 (basicValue profile) (ATS.getFieldSelectors patterns atsType).

End FormFiller.

(** ** Dropdown questions ([handleDropdown] of the question handler) *)

Module QuestionHandler.

Import Questions.

Record DropdownMapping := mkMapping {
  patterns : list string;
  options : option (list (string * list string));
  profile_field : string;
  value_map : option (list (string * string))
}.

Section Handler.

(** [new RegExp(pattern, 'i').test(lowerLabel)]; the constructor throws on a
    pattern that is not a regular expression. *)
Variable regexTest : string -> string -> Outcome bool.

(** [matchesPattern(label, patterns)] *)
Fixpoint somePattern (lowerLabel : string) (patterns : list string) : Outcome bool :=
  match patterns with
  | [] => Returned false
  | pattern :: rest =>
      if JS.includes pattern ".*" then
        match regexTest pattern lowerLabel with
        | Thrown e => Thrown e
        | Returned true => Returned true
        | Returned false => somePattern lowerLabel rest
        end
      else if JS.includes lowerLabel (JS.toLowerCase pattern) then Returned true
      else somePattern lowerLabel rest
  end.

Definition matchesPattern (label : string) (patterns : list string) : Outcome bool :=
  somePattern (JS.toLowerCase label) patterns.

(** [mapping.value_map[String(value)]] for a boolean, and [String(..)] of
    the result. *)
Fixpoint lookupString (key : string) (entries : list (string * string)) : option string :=
  match entries with
  | [] => None
  | (k, v) :: rest => if String.eqb k key then Some v else lookupString key rest
  end.

Definition stringOfBool (b : bool) : string := if b then "true" else "false".

(** The target looked for among the options; [None] when the profile has no
    value and the mapping is passed over. *)
Definition stringValue (mapping : DropdownMapping) (value : ProfileValue) : option string :=
  match value with
  | PVUndefined => None
  | PVString s => Some s
  | PVBool b =>
      match value_map mapping with
      | Some entries => Some (default "undefined" (lookupString (stringOfBool b) entries))
      | None => Some (stringOfBool b)
      end
  end.

Context {P : Type}.
(** [page.$$eval(`${selector} option`, ..)] and
    [page.selectOption(selector, value)] *)
Variable readOptions : string -> P -> Outcome (list SelectOption) * P.
Variable selectOption : string -> string -> P -> Outcome unit * P.

(** The loop of [handleDropdown] over the entries of [dropdown_mappings]. *)
Fixpoint handleLoop (selector label : string) (profile : JSValue)
    (mappings : list (string * DropdownMapping)) (p : P) : Outcome bool * P :=
  match mappings with
  | [] => (Returned false, p)
  | (key, mapping) :: rest =>
      match matchesPattern label (patterns mapping) with
      | Thrown e => (Thrown e, p)
      | Returned false => handleLoop selector label profile rest p
      | Returned true =>
          match stringValue mapping (getProfileValue profile (profile_field mapping)) with
          | None => handleLoop selector label profile rest p
          | Some target =>
              let '(pageOptions, p1) := readOptions selector p in
              match findMatchingOption pageOptions target (options mapping) with
              | Some optionValue =>
                  if JS.truthy optionValue then
                    match selectOption selector optionValue p1 with
                    | (Returned _, p2) => (Returned true, p2)
                    | (Thrown _, p2) => handleLoop selector label profile rest p2
                    end
                  else handleLoop selector label profile rest p1
              | None => handleLoop selector label profile rest p1
              end
          end
      end
  end.

Definition handleDropdown (selector label : string) (profile : JSValue)
    (dropdown_mappings : list (string * DropdownMapping)) (p : P) : Outcome bool * P :=
  handleLoop selector (JS.toLowerCase label) profile dropdown_mappings p.

End Handler.

End QuestionHandler.

(** * Scenarios

    Concrete pages, fields, profiles and oracles on which the properties
    below are exercised. *)

(** A session on a concrete page: the e-mail field was filled by the basic
    pass; a later pass calls the fill again. *)
Definition emailPage : gmap string SimplePage.SimpleElement :=
  {[ "#email" := SimplePage.mkSimple "input" true true "" [] ]}.

Definition afterEmailFill : World (gmap string SimplePage.SimpleElement) :=
  snd (fillTextField "#email" "ada@example.org" "Email" "BasicFields"
         (SimplePage.start emailPage)).

(** The e-mail field already holds the address to be filled in. *)
Definition prefilledPage : gmap string SimplePage.SimpleElement :=
  {[ "#email" := SimplePage.mkSimple "input" true true "ada@example.org" [] ]}.

(** An input inside a custom dropdown is found twice: first by the text-input
    scan, later by the custom-dropdown scan, which resolves the options. *)
Definition schoolInput : Extractor.ExtractedField :=
  Extractor.mkField "school" "school" "#school" "text" "School" "" true "" None None.

Definition schoolDropdown : Extractor.ExtractedField :=
  Extractor.mkField "school" "school" "#school" "select" "School" "" false ""
    (Some [Extractor.mkOption "MIT" "MIT"; Extractor.mkOption "Stanford" "Stanford"])
    None.

(** An input with a placeholder and an associated [label]; an input with
    nothing but a name. *)
Definition firstNameInput : Extractor.TextInputView :=
  Extractor.mkInputView "first_name" "first_name" "text" None "Enter your first name"
    (Some "First Name") None true None "" false false.

Definition phoneInput : Extractor.TextInputView :=
  Extractor.mkInputView "" "phone" "tel" None "" None None false None "" false false.

Definition sampleProfile : Questions.CandidateProfile :=
  Questions.mkProfile
    (Questions.mkPersonal "Ada" "Lovelace" "ada@example.org" "+44 20 7946 0000"
       None None None "London" None "Authorized" None None None None None)
    [ Questions.mkEducation "Analytical Engine Institute" "BS" "Mathematics" "2024-05" None;
      Questions.mkEducation "Second School" "MS" "Computing" "2026-05" (Some "3.9") ]
    None
    (Questions.mkSkills ["OCaml"] [] ["git"])
    (Questions.mkLinks "https://github.com/ada" "https://linkedin.com/in/ada" None None)
    (Some (Questions.mkCompliance false true false "Not a veteran" "No" None None None))
    None None None.

(** A yes/no question with an alias table. *)
Definition yesNoAliases : list (string * list string) :=
  [ ("yes", ["yes"; "authorized"]); ("no", ["no"; "not authorized"]) ].

Definition yesNoOptions : list Questions.SelectOption :=
  [ Questions.mkSelectOption "" "Select...";
    Questions.mkSelectOption "1" "Not applicable";
    Questions.mkSelectOption "2" "No" ].

(** A careers page with a search form, and the same page once the
    application form is shown. *)
Definition plainElement (tag : string) (attrs : list (string * string)) (text : string)
    : Dom.Element :=
  Dom.mkElement tag attrs text 120 30 false false false false false false.

Definition searchInputs : list Dom.Element :=
  [ plainElement "input" [("placeholder", "Search by Keyword")] "";
    plainElement "input" [("placeholder", "Search by Location")] "";
    plainElement "select" [("aria-label", "Job Type")] "" ].

Definition applicantInputs : list Dom.Element :=
  [ plainElement "input" [("name", "firstName")] "";
    plainElement "input" [("name", "lastName")] "";
    plainElement "input" [("name", "email")] "";
    plainElement "input" [("type", "file"); ("name", "resume")] "" ].

Definition listingPage : Navigator.Page :=
  Navigator.mkPage "https://careers.example.org/search" "Open positions" searchInputs.

Definition formPage : Navigator.Page :=
  Navigator.mkPage "https://careers.example.org/search" "Open positions"
    (searchInputs ++ applicantInputs).






(** A page whose only way to the form is a plain link, and the control panel
    that the tool injects into the page. *)
Definition applyLink : Dom.Element :=
  plainElement "a" [("href", "/jobs/42/apply")] "Apply now".

Definition overlayStart : Dom.Element :=
  Dom.mkElement "button" [("id", "agent-start")] "Start agent" 120 30
    false false false false true false.

Definition submitButton : Dom.Element :=
  plainElement "button" [("type", "submit")] "Submit application".

Definition disabledNext : Dom.Element :=
  plainElement "button" [("disabled", "")] "Next".

(** A reader of the selector strings that a click writes.  It reads the
    three-alternative query around a text without double quote, backslash or
    line break as Playwright does, and rejects every other string. *)
Definition plainChar (c : ascii) : bool :=
  let n := nat_of_ascii c in
  negb (Nat.eqb n 34) && negb (Nat.eqb n 92)
  && negb (Nat.eqb n 10) && negb (Nat.eqb n 12) && negb (Nat.eqb n 13).

Fixpoint plainText (t : string) : bool :=
  match t with
  | EmptyString => true
  | String c t' => plainChar c && plainText t'
  end.

Fixpoint afterPrefix (p s : string) : option string :=
  match p, s with
  | EmptyString, _ => Some s
  | String a p', String b s' => if Ascii.eqb a b then afterPrefix p' s' else None
  | String _ _, EmptyString => None
  end.

Fixpoint untilQuote (s : string) : string :=
  match s with
  | EmptyString => EmptyString
  | String c s' => if Nat.eqb (nat_of_ascii c) 34 then EmptyString else String c (untilQuote s')
  end.

Definition readExactQuery (s : string) : Outcome Dom.Selector :=
  match afterPrefix ("button:has-text(" +:+ JS.dquote) s with
  | Some rest =>
      let t := untilQuote rest in
      if plainText t && String.eqb s (Agent.exactButtonQuery t)
      then Returned (Agent.exactButtonSel t)
      else Thrown "Unexpected token while parsing css selector"
  | None => Thrown "Unexpected token while parsing css selector"
  end.

(** No click closes the page. *)
Definition pageStays (e : Dom.Element) : bool := true.

(** A button whose text holds a double quote, and a button inside a disabled
    fieldset. *)
Definition quotedTarget : string := "Say " +:+ JS.dquote +:+ "hi" +:+ JS.dquote.

Definition quotedButton : Dom.Element := plainElement "button" [] quotedTarget.

Definition fieldsetButton : Dom.Element :=
  Dom.mkElement "button" [("type", "button")] "Save" 120 30
    false false false false false true.

(** An oracle stuck on the same click, on a page where the button is never
    found. *)
Definition addAction : Agent.AgentAction :=
  Agent.mkAction "click_button" (Some "Add") None "Need to add work experience entry".

Definition idleObserve (w : unit) : Outcome unit * unit := (Returned tt, w).

(** The observation of a page that has been closed. *)
Definition closedPage (w : unit) : Outcome unit * unit :=
  (Thrown "page.evaluate: Target page, context or browser has been closed", w).

Definition stuckOracle (obs : unit) (history : list string) (w : unit)
    : Outcome Agent.AgentAction * unit :=
  (Returned addAction, w).

Definition buttonMissing (action : Agent.AgentAction) (w : unit) : Outcome bool * unit :=
  (Returned false, w).

Definition noWait (ms : nat) (w : unit) : Outcome unit * unit := (Returned tt, w).

(** A click that succeeds and closes the page, and the wait on a page that
    has been closed. *)
Definition clickCloses (action : Agent.AgentAction) (w : unit) : Outcome bool * unit :=
  (Returned true, w).

Definition closedWait (ms : nat) (w : unit) : Outcome unit * unit :=
  (Thrown "page.waitForTimeout: Target page, context or browser has been closed", w).

(** A page on which none of the candidate selectors of a field is present. *)
Definition emptyFormPage : gmap string SimplePage.SimpleElement :=
  {[ "#newsletter" := SimplePage.mkSimple "input" true true "" [];
     "#phone" := SimplePage.mkSimple "input" false true "" [] ]}.

(** An oracle that declares the form complete at once, and one that asks for
    five different fields in turn on a page where no field can be filled. *)
Definition doneAction : Agent.AgentAction :=
  Agent.mkAction "done" None None "All visible fields are filled".

Definition doneOracle (obs : unit) (history : list string) (w : unit)
    : Outcome Agent.AgentAction * unit :=
  (Returned doneAction, w).

Definition fillScript (i : nat) : Agent.AgentAction :=
  Agent.mkAction "fill_field" (Some ("#field" +:+ pretty i)) (Some "value") "Next empty field".

Definition scriptedOracle (obs : unit) (history : list string) (w : unit)
    : Outcome Agent.AgentAction * unit :=
  (Returned (fillScript (length history)), w).

(** [executeAction] on a page that holds none of the targets: every case
    returns [false]. *)
Definition nothingFound (action : Agent.AgentAction) (w : unit) : Outcome bool * unit :=
  (Returned false, w).

(** An oracle that asks for four fields and then for the submit button. *)
Definition submitClick : Agent.AgentAction :=
  Agent.mkAction "click_button" (Some "Submit") None "All fields tried".

Definition clickScript (i : nat) : Agent.AgentAction :=
  if Nat.ltb i 4 then fillScript i else submitClick.

Definition fillsThenClick (obs : unit) (history : list string) (w : unit)
    : Outcome Agent.AgentAction * unit :=
  (Returned (clickScript (length history)), w).

(** The state of that run after [n] steps that went on. *)
Fixpoint stateAfter (n : nat) (st : Agent.LoopState) : option Agent.LoopState :=
  match n with
  | 0 => Some st
  | S n' =>
      match Agent.agentStep idleObserve fillsThenClick nothingFound noWait st tt with
      | (Agent.Continue st', _) => stateAfter n' st'
      | _ => None
      end
  end.

Definition fourFailures : Agent.LoopState :=
  Agent.mkLoop 4 4
    (map (fun i => Agent.actionKey (fillScript i)) (seq 0 4))
    (map (fun i => "Step " +:+ pretty (S i) +:+ ": fill_field - #field" +:+ pretty i
                     +:+ " - Next empty field") (seq 0 4)).

(** An application page as the extraction reads it: two text inputs, a
    country select, a custom dropdown whose inner input is the first-name
    input again, a radio group, and a checkbox; the textarea scan throws. *)
Definition countrySelect : Scans.SelectView :=
  Scans.mkSelectView "country" "country" None (Some " Country ") None
    [("", "Select..."); ("gb", "United Kingdom")] true "" false false.

Definition schoolOptions : Scans.OptionSources :=
  Scans.mkOptionSources (Some [" MIT "; ""; "Stanford"]) ["MIT"; "Oxford"; "Oxford"].

Definition nameDropdown : Scans.DropdownContainer :=
  Scans.mkContainer
    (Returned (Scans.mkDropdownView "" (Some "school-select") (Some "School") None None
                 (Some ("first_name", "first_name"))))
    (Returned schoolOptions).

Definition sponsorshipGroup : Scans.RadioGroupView :=
  Scans.mkRadioGroup
    [ Scans.mkRadioInput "sp-yes" "yes" (Some "Yes") None false true;
      Scans.mkRadioInput "sp-no" "no" None None true false ]
    (Some (Some "Do you require sponsorship?")) None.

Definition termsCheckbox : Scans.CheckboxView :=
  Scans.mkCheckboxView "terms" "terms" (Some "I agree") None None true false false false.

Definition applicationPage : Scans.FormPage :=
  Scans.mkFormPage "https://jobs.example.org/apply/42" (Returned "Apply")
    (Returned [firstNameInput; phoneInput])
    (Thrown "Execution context was destroyed")
    (Returned [countrySelect])
    (fun selector =>
       if String.prefix "[role=" selector then Returned [nameDropdown] else Returned [])
    (Returned [ Scans.mkRadioScan "sponsorship" false false;
                Scans.mkRadioScan "sponsorship" false false;
                Scans.mkRadioScan "" false false ])
    (fun _ => Returned sponsorshipGroup)
    (Returned [termsCheckbox]).


Definition nodeEscapeReturns (s : string) : Outcome string := Returned s.

Definition nodeEscapeMissing (s : string) : Outcome string :=
  Thrown "ReferenceError: CSS is not defined".


(** ATS mappings; the iCIMS pattern is written with capitals. *)
Definition samplePatterns (ats : ATS.ATSType) : ATS.ATSPattern :=
  match ats with
  | ATS.greenhouse =>
      ATS.mkPattern (Some "greenhouse.io") "Greenhouse" ["#resume"]
        {[ "email" := ["#email"] ]}
  | ATS.lever => ATS.mkPattern (Some "lever.co") "Lever" ["input[name=resume]"] ∅
  | ATS.workday => ATS.mkPattern (Some "myworkdayjobs") "Workday" [] ∅
  | ATS.ashby => ATS.mkPattern (Some "ashbyhq.com") "Ashby" [] ∅
  | ATS.icims => ATS.mkPattern (Some "iCIMS.com") "iCIMS" [] ∅
  | ATS.custom =>
      ATS.mkPattern None "Custom" ["input[type=file]"]
        {[ "email" := ["input[type=email]"]; "phone" := ["input[type=tel]"] ]}
  end.

(** A fresh history on a writable disk; the URLs of the scenario have no
    query string, so that removing tracking parameters changes nothing. *)
Definition plainUrls (url : string) : option string := Some url.

Definition freshDisk : History.Disk :=
  History.mkDisk History.Missing true "2026-01-05T09:00:00.000Z".

Definition twoRequests : list History.Request :=
  [ History.mkRequest "Acme" "Intern" "https://jobs.example.org/Acme/1" History.submitted
      None true "2026-01-05T09:00:00.000Z";
    History.mkRequest "Acme" "Intern" "https://jobs.example.org/acme/1" History.failed
      (Some "retry") false "2026-01-06T09:00:00.000Z";
    History.mkRequest "Initech" "Intern" "https://jobs.example.org/initech/12" History.partial
      None true "2026-01-07T09:00:00.000Z" ].

(** A browser whose state is the log of what was done to the page: the form
    has two required fields left empty, or none. *)
Definition pageReady (w : list string) : Outcome unit := Returned tt.

Definition twoMissing (w : list string) : Outcome (list string) * list string :=
  (Returned ["Email"; "Phone"], w ++ ["check"]).

Definition noneMissing (w : list string) : Outcome (list string) * list string :=
  (Returned [], w ++ ["check"]).

Definition logScreenshot (name : string) (w : list string) : Outcome unit * list string :=
  (Returned tt, w ++ ["screenshot " +:+ name]).

Definition logClick (w : list string) : Outcome bool * list string :=
  (Returned true, w ++ ["click"]).

Definition logWait (ms : nat) (w : list string) : Outcome unit * list string :=
  (Returned tt, w).

Definition nothingDetected (w : list string) : Outcome bool * list string :=
  (Returned false, w).

Definition noErrorShown (w : list string) : Outcome (option string) * list string :=
  (Returned None, w).

Definition logSleep (ms : nat) (w : list string) : list string := w ++ ["sleep"].

Definition filledRequired : Submit.RequiredInput :=
  Submit.mkRequired (Returned "ada@example.org") (Thrown "not read").

Definition blankRequired : Submit.RequiredInput :=
  Submit.mkRequired (Returned "   ")
    (Returned (Submit.mkDetails None None None None None)).

(** Two radio buttons of one group without ids, and a select whose only
    description is its ARIA label. *)
Definition radioYes : Observe.FieldElement :=
  Observe.mkFieldElement Observe.KInput false "radio" "" "sponsorship" None None None ""
    "yes" false None 16 16 300 316 [].

Definition radioNo : Observe.FieldElement :=
  Observe.mkFieldElement Observe.KInput false "radio" "" "sponsorship" None None None ""
    "no" false None 16 16 330 346 [].

Definition ariaSelect : Observe.FieldElement :=
  Observe.mkFieldElement Observe.KSelect false "select-one" "" "" None None
    (Some "Country") "" "" true None 200 30 400 430 [("Select...", ""); (" France ", "fr")].

(** Filling by selector on the concrete page: a field is filled when its
    element exists.  A checkbox as its checked state. *)
Definition fillIfPresent (field : Extractor.ExtractedField) (value : string)
    (p : gmap string SimplePage.SimpleElement)
    : Outcome bool * gmap string SimplePage.SimpleElement :=
  (Returned (bool_decide (is_Some (p !! Extractor.selector field))), p).

Definition waitReturns (ms : nat) (p : gmap string SimplePage.SimpleElement)
    : Outcome unit * gmap string SimplePage.SimpleElement :=
  (Returned tt, p).

Definition emailField : Extractor.ExtractedField :=
  Extractor.mkField "email" "email" "#email" "email" "Email" "" true "" None None.

Definition sampleAnswers : list AIFiller.AIGeneratedAnswer :=
  [ AIFiller.mkAnswer 2 "Email" "ada@example.org";
    AIFiller.mkAnswer 1 "School" "Analytical Engine Institute";
    AIFiller.mkAnswer 0 "?" "n/a";
    AIFiller.mkAnswer 9 "?" "n/a" ].

Definition theCheckbox (selector : string) (checked : bool) : Outcome (option unit) * bool :=
  (Returned (Some tt), checked).

Definition readChecked (element : unit) (checked : bool) : Outcome bool * bool :=
  (Returned checked, checked).

Definition toggle (element : unit) (checked : bool) : Outcome unit * bool :=
  (Returned tt, negb checked).

(** A native select whose first option is an empty placeholder. *)
Definition countryProbe : Dropdowns.NativeProbe :=
  Dropdowns.mkProbe (Returned (Some (Returned "select")))
    (Returned [ Dropdowns.mkNative (Some "") (Some "  ");
                Dropdowns.mkNative (Some "fr") (Some "France") ])
    (fun _ => Returned tt).

(** A README with both kinds of table: the Markdown table repeats a job of
    the HTML table. *)
Definition htmlJobs (content : string) : list ATS.Job :=
  [ ATS.mkJob "Acme" "Intern" "Remote" "https://boards.greenhouse.io/acme/1";
    ATS.mkJob "Initech" "Intern" "Austin" "https://jobs.lever.co/initech/2" ].

Definition markdownJobs (content : string) : list ATS.Job :=
  [ ATS.mkJob "Initech Inc." "Software Intern" "Unknown" "https://jobs.lever.co/initech/2";
    ATS.mkJob "Globex" "Intern" "Unknown" "https://globex.example.org/careers/3" ].

(** A model that answers in prose. *)
Definition noJson (text : string) : option Agent.AgentAction := None.

Definition fixedPrompt (obs : unit) (history : list string) : string := "What next?".

Definition proseModel (prompt : string) (w : unit) : Outcome string * unit :=
  (Returned "I am not done yet, two fields are left.", w).

(** A profile with education only. *)
Definition blankProfile : Questions.CandidateProfile :=
  Questions.mkProfile
    (Questions.mkPersonal "" "" "" "" None None None "" None "" None None None None None)
    [ Questions.mkEducation "Analytical Engine Institute" "BS" "Mathematics" "2024-05" None ]
    None (Questions.mkSkills [] [] []) (Questions.mkLinks "" "" None None) None
    None None None.

(** A sponsorship question: the page state is the list of values selected so
    far. *)
Definition noRegex (pattern subject : string) : Outcome bool :=
  Thrown "Invalid regular expression".

Definition listYesNo (selector : string) (p : list string)
    : Outcome (list Questions.SelectOption) * list string :=
  (Returned yesNoOptions, p).

Definition chooseOption (selector value : string) (p : list string)
    : Outcome unit * list string :=
  (Returned tt, p ++ [value]).

Definition sponsorshipMappings : list (string * QuestionHandler.DropdownMapping) :=
  [ ("sponsorship",
     QuestionHandler.mkMapping ["sponsorship"; "visa"] (Some yesNoAliases)
       "compliance.require_sponsorship" (Some [("true", "Yes"); ("false", "No")])) ].

(** * Properties *)

(** ** Lists *)

Section ListFacts.

Lemma find_first {A} (f : A -> bool) pre x post :
  Forall (fun y => f y = false) pre -> f x = true ->
  List.find f (pre ++ x :: post) = Some x.
Proof.
  intros Hpre Hx. induction Hpre as [|y pre Hy _ IH]; simpl.
  - by rewrite Hx.
  - by rewrite Hy.
Qed.

Lemma find_elem {A} (f : A -> bool) (l : list A) (x : A) :
  List.find f l = Some x -> x ∈ l /\ f x = true.
Proof.
  induction l as [|y l IH]; simpl; [done |].
  destruct (f y) eqn:E.
  - intros [= ->]. split; [by left | done].
  - intros Hf. destruct (IH Hf). split; [by right | done].
Qed.

Lemma find_some_of_elem {A} (f : A -> bool) (l : list A) (x : A) :
  x ∈ l -> f x = true -> exists y, List.find f l = Some y.
Proof.
  intros Hx Hfx. induction l as [|y l IH]; [inversion Hx |].
  simpl. destruct (f y) eqn:E; [eauto |].
  apply elem_of_cons in Hx as [-> | Hx]; [congruence | auto].
Qed.

Lemma find_none {A} (f : A -> bool) (l : list A) :
  (forall x, x ∈ l -> f x = false) -> List.find f l = None.
Proof.
  intros Hn. induction l as [|x l IH]; simpl; [done |].
  rewrite (Hn x) by (by left). apply IH. intros y Hy. apply Hn. by right.
Qed.

Lemma fold_left_count {A} (f : A -> nat) (l : list A) (a : nat) :
  fold_left (fun acc x => acc + f x) l a = a + fold_left (fun acc x => acc + f x) l 0.
Proof.
  revert a. induction l as [|x l IH]; intros a; simpl; [lia |].
  rewrite (IH (a + f x)), (IH (f x)). lia.
Qed.








Lemma tail_drop {A} (l : list A) n : tail (drop n l) = drop (S n) l.
Proof.
  revert l. induction n as [|n IH]; intros [|x l]; simpl; done.
Qed.

End ListFacts.

(** ** The string operations on small inputs *)

Example includes_examples :
  JS.includes "None of the above" "one" = true
  /\ JS.includes "abc" "" = true
  /\ JS.includes "" "" = true
  /\ JS.includes "abc" "bd" = false
  /\ JS.includes "ms" "master's" = false.
Proof. repeat split; reflexivity. Qed.

Example trim_examples :
  JS.trim "  First   Name  " = "First   Name"
  /\ JS.collapseSpaces "a   b  c " = "a b c "
  /\ JS.trim "   " = ""
  /\ JS.toLowerCase "Apply NOW" = "apply now"
  /\ JS.or_else "" "fallback" = "fallback"
  /\ JS.or_else " " "fallback" = " ".
Proof. repeat split; reflexivity. Qed.

Example truncateValue_examples :
  truncateValue "short" = "short"
  /\ truncateValue "123456789012345678901234567890123456789012345678901"
     = "12345678901234567890123456789012345678901234567...".
Proof. split; reflexivity. Qed.

Example path_parsing_examples :
  Questions.splitDots "education[0].school" = ["education[0]"; "school"]
  /\ Questions.splitDots "" = [""]
  /\ Questions.arrayMatch "education[0]" = Some ("education", "0")
  /\ Questions.arrayMatch "my-education[12]x" = Some ("education", "12")
  /\ Questions.arrayMatch "education[]" = None
  /\ Questions.arrayMatch "school" = None
  /\ Questions.parseInt "007" = 7
  /\ Questions.arrayIndex "007" = None
  /\ Questions.arrayIndex "10" = Some 10.
Proof. repeat split; reflexivity. Qed.

Example observeButtons_examples :
  Agent.observeButtons [submitButton; disabledNext; applyLink]
  = [Agent.mkButton
       ("button:has-text(" +:+ JS.dquote +:+ "Submit application" +:+ JS.dquote +:+ ")")
       "Submit application" Agent.BSubmit]
  /\ Agent.classifyButton "add another" "" = Agent.BAdd
  /\ Agent.classifyButton "save and continue" "" = Agent.BNext
  /\ Agent.classifyButton "cancel" "" = Agent.BOther.
Proof. repeat split; vm_compute; reflexivity. Qed.

Example page_counts_examples :
  Navigator.searchFieldCount listingPage = 3
  /\ Navigator.applicationFieldCount listingPage = 0
  /\ Navigator.searchFieldCount formPage = 3
  /\ Navigator.applicationFieldCount formPage = 4
  /\ Navigator.isApplicationFormPage listingPage = false.
Proof. repeat split; vm_compute; reflexivity. Qed.

(** ** The tracker and the tracked fills *)

Section TrackerFacts.

Lemma isFieldFilled_filled selector t :
  is_Some (filledFields t !! selector) -> isFieldFilled selector t = true.
Proof.
  intros Hs. unfold isFieldFilled. rewrite bool_decide_eq_true_2; done.
Qed.

Lemma isFieldFilled_markAttempted selector t :
  isFieldFilled selector (markAttempted selector t) = true.
Proof.
  unfold isFieldFilled, markAttempted; simpl.
  rewrite (bool_decide_eq_true_2 (selector ∈ _)); [apply orb_true_r | set_solver].
Qed.

Lemma isFieldFilled_reset selector t : isFieldFilled selector (reset t) = false.
Proof.
  unfold isFieldFilled, reset; simpl.
  rewrite lookup_empty, bool_decide_eq_false_2 by (intros [? ?]; done).
  rewrite bool_decide_eq_false_2; [done | set_solver].
Qed.

Lemma grows_refl t : grows t t.
Proof. split; [auto | set_solver]. Qed.

Lemma grows_trans t1 t2 t3 : grows t1 t2 -> grows t2 t3 -> grows t1 t3.
Proof. intros [H1 H2] [H3 H4]. split; [auto | set_solver]. Qed.

Lemma grows_markAttempted selector t : grows t (markAttempted selector t).
Proof. split; simpl; [auto | set_solver]. Qed.

Lemma grows_recordFailure selector label reason module t :
  grows t (recordFailure selector label reason module t).
Proof. split; simpl; [auto | set_solver]. Qed.

Lemma grows_recordFill n selector label value module t :
  grows t (recordFill n selector label value module t).
Proof.
  unfold recordFill. destruct (filledFields t !! selector) eqn:E.
  - apply grows_refl.
  - split; simpl; [| set_solver].
    intros s Hs. destruct (decide (selector = s)) as [->|Hne].
    + rewrite lookup_insert_eq. eauto.
    + rewrite lookup_insert_ne; done.
Qed.

Lemma grows_isFieldFilled selector t t' :
  grows t t' -> isFieldFilled selector t = true -> isFieldFilled selector t' = true.
Proof.
  intros [Hf Ha]. unfold isFieldFilled. rewrite !orb_true_iff, !bool_decide_eq_true.
  intros [Hs | Hs]; [left; auto | right; set_solver].
Qed.

Lemma recordFill_filled n selector label value module t :
  is_Some (filledFields (recordFill n selector label value module t) !! selector).
Proof.
  unfold recordFill. destruct (filledFields t !! selector) eqn:E; simpl.
  - rewrite E. eauto.
  - rewrite lookup_insert_eq. eauto.
Qed.

End TrackerFacts.

Create HintDb tracker.
#[local] Hint Resolve grows_refl grows_markAttempted grows_recordFailure
  grows_recordFill : tracker.

Section FillerFacts.

Context {P H : Type} `{PM : PageModel P H}.

Ltac finish_attempt :=
  eexists _, _, _, _; split;
  [ rewrite <- ?app_assoc; reflexivity | constructor ].

Ltac run_call op :=
  match goal with
  | |- context [op ?p] => destruct (op p) as [[?|?] ?]; cbn -[String.eqb]
  end.

Lemma fillTextField_filled selector value label module (w : World P) :
  isFieldFilled selector (tracker w) = true ->
  fillTextField selector value label module w = (Returned false, w).
Proof.
  intros Hf. unfold fillTextField, bind, readTracker; simpl. rewrite Hf. reflexivity.
Qed.

Lemma fillSelectField_filled selector value label module (w : World P) :
  isFieldFilled selector (tracker w) = true ->
  fillSelectField selector value label module w = (Returned false, w).
Proof.
  intros Hf. unfold fillSelectField, bind, readTracker; simpl. rewrite Hf. reflexivity.
Qed.

Lemma fillTextField_attempt selector value label module (w : World P) :
  isFieldFilled selector (tracker w) = false ->
  exists b t' p' cs,
    fillTextField selector value label module w
      = (Returned b, mkWorld t' p' (calls w ++ CallQuery selector :: cs) (now w))
    /\ Attempt selector value label module w b t'.
Proof.
  intros Hf.
  unfold fillTextField, bind, try_catch, readTracker, onTracker, withClock, pageCall, ret.
  cbn -[String.eqb]. rewrite Hf. cbn -[String.eqb].
  destruct (page_query selector (page w)) as [[[el|]|e] p1] eqn:Eq; cbn -[String.eqb];
    try finish_attempt.
  destruct (el_isVisible el p1) as [[[]|e] p2] eqn:Ev; cbn -[String.eqb];
    try finish_attempt.
  assert (Hskip : forall p3, currentValueOf el p2 = (value, p3) ->
                             AlreadyHolds selector value w)
    by (intros p3 Hcur; exists el, p1, p2, p3; done).
  unfold currentValueOf in Hskip.
  destruct (el_inputValue el p2) as [[cur|e] p3]; cbn -[String.eqb].
  - destruct (String.eqb_spec cur value) as [-> | Hne]; cbn -[String.eqb].
    { eexists _, _, _, _. split; [rewrite <- ?app_assoc; reflexivity |].
      apply AttemptSkipped. by eapply Hskip. }
    run_call (el_click el); try finish_attempt.
    run_call (el_fill el ""); try finish_attempt.
    run_call (el_fill el value); finish_attempt.
  - destruct (String.eqb_spec "" value) as [<- | Hne]; cbn -[String.eqb].
    { eexists _, _, _, _. split; [rewrite <- ?app_assoc; reflexivity |].
      apply AttemptSkipped. by eapply Hskip. }
    run_call (el_click el); try finish_attempt.
    run_call (el_fill el ""); try finish_attempt.
    run_call (el_fill el value); finish_attempt.
Qed.

Lemma fillSelectField_attempt selector value label module (w : World P) :
  isFieldFilled selector (tracker w) = false ->
  exists b t' p' cs,
    fillSelectField selector value label module w
      = (Returned b, mkWorld t' p' (calls w ++ CallQuery selector :: cs) (now w))
    /\ Attempt selector value label module w b t'.
Proof.
  intros Hf.
  unfold fillSelectField, bind, try_catch, readTracker, onTracker, withClock, pageCall, ret.
  cbn. rewrite Hf. cbn.
  destruct (page_query selector (page w)) as [[[el|]|e] p1]; cbn; try finish_attempt.
  destruct (el_selectByLabel el value p1) as [[[]|e1] p2]; cbn; try finish_attempt.
  destruct (el_selectByValue el value p2) as [[[]|e2] p3]; cbn; finish_attempt.
Qed.

Lemma Attempt_grows selector value label module (w : World P) b t' :
  Attempt selector value label module w b t' ->
  grows (tracker w) t' /\ isFieldFilled selector t' = true.
Proof.
  intros Ha. destruct Ha; (split;
    [ eapply grows_trans; [apply grows_markAttempted | auto with tracker]
    | eapply grows_isFieldFilled; [| apply isFieldFilled_markAttempted];
      auto with tracker ]).
Qed.

Lemma Attempt_true selector value label module (w : World P) t' :
  isFieldFilled selector (tracker w) = false ->
  Attempt selector value label module w true t' ->
  filledFields t' !! selector
    = Some (mkFill selector (JS.or_else label selector) (truncateValue value)
              (now w) true module)
  /\ failedFields t' = failedFields (tracker w).
Proof.
  intros Hf Ha. inversion Ha; subst.
  unfold isFieldFilled in Hf. apply orb_false_iff in Hf as [Hf _].
  apply bool_decide_eq_false in Hf.
  unfold recordFill; simpl.
  destruct (filledFields (tracker w) !! selector) eqn:E.
  - exfalso. apply Hf. eauto.
  - simpl. rewrite lookup_insert_eq. done.
Qed.

(** Every tracked fill returns; it only adds to the tracker; afterwards its
    selector counts as filled; it can only succeed on a selector that did not. *)
Lemma runCall_spec (c : FillCall) (w : World P) :
  exists b w',
    runCall c w = (Returned b, w')
    /\ grows (tracker w) (tracker w')
    /\ isFieldFilled (callSelector c) (tracker w') = true
    /\ (isFieldFilled (callSelector c) (tracker w) = true -> b = false /\ w' = w)
    /\ (b = true -> is_Some (filledFields (tracker w') !! callSelector c)).
Proof.
  destruct (isFieldFilled (callSelector c) (tracker w)) eqn:Hf.
  - exists false, w.
    split; [destruct c; simpl in *;
            first [apply fillTextField_filled | apply fillSelectField_filled]; done |].
    split; [apply grows_refl |]. split; [exact Hf |]. split; [done | done].
  - assert (exists b t' p' cs,
      runCall c w = (Returned b, mkWorld t' p' (calls w ++ CallQuery (callSelector c) :: cs) (now w))
      /\ Attempt (callSelector c)
           match c with TextFill _ v _ _ | SelectFill _ v _ _ => v end
           match c with TextFill _ _ l _ | SelectFill _ _ l _ => l end
           match c with TextFill _ _ _ m | SelectFill _ _ _ m => m end w b t')
      as (b & t' & p' & cs & Hr & Ha).
    { destruct c; simpl in *;
        [apply fillTextField_attempt | apply fillSelectField_attempt]; done. }
    exists b, (mkWorld t' p' (calls w ++ CallQuery (callSelector c) :: cs) (now w)).
    destruct (Attempt_grows _ _ _ _ _ _ _ Ha) as [Hg Hfill].
    split; [exact Hr |]. split; [exact Hg |]. split; [exact Hfill |].
    split; [intros Hf'; simpl in *; congruence |].
    intros ->. eapply Attempt_true in Ha as [Hl _]; [| done]. simpl. rewrite Hl. eauto.
Qed.

Lemma applyWrite_grows n u t : grows t (applyWrite n u t).
Proof. destruct u; simpl; auto with tracker. Qed.

(** Every event of a session returns and only adds to the tracker. *)
Lemma runEvent_spec (e : SessionEvent) (w : World P) :
  exists r w',
    runEvent e w = (Returned r, w')
    /\ grows (tracker w) (tracker w')
    /\ (forall c, e = EvFill c ->
          exists b, r = Some b
            /\ isFieldFilled (callSelector c) (tracker w') = true
            /\ (isFieldFilled (callSelector c) (tracker w) = true -> b = false)).
Proof.
  destruct e as [c | u | f elapsed].
  - destruct (runCall_spec c w) as (b & w' & Hr & Hg & Hfill & Hnoop & _).
    exists (Some b), w'. cbn [runEvent]. unfold bind, ret. rewrite Hr.
    split; [done |]. split; [done |].
    intros c' [= <-]. exists b. split; [done |]. split; [done |].
    intros Hf. by destruct (Hnoop Hf).
  - eexists _, _. split; [reflexivity |]. split; [apply applyWrite_grows | done].
  - eexists _, _. split; [reflexivity |]. split; [apply grows_refl | done].
Qed.

Lemma runSession_spec (selector : string) (es : list SessionEvent) :
  forall (w : World P),
  exists rs w',
    runSession es w = (Returned rs, w')
    /\ length rs = length es
    /\ grows (tracker w) (tracker w')
    /\ successesOn selector es rs <= 1
    /\ (isFieldFilled selector (tracker w) = true -> successesOn selector es rs = 0).
Proof.
  induction es as [|e es IH]; intros w.
  - exists [], w. repeat split; simpl; auto with tracker.
  - destruct (runEvent_spec e w) as (r & w1 & He & Hg1 & Hfillspec).
    destruct (IH w1) as (rs & w2 & Hes & Hlen & Hg2 & Hle & Hzero).
    exists (r :: rs), w2. cbn [runSession]. unfold bind, ret. rewrite He, Hes.
    split; [reflexivity |]. split; [simpl; congruence |].
    split; [eapply grows_trans; eauto |].
    assert (Hkeep : isFieldFilled selector (tracker w) = true ->
                    successesOn selector es rs = 0).
    { intros Hf. apply Hzero. eapply grows_isFieldFilled; eauto. }
    destruct e as [c | u | f elapsed].
    + destruct (Hfillspec c eq_refl) as (b & -> & Hfill & Hnoop).
      cbn [successesOn].
      destruct (String.eqb_spec (callSelector c) selector) as [Heq | Hne].
      * subst selector. rewrite andb_true_r. rewrite (Hzero Hfill).
        split; [destruct b; simpl; lia |].
        intros Hf. by rewrite (Hnoop Hf).
      * rewrite andb_false_r. simpl. split; [exact Hle | exact Hkeep].
    + destruct r; cbn [successesOn]; split; [exact Hle | exact Hkeep | exact Hle | exact Hkeep].
    + destruct r; cbn [successesOn]; split; [exact Hle | exact Hkeep | exact Hle | exact Hkeep].
Qed.

Lemma Attempt_Recorded selector value label module (w : World P) b t' p' cs :
  isFieldFilled selector (tracker w) = false ->
  Attempt selector value label module w b t' ->
  Recorded selector value label module w b (mkWorld t' p' cs (now w))
    (AlreadyHolds selector value w).
Proof.
  intros Hf Ha. destruct Ha.
  - left. split; [done |]. eapply Attempt_true; [done | constructor].
  - right; left. split; [done |]. simpl. split; [| done].
    exists reason. by rewrite lookup_insert_eq.
  - right; right. done.
Qed.

(** The three recorded failures of [fillTextField], each with its reason, and
    the unrecorded return. *)
Lemma fillTextField_not_found selector value label module (w : World P) p1 :
  isFieldFilled selector (tracker w) = false ->
  page_query selector (page w) = (Returned None, p1) ->
  fillTextField selector value label module w
  = (Returned false,
     mkWorld (recordFailure selector label "Element not found" module
                (markAttempted selector (tracker w)))
             p1 (calls w ++ [CallQuery selector]) (now w)).
Proof.
  intros Hf Hq.
  unfold fillTextField, bind, try_catch, readTracker, onTracker, pageCall, ret.
  cbn. rewrite Hf. cbn. rewrite Hq. reflexivity.
Qed.

Lemma fillTextField_not_visible selector value label module (w : World P) el p1 p2 :
  isFieldFilled selector (tracker w) = false ->
  page_query selector (page w) = (Returned (Some el), p1) ->
  el_isVisible el p1 = (Returned false, p2) ->
  fillTextField selector value label module w
  = (Returned false,
     mkWorld (recordFailure selector label "Element not visible" module
                (markAttempted selector (tracker w)))
             p2 (calls w ++ [CallQuery selector; CallIsVisible]) (now w)).
Proof.
  intros Hf Hq Hv.
  unfold fillTextField, bind, try_catch, readTracker, onTracker, pageCall, ret.
  cbn. rewrite Hf. cbn. rewrite Hq. cbn. rewrite Hv. cbn.
  rewrite <- app_assoc. reflexivity.
Qed.

Lemma fillTextField_click_throws selector value label module (w : World P)
    el p1 p2 cur p3 err p4 :
  isFieldFilled selector (tracker w) = false ->
  page_query selector (page w) = (Returned (Some el), p1) ->
  el_isVisible el p1 = (Returned true, p2) ->
  el_inputValue el p2 = (Returned cur, p3) ->
  cur <> value ->
  el_click el p3 = (Thrown err, p4) ->
  fillTextField selector value label module w
  = (Returned false,
     mkWorld (recordFailure selector label err module
                (markAttempted selector (tracker w)))
             p4 (calls w ++ [CallQuery selector; CallIsVisible; CallInputValue; CallClick])
             (now w)).
Proof.
  intros Hf Hq Hv Hi Hne Hc.
  unfold fillTextField, bind, try_catch, readTracker, onTracker, pageCall, ret.
  cbn -[String.eqb]. rewrite Hf. cbn -[String.eqb]. rewrite Hq. cbn -[String.eqb].
  rewrite Hv. cbn -[String.eqb]. rewrite Hi. cbn -[String.eqb].
  apply String.eqb_neq in Hne. rewrite Hne. cbn -[String.eqb]. rewrite Hc.
  cbn. rewrite <- !app_assoc. reflexivity.
Qed.

Lemma fillTextField_same_value selector value label module (w : World P) el p1 p2 p3 :
  isFieldFilled selector (tracker w) = false ->
  page_query selector (page w) = (Returned (Some el), p1) ->
  el_isVisible el p1 = (Returned true, p2) ->
  el_inputValue el p2 = (Returned value, p3) ->
  fillTextField selector value label module w
  = (Returned false,
     mkWorld (markAttempted selector (tracker w))
             p3 (calls w ++ [CallQuery selector; CallIsVisible; CallInputValue]) (now w)).
Proof.
  intros Hf Hq Hv Hi.
  unfold fillTextField, bind, try_catch, readTracker, onTracker, pageCall, ret.
  cbn -[String.eqb]. rewrite Hf. cbn -[String.eqb]. rewrite Hq. cbn -[String.eqb].
  rewrite Hv. cbn -[String.eqb]. rewrite Hi. cbn -[String.eqb].
  rewrite String.eqb_refl. cbn. rewrite <- !app_assoc. reflexivity.
Qed.

(** [fillSelectField] has no unrecorded return. *)
Lemma fillSelectField_recorded selector value label module (w : World P) :
  isFieldFilled selector (tracker w) = false ->
  exists b w',
    fillSelectField selector value label module w = (Returned b, w')
    /\ Recorded selector value label module w b w' False.
Proof.
  intros Hf.
  assert (Hnone : filledFields (tracker w) !! selector = None).
  { unfold isFieldFilled in Hf. apply orb_false_iff in Hf as [Hf _].
    apply bool_decide_eq_false in Hf.
    destruct (filledFields (tracker w) !! selector) eqn:E; [| done].
    exfalso; apply Hf; eauto. }
  unfold fillSelectField, bind, try_catch, readTracker, onTracker, withClock, pageCall, ret.
  cbn. rewrite Hf. cbn.
  assert (Hok : forall p' cs,
    Recorded selector value label module w true
      (mkWorld (recordFill (now w) selector label value module
                  (markAttempted selector (tracker w))) p' cs (now w)) False).
  { intros. left. split; [done |]. unfold recordFill; cbn. rewrite Hnone. cbn.
    by rewrite lookup_insert_eq. }
  assert (Hko : forall reason p' cs,
    Recorded selector value label module w false
      (mkWorld (recordFailure selector label reason module
                  (markAttempted selector (tracker w))) p' cs (now w)) False).
  { intros. right; left. split; [done |]. cbn. split; [| done].
    exists reason. by rewrite lookup_insert_eq. }
  destruct (page_query selector (page w)) as [[[el|]|e] p1]; cbn; eauto.
  destruct (el_selectByLabel el value p1) as [[[]|e1] p2]; cbn; eauto.
  destruct (el_selectByValue el value p2) as [[[]|e2] p3]; cbn; eauto.
Qed.

Lemma trySelectors_returns (Hp : ProbesReturn) selectors value label :
  forall w : World P, exists w', trySelectors selectors value label w = (Returned tt, w').
Proof.
  destruct Hp as (Hq & Hv & Ht).
  induction selectors as [|selector rest IH]; intros w; [by eexists |].
  cbn -[fillTextField fillSelectField]. unfold bind at 1, pageCall at 1.
  destruct (Hq selector (page w)) as (r & p1 & ->). destruct r as [el|]; [| apply IH].
  unfold bind at 1, pageCall at 1. cbn -[fillTextField fillSelectField].
  destruct (Hv el p1) as (vis & p2 & ->). destruct vis; cbn -[fillTextField fillSelectField];
    [| apply IH].
  unfold bind at 1, pageCall at 1. cbn -[fillTextField fillSelectField].
  destruct (Ht el p2) as (tg & p3 & ->). unfold bind at 1.
  set (w3 := mkWorld _ _ _ _).
  destruct (String.eqb tg "select").
  - destruct (runCall_spec (SelectFill selector value label "BasicFields") w3)
      as (b & w4 & Hr & _). unfold runCall in Hr. rewrite Hr.
    destruct b; [by eexists | apply IH].
  - destruct (runCall_spec (TextFill selector value label "BasicFields") w3)
      as (b & w4 & Hr & _). unfold runCall in Hr. rewrite Hr.
    destruct b; [by eexists | apply IH].
Qed.

Lemma fillBasicFields_returns (Hp : ProbesReturn) profileValue fieldSelectors fields :
  forall w : World P,
    exists w', fillBasicFields profileValue fieldSelectors fields w = (Returned tt, w').
Proof.
  induction fields as [|[name label] rest IH]; intros w; [by eexists |].
  cbn -[trySelectors]. destruct (JS.truthy (profileValue name)); cbn -[trySelectors];
    [| apply IH].
  unfold bind.
  destruct (trySelectors_returns Hp (fieldSelectors name) (profileValue name) label w)
    as (w1 & ->).
  apply IH.
Qed.

(** C1. A fill call ([fillTextField] or [fillSelectField]) on a selector for
    which the tracker holds a FillRecord returns [false] at once and leaves the
    tracker, the page and the log of page calls exactly as they were; and in
    any session (tracked fill calls, direct tracker writes of other passes
    and outside activity on the page, without a reset), from any state of the
    tracker, the tracked fills of one selector succeed at most once. *)
Theorem C1_fill_on_filled_selector_is_noop
    (selector : string) (r : FieldFillRecord) (w : World P) :
  filledFields (tracker w) !! selector = Some r ->
  (forall value label module,
     fillTextField selector value label module w = (Returned false, w))
  /\ (forall value label module,
        fillSelectField selector value label module w = (Returned false, w))
  /\ (forall (es : list SessionEvent) (w0 : World P),
        exists rs w',
          runSession es w0 = (Returned rs, w')
          /\ length rs = length es
          /\ successesOn selector es rs <= 1).
Proof.
  intros Hr.
  assert (Hf : isFieldFilled selector (tracker w) = true)
    by (apply isFieldFilled_filled; eauto).
  split; [intros; by apply fillTextField_filled |].
  split; [intros; by apply fillSelectField_filled |].
  intros es w0.
  destruct (runSession_spec selector es w0) as (rs & w' & Hrun & Hlen & _ & Hle & _).
  eauto.
Qed.

(** C10. Whatever the outcome of a tracked fill call on a selector (success
    or failure), the tracker then reports the selector as filled; after any
    further events of the same session, a fill call on that selector still
    returns [false] and leaves tracker, page and call log untouched; [reset]
    ends this. *)
Theorem C10_attempted_selector_is_never_retried
    (c : FillCall) (es : list SessionEvent) (w : World P) :
  let w1 := snd (runCall c w) in
  let w2 := snd (runSession es w1) in
  isFieldFilled (callSelector c) (tracker w1) = true
  /\ isFieldFilled (callSelector c) (tracker w2) = true
  /\ (forall value label module,
        fillTextField (callSelector c) value label module w2 = (Returned false, w2))
  /\ (forall value label module,
        fillSelectField (callSelector c) value label module w2 = (Returned false, w2))
  /\ isFieldFilled (callSelector c) (reset (tracker w2)) = false.
Proof.
  intros w1 w2.
  destruct (runCall_spec c w) as (b & w1' & Hc & _ & Hfill & _).
  assert (Hw1 : w1 = w1') by (unfold w1; rewrite Hc; reflexivity).
  destruct (runSession_spec (callSelector c) es w1) as (rs & w2' & Hcs & _ & Hg & _).
  assert (Hw2 : w2 = w2') by (unfold w2; rewrite Hcs; reflexivity).
  assert (Hf2 : isFieldFilled (callSelector c) (tracker w2) = true).
  { rewrite Hw2. eapply grows_isFieldFilled; [exact Hg |]. rewrite Hw1. exact Hfill. }
  split; [rewrite Hw1; exact Hfill |].
  split; [exact Hf2 |].
  split; [intros; by apply fillTextField_filled |].
  split; [intros; by apply fillSelectField_filled |].
  apply isFieldFilled_reset.
Qed.

(** C9 (amended). A tracked fill call never throws.  A call that gets past
    the already-filled check writes exactly one tracker record, a FillRecord
    when it returns [true] and a failure record carrying a reason when it
    returns [false] (["Element not found"], ["Element not visible"], or the text
    of the error thrown by the page), with one exception: [fillTextField]
    records nothing when, and only when, the element is found, visible and
    already holds the value.  When the probes of the basic-fields pass
    return, the pass runs to its end whatever the outcomes of the fills. *)
Theorem C9_fill_attempt_is_recorded_not_thrown
    (selector value label module : string) (w : World P) :
  isFieldFilled selector (tracker w) = false ->
  (exists b w',
     fillTextField selector value label module w = (Returned b, w')
     /\ Recorded selector value label module w b w' (AlreadyHolds selector value w))
  /\ (exists b w',
        fillSelectField selector value label module w = (Returned b, w')
        /\ Recorded selector value label module w b w' False)
  /\ (forall p1,
        page_query selector (page w) = (Returned None, p1) ->
        exists w',
          fillTextField selector value label module w = (Returned false, w')
          /\ failedFields (tracker w') !! selector
              = Some (mkFailure (JS.or_else label selector) "Element not found"))
  /\ (forall el p1 p2,
        page_query selector (page w) = (Returned (Some el), p1) ->
        el_isVisible el p1 = (Returned false, p2) ->
        exists w',
          fillTextField selector value label module w = (Returned false, w')
          /\ failedFields (tracker w') !! selector
              = Some (mkFailure (JS.or_else label selector) "Element not visible"))
  /\ (forall el p1 p2 cur p3 err p4,
        page_query selector (page w) = (Returned (Some el), p1) ->
        el_isVisible el p1 = (Returned true, p2) ->
        el_inputValue el p2 = (Returned cur, p3) ->
        cur <> value ->
        el_click el p3 = (Thrown err, p4) ->
        exists w',
          fillTextField selector value label module w = (Returned false, w')
          /\ failedFields (tracker w') !! selector
              = Some (mkFailure (JS.or_else label selector) err))
  /\ (forall el p1 p2 p3,
        page_query selector (page w) = (Returned (Some el), p1) ->
        el_isVisible el p1 = (Returned true, p2) ->
        el_inputValue el p2 = (Returned value, p3) ->
        exists w',
          fillTextField selector value label module w = (Returned false, w')
          /\ filledFields (tracker w') = filledFields (tracker w)
          /\ failedFields (tracker w') = failedFields (tracker w))
  /\ (ProbesReturn ->
      forall profileValue fieldSelectors fields (w0 : World P),
        exists w', fillBasicFields profileValue fieldSelectors fields w0 = (Returned tt, w')).
Proof.
  intros Hf.
  split.
  { destruct (fillTextField_attempt selector value label module w Hf)
      as (b & t' & p' & cs & Hr & Ha).
    eexists _, _. split; [exact Hr |]. by apply Attempt_Recorded. }
  split; [by apply fillSelectField_recorded |].
  split.
  { intros p1 Hq. eexists. split; [by apply fillTextField_not_found |].
    cbn. by rewrite lookup_insert_eq. }
  split.
  { intros el p1 p2 Hq Hv. eexists. split; [by eapply fillTextField_not_visible |].
    cbn. by rewrite lookup_insert_eq. }
  split.
  { intros el p1 p2 cur p3 err p4 Hq Hv Hi Hne Hc. eexists.
    split; [by eapply fillTextField_click_throws |].
    cbn. by rewrite lookup_insert_eq. }
  split.
  { intros el p1 p2 p3 Hq Hv Hi. eexists.
    split; [by eapply fillTextField_same_value |]. done. }
  intros Hp profileValue fieldSelectors fields w0.
  by apply fillBasicFields_returns.
Qed.

End FillerFacts.

Lemma C1_witness :
  fillTextField "#email" "ada@example.org" "Email" "AI" afterEmailFill
  = (Returned false, afterEmailFill).
Proof.
  refine (proj1 (C1_fill_on_filled_selector_is_noop "#email"
                   (mkFill "#email" "Email" "ada@example.org" 0 true "BasicFields")
                   afterEmailFill _) _ _ _).
  vm_compute. reflexivity.
Defined.

(** C9, as stated, fails: this attempt marks the selector as attempted and
    reads the page, returns [false], and writes no record at all. *)
Lemma C9_attempt_without_record :
  let r := fillTextField "#email" "ada@example.org" "Email" "BasicFields"
             (SimplePage.start prefilledPage) in
  r.1 = Returned false
  /\ calls r.2 = [CallQuery "#email"; CallIsVisible; CallInputValue]
  /\ "#email" ∈ attemptedSelectors (tracker r.2)
  /\ filledFields (tracker r.2) !! "#email" = None
  /\ failedFields (tracker r.2) !! "#email" = None.
Proof.
  cbv zeta. repeat split; vm_compute; reflexivity.
Qed.

(** A fill that failed because the element was not yet on the page is not
    tried again once the element is there. *)
Example failed_fill_is_not_retried :
  let w1 := (fillTextField "#email" "ada@example.org" "Email" "BasicFields"
               (SimplePage.start ∅)).2 in
  let w2 := (runEvent (EvOutside (fun _ => emailPage) 5) w1).2 in
  failedFields (tracker w1) !! "#email" = Some (mkFailure "Email" "Element not found")
  /\ page w2 = emailPage
  /\ fillTextField "#email" "ada@example.org" "Email" "AI" w2 = (Returned false, w2).
Proof. cbv zeta. repeat split; vm_compute; reflexivity. Qed.

Lemma simplePage_probes_return : @ProbesReturn _ _ SimplePage.simplePage.
Proof. repeat split; intros; eexists _, _; reflexivity. Qed.

Lemma C9_witness :
  (exists b w',
     fillTextField "#email" "ada@example.org" "Email" "BasicFields"
       (SimplePage.start emailPage) = (Returned b, w')
     /\ Recorded "#email" "ada@example.org" "Email" "BasicFields"
          (SimplePage.start emailPage) b w'
          (AlreadyHolds "#email" "ada@example.org" (SimplePage.start emailPage)))
  /\ (exists w',
        fillBasicFields (fun _ => "ada@example.org") (fun _ => ["#email"; "#mail"])
          basicFields (SimplePage.start emailPage) = (Returned tt, w')).
Proof.
  pose proof (C9_fill_attempt_is_recorded_not_thrown
                "#email" "ada@example.org" "Email" "BasicFields"
                (SimplePage.start emailPage)) as Hthm.
  assert (Hf : isFieldFilled "#email" (tracker (SimplePage.start emailPage)) = false)
    by (vm_compute; reflexivity).
  destruct (Hthm Hf) as (Htext & _ & _ & _ & _ & _ & Hpass).
  split; [exact Htext |].
  exact (Hpass simplePage_probes_return _ _ _ _).
Defined.

(** ** Field extraction *)

Section ExtractorFacts.

Import Extractor.

Lemma or_else_truthy a b : JS.truthy a = true -> JS.or_else a b = a.
Proof. unfold JS.or_else. by intros ->. Qed.

Lemma or_else_empty a : JS.or_else a "" = a.
Proof.
  unfold JS.or_else, JS.truthy. destruct (String.eqb_spec a ""); simpl; congruence.
Qed.

Lemma truthy_nonempty a : a <> "" <-> JS.truthy a = true.
Proof.
  unfold JS.truthy. destruct (String.eqb_spec a ""); simpl; split; congruence.
Qed.

Lemma dedupLoop_spec (fields : list ExtractedField) :
  forall (seen : gset string) (unique : list ExtractedField),
    Forall (fun f => selector f <> "") fields ->
    (forall s, s ∈ seen <-> s ∈ map selector unique) ->
    NoDup (map selector unique) ->
    exists extra,
      dedupLoop fields seen unique = unique ++ extra
      /\ NoDup (map selector (unique ++ extra))
      /\ (forall g, g ∈ extra ->
            firstWithSelector g fields = Some g /\ selector g ∉ seen)
      /\ (forall f, f ∈ fields ->
            exists g, g ∈ unique ++ extra /\ selector g = selector f).
Proof.
  induction fields as [|field rest IH]; intros seen unique Hne Hseen Hnd.
  - exists []. rewrite app_nil_r. simpl.
    split; [done |]. split; [done |].
    split; intros ? Hin; inversion Hin.
  - apply Forall_cons in Hne as [Hfield Hrest].
    simpl. rewrite (or_else_truthy _ _ (proj1 (truthy_nonempty _) Hfield)).
    rewrite (proj1 (truthy_nonempty _) Hfield). simpl.
    destruct (bool_decide_reflect (selector field ∈ seen)) as [Hin | Hnin]; simpl.
    + destruct (IH seen unique Hrest Hseen Hnd) as (extra & Heq & Hnd' & Hfirst & Hall).
      exists extra. split; [exact Heq |]. split; [exact Hnd' |]. split.
      * intros g Hg. destruct (Hfirst g Hg) as [Hfind Hnotin]. split; [| exact Hnotin].
        unfold firstWithSelector, sameSelector in *. simpl.
        destruct (String.eqb_spec (selector field) (selector g)) as [Heq' |]; [| exact Hfind].
        exfalso. apply Hnotin. by rewrite <- Heq'.
      * intros f Hf. apply elem_of_cons in Hf as [-> | Hf]; [| by apply Hall].
        apply Hseen in Hin. apply list_elem_of_fmap in Hin as (g & Hsel & Hg).
        exists g. split; [apply elem_of_app; by left | done].
    + destruct (IH ({[selector field]} ∪ seen) (unique ++ [field]) Hrest)
        as (extra & Heq & Hnd' & Hfirst & Hall).
      { intros s. rewrite map_app, elem_of_app, elem_of_union, elem_of_singleton.
        simpl. rewrite list_elem_of_singleton, Hseen. tauto. }
      { rewrite map_app. apply NoDup_app. split; [exact Hnd |]. split.
        - intros s Hs Hs'. simpl in Hs'. apply list_elem_of_singleton in Hs'. subst s.
          apply Hnin. by apply Hseen.
        - simpl. apply NoDup_singleton. }
      exists (field :: extra). rewrite <- app_assoc in Heq, Hnd'. simpl in Heq, Hnd'.
      split; [exact Heq |]. split; [exact Hnd' |]. split.
      * intros g Hg. apply elem_of_cons in Hg as [-> | Hg].
        { split; [| exact Hnin]. unfold firstWithSelector, sameSelector. simpl.
          by rewrite String.eqb_refl. }
        destruct (Hfirst g Hg) as [Hfind Hnotin].
        split; [| intros Hs; apply Hnotin, elem_of_union; by right].
        unfold firstWithSelector, sameSelector in *. simpl.
        destruct (String.eqb_spec (selector field) (selector g)) as [Heq' |]; [| exact Hfind].
        exfalso. apply Hnotin. rewrite Heq'.
        apply elem_of_union. left. by apply elem_of_singleton.
      * intros f Hf. apply elem_of_cons in Hf as [-> | Hf].
        { exists field. split; [| done]. apply elem_of_app. right. by left. }
        destruct (Hall f Hf) as (g & Hg & Hsel). exists g. split; [| done].
        rewrite <- app_assoc in Hg. exact Hg.
Qed.

(** C3 (amended). For fields with a selector, as every per-family scan
    produces them, no two records of the deduplicated list share a selector,
    every selector of the input is still represented, and the record kept
    for a selector is the first discovered with it, whether or not a later
    record with that selector carries more (resolved options, for one). *)
Theorem C3_dedup_keeps_first_record_per_selector (fields : list ExtractedField) :
  Forall (fun f => selector f <> "") fields ->
  NoDup (map selector (deduplicateFields fields))
  /\ (forall f, f ∈ fields ->
        exists g, g ∈ deduplicateFields fields /\ selector g = selector f)
  /\ (forall g, g ∈ deduplicateFields fields -> firstWithSelector g fields = Some g).
Proof.
  intros Hne.
  destruct (dedupLoop_spec fields ∅ [] Hne) as (extra & Heq & Hnd & Hfirst & Hall).
  { intros s. simpl. split; intros Hs; [set_solver | inversion Hs]. }
  { constructor. }
  unfold deduplicateFields. rewrite Heq. simpl in *.
  split; [exact Hnd |]. split; [exact Hall |].
  intros g Hg. by apply Hfirst.
Qed.


Lemma falsy_empty a : JS.truthy a = false -> a = "".
Proof.
  unfold JS.truthy. destruct (String.eqb_spec a ""); simpl; congruence.
Qed.

(** C4 (amended). The label of a text input is the first non-empty of: the
    ARIA label, the placeholder, the text of the [label[for]] element (looked
    up only for an element with an id), the labeled child of the nearest
    ancestor container; it is then white-space normalized.  There is no
    fallback to the name, the id or the position: when the four are empty the
    label is empty.  [analyzeForm] uses the first three, in the same order. *)
Theorem C4_label_resolution_order (v : TextInputView) :
  textInputLabel v
  = JS.trim (JS.collapseSpaces
      (firstNonEmpty [ default "" (in_ariaLabel v); in_placeholder v;
                       labelForText v; containerLabelText v ]))
  /\ (default "" (in_ariaLabel v) = "" -> in_placeholder v = "" ->
      labelForText v = "" -> containerLabelText v = "" -> textInputLabel v = "")
  /\ (forall ariaLabel placeholder id labelFor,
        analyzeFormLabel ariaLabel placeholder id labelFor
        = JS.trim (firstNonEmpty
            [ ariaLabel; placeholder;
              if JS.truthy id then default "" (labelFor ≫= (fun t => t)) else "" ])).
Proof.
  assert (Hmain : textInputLabel v
    = JS.trim (JS.collapseSpaces
        (firstNonEmpty [ default "" (in_ariaLabel v); in_placeholder v;
                         labelForText v; containerLabelText v ]))).
  { unfold textInputLabel, firstNonEmpty, labelForText, containerLabelText.
    rewrite !or_else_empty. unfold JS.or_else.
    destruct (in_ariaLabel v) as [[|ca aria]|];
      destruct (in_placeholder v) as [|cp ph]; destruct (in_id v) as [|ci i];
      destruct (in_labelFor v) as [text|]; destruct (in_container v) as [[[lt []]|]|];
      cbn -[JS.trim JS.collapseSpaces]; try reflexivity;
      try (destruct (JS.trim text) eqn:Et; cbn -[JS.trim JS.collapseSpaces]);
      try reflexivity;
      try (destruct (JS.trim lt) eqn:El; cbn -[JS.trim JS.collapseSpaces]);
      reflexivity. }
  split; [exact Hmain |]. split.
  - intros Ha Hp Hl Hc. rewrite Hmain, Ha, Hp, Hl, Hc. reflexivity.
  - intros ariaLabel placeholder id labelFor.
    unfold analyzeFormLabel, firstNonEmpty. rewrite ?or_else_empty.
    unfold JS.or_else.
    destruct ariaLabel, placeholder, id, labelFor as [[[|ct text]|]|];
      cbn -[JS.trim]; reflexivity.
Qed.

End ExtractorFacts.

(** C3, as stated, fails: the record kept is the one without options. *)
Lemma C3_record_without_options_is_kept :
  Extractor.deduplicateFields [schoolInput; schoolDropdown] = [schoolInput]
  /\ Extractor.selector schoolInput = Extractor.selector schoolDropdown
  /\ Extractor.options schoolInput = None
  /\ Extractor.options schoolDropdown
     = Some [Extractor.mkOption "MIT" "MIT"; Extractor.mkOption "Stanford" "Stanford"].
Proof. repeat split; vm_compute; reflexivity. Qed.

Lemma C3_witness :
  NoDup (map Extractor.selector (Extractor.deduplicateFields [schoolInput; schoolDropdown]))
  /\ (forall f, f ∈ [schoolInput; schoolDropdown] ->
        exists g, g ∈ Extractor.deduplicateFields [schoolInput; schoolDropdown]
                  /\ Extractor.selector g = Extractor.selector f)
  /\ (forall g, g ∈ Extractor.deduplicateFields [schoolInput; schoolDropdown] ->
        Extractor.firstWithSelector g [schoolInput; schoolDropdown] = Some g).
Proof.
  apply (C3_dedup_keeps_first_record_per_selector [schoolInput; schoolDropdown]).
  repeat constructor; discriminate.
Defined.

(** C4, as stated, fails: the placeholder wins over the associated label, and
    the name is no fallback. *)
Lemma C4_placeholder_wins_over_label_for :
  Extractor.textInputLabel firstNameInput = "Enter your first name"
  /\ Extractor.specLabelOrder firstNameInput 0 = "First Name"
  /\ Extractor.textInputLabel phoneInput = ""
  /\ Extractor.specLabelOrder phoneInput 1 = "phone".
Proof. repeat split; vm_compute; reflexivity. Qed.

Lemma C4_witness : Extractor.textInputLabel phoneInput = "".
Proof.
  exact (proj1 (proj2 (C4_label_resolution_order phoneInput))
           eq_refl eq_refl eq_refl eq_refl).
Defined.

(** ** Profile paths and option matching *)

Section QuestionFacts.

Import Questions.











(** C5 (amended). The rules are tried in the order alias table, exact
    equality of text or value, substring containment, each on lower-cased
    strings, and the first rule that finds an option decides.  When the alias
    rule finds nothing, an option whose text equals the target
    case-insensitively and that is not preceded by another option with an
    equal text or value is the one returned, whatever the other options
    contain. *)
Theorem C5_option_matching_order
    (options : list SelectOption) (targetValue : string)
    (optionMatches : option (list (string * list string))) :
  let lowerTarget := JS.toLowerCase targetValue in
  let result := findMatchingOption (Returned options) targetValue optionMatches in
  (forall v, aliasPart options lowerTarget optionMatches = Some v -> result = Some v)
  /\ (aliasPart options lowerTarget optionMatches = None ->
      forall o, exactRule options lowerTarget = Some o -> result = Some (so_value o))
  /\ (aliasPart options lowerTarget optionMatches = None ->
      exactRule options lowerTarget = None ->
      result = so_value <$> partialRule options lowerTarget)
  /\ (aliasPart options lowerTarget optionMatches = None ->
      forall pre o post,
        options = pre ++ o :: post ->
        JS.toLowerCase (so_text o) = lowerTarget ->
        Forall (fun x => exactTest lowerTarget x = false) pre ->
        result = Some (so_value o)).
Proof.
  intros lowerTarget result. unfold result, findMatchingOption. fold lowerTarget.
  split; [| split; [| split]].
  - by intros v ->.
  - by intros -> o ->.
  - intros -> ->. by destruct (partialRule options lowerTarget).
  - intros -> pre o post -> Ho Hpre.
    unfold exactRule. rewrite (find_first _ pre o post Hpre); [done |].
    unfold exactTest. rewrite Ho, String.eqb_refl. done.
Qed.

End QuestionFacts.


Example getProfileValue_examples :
  let profile := Questions.profileJS sampleProfile in
  Questions.getProfileValue profile "education[1].school"
  = Questions.PVString "Second School"
  /\ Questions.getProfileValue profile "education[1].gpa" = Questions.PVString "3.9"
  /\ Questions.getProfileValue profile "education[0].gpa" = Questions.PVUndefined
  /\ Questions.getProfileValue profile "compliance.authorized_to_work"
     = Questions.PVBool true
  /\ Questions.getProfileValue profile "education" = Questions.PVUndefined
  /\ Questions.getProfileValue profile "education[0][1].school"
     = Questions.PVString "Analytical Engine Institute"
  /\ Questions.getProfileValue profile "education.1.school"
     = Questions.PVString "Second School".
Proof. cbv zeta. repeat split; vm_compute; reflexivity. Qed.

(** C5, as stated, fails: the option list contains the exact text ["No"], but
    the alias rule runs first and returns the substring-overlapping option. *)
Lemma C5_alias_rule_beats_exact_match :
  Questions.findMatchingOption (Returned yesNoOptions) "No" (Some yesNoAliases) = Some "1"
  /\ Questions.exactRule yesNoOptions (JS.toLowerCase "No")
     = Some (Questions.mkSelectOption "2" "No").
Proof. split; vm_compute; reflexivity. Qed.

Lemma C5_witness :
  Questions.findMatchingOption (Returned yesNoOptions) "No" None = Some "2".
Proof.
  refine (proj2 (proj2 (proj2 (C5_option_matching_order yesNoOptions "No" None)))
            eq_refl
            [Questions.mkSelectOption "" "Select..."; Questions.mkSelectOption "1" "Not applicable"]
            (Questions.mkSelectOption "2" "No") [] eq_refl eq_refl _).
  repeat constructor.
Defined.

(** ** Page-state detection *)

Section NavigatorFacts.

Import Dom Navigator.

Lemma countVisible_cons sel sels doc :
  countVisible (sel :: sels) doc = visibleCount doc sel + countVisible sels doc.
Proof. unfold countVisible. simpl. by rewrite fold_left_count. Qed.



Lemma markerLoop_spec sels doc : forall foundCount,
  foundCount < 2 ->
  markerLoop sels doc foundCount
  = Nat.leb 2 (foundCount + length (List.filter (markerPresent doc) sels)).
Proof.
  induction sels as [|sel sels IH]; intros foundCount Hlt; cbn [markerLoop List.filter].
  - rewrite Nat.add_0_r. symmetry. apply Nat.leb_gt. lia.
  - unfold markerPresent at 1.
    destruct (query sel doc) as [element|]; [| by apply IH].
    destruct (isVisible element); [| by apply IH].
    cbn [length]. destruct foundCount as [|[|n]]; [| | lia].
    + rewrite (IH 1) by lia. reflexivity.
    + reflexivity.
Qed.







End NavigatorFacts.



(** ** The agent: clicking a button *)

Section ClickFacts.

Import Dom Agent.

Variable parseSelector : string -> Outcome Selector.
Variable waitSettles : Element -> bool.

Lemma exactButtonSel_matches target e :
  matchesSel (exactButtonSel target) e = true ->
  buttonLike e = true /\ hasText target e = true.
Proof.
  unfold buttonLike, exactButtonSel, matchesSel, matchesCompound, tagText, byTag, byAttr.
  cbn [existsb optTest c_tag c_id c_class c_attrs c_hasText forallb].
  rewrite !andb_true_r, !orb_false_r.
  destruct (String.eqb "button" (localName e)), (String.eqb "a" (localName e)),
    (attrTest (AttrIs "role" "button") e), (hasText target e);
    cbn; intros Hm; try discriminate; split; reflexivity.
Qed.

Lemma partialButtonSel_matches e :
  matchesSel partialButtonSel e = true -> buttonLike e = true.
Proof.
  unfold buttonLike, partialButtonSel, matchesSel, matchesCompound, tagAttr, byTag, byAttr.
  cbn [existsb optTest c_tag c_id c_class c_attrs c_hasText forallb].
  rewrite !andb_true_r, !orb_false_r.
  destruct (String.eqb "button" (localName e)), (String.eqb "a" (localName e)),
    (attrTest (AttrIs "role" "button") e); cbn; intros Hm; try discriminate; reflexivity.
Qed.

Lemma findButton_sound target doc button :
  readsAsWritten parseSelector target ->
  findButton parseSelector target doc = Returned (Some button) ->
  button ∈ doc /\ buttonLike button = true /\ textMatches target button = true.
Proof.
  intros Hread. unfold findButton, query, textMatches.
  destruct (parseSelector (exactButtonQuery target)) as [sel | err] eqn:Ep; [| done].
  rewrite (Hread sel Ep).
  destruct (List.find (matchesSel (exactButtonSel target)) doc) as [b|] eqn:E.
  - intros [= ->]. apply find_elem in E as [Hin Hm].
    apply exactButtonSel_matches in Hm as [Hb Ht]. rewrite Ht. done.
  - intros [= Hf]. apply find_elem in Hf as [Hin Hp].
    unfold queryAll in Hin. apply list_elem_of_In, filter_In in Hin as [Hin Hm].
    apply list_elem_of_In in Hin. apply partialButtonSel_matches in Hm.
    rewrite Hp, orb_true_r. done.
Qed.

Lemma findButton_none target doc button :
  readsAsWritten parseSelector target ->
  (forall e, e ∈ doc -> buttonLike e = true -> textMatches target e = false) ->
  findButton parseSelector target doc <> Returned (Some button).
Proof.
  intros Hread Hn Hf. destruct (findButton_sound _ _ _ Hread Hf) as (Hin & Hb & Hm).
  rewrite (Hn button Hin Hb) in Hm. discriminate.
Qed.

(** C6 (what the code ensures). A [click_button] action returns [true] only
    after clicking an element of the live page that is a [button], an [a] or
    a [[role="button"]] element, whose text contains the target as a
    case-insensitive substring, and that is enabled; a target that matches no
    such element, or one whose interpolation is not a selector, is a failure
    without any click; the element clicked is never a disabled one.  The
    buttons of the latest observation are not consulted. *)
Theorem C6_click_button_matches_live_page
    (target : option string) (doc : list Element) (ok : bool) (clicked : option Element) :
  clickButton parseSelector waitSettles target doc = (ok, clicked) ->
  (forall t, target = Some t -> readsAsWritten parseSelector t) ->
  (ok = true ->
     exists t button,
       target = Some t /\ t <> "" /\ clicked = Some button /\ button ∈ doc
       /\ buttonLike button = true /\ textMatches t button = true
       /\ isEnabled button = true)
  /\ (ok = false ->
      clicked = None \/ exists button, clicked = Some button /\ waitSettles button = false)
  /\ (forall t, target = Some t ->
        (forall e, e ∈ doc -> buttonLike e = true -> textMatches t e = false) ->
        ok = false /\ clicked = None)
  /\ (forall t err, target = Some t ->
        parseSelector (exactButtonQuery t) = Thrown err ->
        ok = false /\ clicked = None)
  /\ (forall button, clicked = Some button ->
        button ∈ doc /\ buttonLike button = true /\ isEnabled button = true
        /\ clickReturns button = true
        /\ exists t, target = Some t /\ textMatches t button = true).
Proof.
  unfold clickButton. intros Hc Hread.
  destruct target as [t|]; [| injection Hc as <- <-; repeat split; intros; try done; by left].
  specialize (Hread t eq_refl).
  destruct (JS.truthy t) eqn:Et; cbn [negb] in Hc;
    [| injection Hc as <- <-; repeat split; intros; try done; by left].
  destruct (findButton parseSelector t doc) as [[button|] | err] eqn:Ef.
  - pose proof (findButton_sound _ _ _ Hread Ef) as (Hin & Hb & Hm).
    assert (Hfound : forall t' : string, Some t = Some t' ->
              (forall e, e ∈ doc -> buttonLike e = true -> textMatches t' e = false) -> False).
    { intros t' [= <-] Hn. by apply (findButton_none t doc button Hread Hn). }
    assert (Hparsed : forall t' err, Some t = Some t' ->
              parseSelector (exactButtonQuery t') = Thrown err -> False).
    { intros t' err [= <-] Hp. unfold findButton in Ef. by rewrite Hp in Ef. }
    destruct (isEnabled button) eqn:Een; cbn [negb] in Hc.
    + destruct (clickReturns button) eqn:Ecl.
      * destruct (waitSettles button) eqn:Ew; injection Hc as <- <-.
        -- split; [| split; [done | split; [| split]]].
           ++ intros _. exists t, button. repeat split; try done. by apply truthy_nonempty.
           ++ intros t' Ht Hn. by destruct (Hfound t' Ht Hn).
           ++ intros t' err Ht Hp. by destruct (Hparsed t' err Ht Hp).
           ++ intros b [= <-]. repeat split; try done. by exists t.
        -- split; [done | split; [| split; [| split]]].
           ++ intros _. right. by exists button.
           ++ intros t' Ht Hn. by destruct (Hfound t' Ht Hn).
           ++ intros t' err Ht Hp. by destruct (Hparsed t' err Ht Hp).
           ++ intros b [= <-]. repeat split; try done. by exists t.
      * injection Hc as <- <-. split; [done | split; [by left | split; [| split]]].
        -- intros t' Ht Hn. by destruct (Hfound t' Ht Hn).
        -- intros t' err Ht Hp. by destruct (Hparsed t' err Ht Hp).
        -- done.
    + injection Hc as <- <-. split; [done | split; [by left | split; [| split]]].
      * intros t' Ht Hn. by destruct (Hfound t' Ht Hn).
      * intros t' err Ht Hp. by destruct (Hparsed t' err Ht Hp).
      * done.
  - injection Hc as <- <-. repeat split; intros; try done. by left.
  - injection Hc as <- <-. repeat split; intros; try done. by left.
Qed.

End ClickFacts.

(** The reader of the scenarios reads the query of every plain target as it
    is written. *)
Lemma untilQuote_plain t rest :
  plainText t = true -> untilQuote (t +:+ String (ascii_of_nat 34) rest) = t.
Proof.
  induction t as [|c t IH]; intros Hp.
  - reflexivity.
  - cbn [plainText] in Hp. apply andb_true_iff in Hp as [Hc Ht].
    change (String c t +:+ String (ascii_of_nat 34) rest)
      with (String c (t +:+ String (ascii_of_nat 34) rest)).
    cbn [untilQuote]. unfold plainChar in Hc.
    destruct (Nat.eqb (nat_of_ascii c) 34); [discriminate |].
    by rewrite IH.
Qed.

Lemma readExactQuery_plain t :
  plainText t = true ->
  readExactQuery (Agent.exactButtonQuery t) = Returned (Agent.exactButtonSel t).
Proof.
  intros Hp. unfold readExactQuery.
  change (afterPrefix ("button:has-text(" +:+ JS.dquote) (Agent.exactButtonQuery t))
    with (Some (t +:+ String (ascii_of_nat 34)
                  ("), a:has-text(" +:+ JS.dquote +:+ t +:+ JS.dquote
                   +:+ "), [role=" +:+ JS.dquote +:+ "button" +:+ JS.dquote
                   +:+ "]:has-text(" +:+ JS.dquote +:+ t +:+ JS.dquote +:+ ")"))).
  cbv beta iota zeta. rewrite (untilQuote_plain t _ Hp), Hp, String.eqb_refl. reflexivity.
Qed.

(** C6, as stated, fails: neither element is among the observed buttons, so
    no target matches an observed button, and both get clicked; the second is
    the overlay's own button, which the observation leaves out on purpose. *)
Lemma C6_unobserved_element_is_clicked :
  Agent.observeButtons [applyLink; overlayStart] = []
  /\ Agent.clickButton readExactQuery pageStays (Some "Apply") [applyLink; overlayStart]
     = (true, Some applyLink)
  /\ Agent.clickButton readExactQuery pageStays (Some "start") [applyLink; overlayStart]
     = (true, Some overlayStart)
  /\ Dom.inOverlay overlayStart = true.
Proof. repeat split; vm_compute; reflexivity. Qed.

Lemma C6_witness :
  (exists t button,
     Some "submit" = Some t /\ t <> "" /\ Some submitButton = Some button
     /\ button ∈ [disabledNext; submitButton]
     /\ Agent.buttonLike button = true /\ Agent.textMatches t button = true
     /\ Agent.isEnabled button = true)
  /\ Agent.clickButton readExactQuery pageStays (Some "Next") [disabledNext; submitButton]
     = (false, None).
Proof.
  split.
  - apply (C6_click_button_matches_live_page readExactQuery pageStays (Some "submit")
             [disabledNext; submitButton] true (Some submitButton)).
    + reflexivity.
    + intros t [= <-] sel. rewrite (readExactQuery_plain "submit" eq_refl).
      by intros [= <-].
    + reflexivity.
  - vm_compute. reflexivity.
Defined.

(** Three failures without a click: a target with a double quote in it, whose
    interpolation Playwright does not read, although a button carries that
    very text; a button inside a disabled fieldset, which passes the enabled
    test of the code and fails that of the click; and a click that closes the
    page, after which the wait throws. *)
Example clickButton_failures :
  Agent.clickButton readExactQuery pageStays (Some quotedTarget) [quotedButton]
  = (false, None)
  /\ Agent.partialMatch quotedTarget quotedButton = true
  /\ Agent.clickButton readExactQuery pageStays (Some "Save") [fieldsetButton] = (false, None)
  /\ Agent.isEnabled fieldsetButton = true
  /\ Agent.clickButton readExactQuery (fun _ => false) (Some "submit") [submitButton]
     = (false, Some submitButton).
Proof. repeat split; vm_compute; reflexivity. Qed.

(** ** The agent loop *)

Section LoopFacts.

Import Agent.

Lemma lastFive_length keys : length (lastFive keys) <= 5.
Proof. unfold lastFive. rewrite length_drop. lia. Qed.

Lemma pushRecent_lastFive keys key :
  pushRecent (lastFive keys) key = lastFive (keys ++ [key]).
Proof.
  unfold pushRecent, lastFive. rewrite !length_app, length_drop. cbn [length].
  destruct (Nat.ltb_spec 5 (length keys - (length keys - 5) + 1)) as [Hgt | Hle].
  - assert (Hlen : 5 <= length keys) by lia.
    replace (length keys + 1 - 5) with (S (length keys - 5)) by lia.
    rewrite <- drop_app_le by lia. apply tail_drop.
  - replace (length keys - 5) with 0 by lia.
    replace (length keys + 1 - 5) with 0 by lia. reflexivity.
Qed.

Lemma sameActionCount_replicate key n :
  sameActionCount (replicate n key) key = n.
Proof.
  unfold sameActionCount. induction n as [|n IH]; simpl; [done |].
  rewrite String.eqb_refl. simpl. by rewrite IH.
Qed.

Context {W Obs : Type}.
Variable observePage : W -> Outcome Obs * W.
Variable decideAction : Obs -> list string -> W -> Outcome AgentAction * W.
Variable executeAction : AgentAction -> W -> Outcome bool * W.
Variable waitForTimeout : nat -> W -> Outcome unit * W.

Abbreviation step := (agentStep observePage decideAction executeAction waitForTimeout).
Abbreviation loop := (agentLoop observePage decideAction executeAction waitForTimeout).

(** The loop guard: a third occurrence of the decided key in the window stops
    the run before the action is recorded or executed. *)
Lemma agentStep_guard st w obs w1 action w2 :
  observePage w = (Returned obs, w1) ->
  decideAction obs (ls_actionHistory st) w1 = (Returned action, w2) ->
  3 <= sameActionCount (pushRecent (ls_recentActions st) (actionKey action))
         (actionKey action) ->
  step st w
  = (Stop (mkResult false (S (ls_steps st))
             ("Action loop detected: " +:+ a_type action +:+ " - " +:+ targetText action)),
     w2).
Proof.
  intros Ho Hd Hc. unfold agentStep. rewrite Ho, Hd.
  by rewrite (proj2 (Nat.leb_le _ _) Hc).
Qed.

(** The wait at the end of the body hands on the state it was given. *)
Lemma pause_continue st w st' w' :
  pause waitForTimeout st w = (Continue st', w') -> st' = st.
Proof.
  unfold pause. destruct (waitForTimeout 100 w) as [[[]|err] w1]; [| done].
  by intros [= <- <-].
Qed.

Lemma pause_stop st w r w' : pause waitForTimeout st w <> (Stop r, w').
Proof. unfold pause. by destruct (waitForTimeout 100 w) as [[[]|err] w1]. Qed.

(** A step that continues has pushed the decided key on the window. *)
Lemma agentStep_continue st w st' w' :
  step st w = (Continue st', w') ->
  exists action,
    ls_recentActions st' = pushRecent (ls_recentActions st) (actionKey action)
    /\ sameActionCount (ls_recentActions st') (actionKey action) < 3
    /\ ls_steps st' = S (ls_steps st).
Proof.
  unfold agentStep. destruct (observePage w) as [[obs|err] w1]; [| done].
  destruct (decideAction obs (ls_actionHistory st) w1) as [[action|err] w2]; [| done].
  destruct (Nat.leb_spec 3 (sameActionCount
              (pushRecent (ls_recentActions st) (actionKey action)) (actionKey action)))
    as [Hge | Hlt]; [done |].
  destruct (String.eqb (a_type action) "done"); [done |].
  destruct (String.eqb (a_type action) "need_help"); [done |].
  destruct (executeAction action w2) as [[[]|err] w3].
  - intros Hp. apply pause_continue in Hp as ->. exists action. done.
  - match goal with |- context [if Nat.leb 5 ?c then _ else _] => destruct (Nat.leb 5 c) end;
      [done |].
    intros Hp. apply pause_continue in Hp as ->. exists action. done.
  - destruct (Nat.leb 5 (S (ls_consecutiveFailures st))); [done |].
    intros Hp. apply pause_continue in Hp as ->. exists action. done.
Qed.

(** A rejected observation rejects the run. *)
Lemma observePage_throw_rejects remaining st w err w1 :
  observePage w = (Thrown err, w1) ->
  loop (S remaining) st w = (Thrown err, w1).
Proof. intros Ho. cbn [agentLoop]. unfold agentStep. by rewrite Ho. Qed.

(** So does a rejected wait after an executed action. *)
Lemma waitForTimeout_throw_rejects remaining st w obs w1 action w2 w3 err w4 :
  observePage w = (Returned obs, w1) ->
  decideAction obs (ls_actionHistory st) w1 = (Returned action, w2) ->
  sameActionCount (pushRecent (ls_recentActions st) (actionKey action)) (actionKey action) < 3 ->
  a_type action <> "done" -> a_type action <> "need_help" ->
  executeAction action w2 = (Returned true, w3) ->
  waitForTimeout 100 w3 = (Thrown err, w4) ->
  loop (S remaining) st w = (Thrown err, w4).
Proof.
  intros Ho Hd Hc Hdone Hhelp He Hw. cbn [agentLoop]. unfold agentStep.
  rewrite Ho, Hd, (proj2 (Nat.leb_gt _ _) Hc).
  rewrite (proj2 (String.eqb_neq _ _) Hdone), (proj2 (String.eqb_neq _ _) Hhelp), He.
  unfold pause. by rewrite Hw.
Qed.

Section ConstantOracle.

Variable action : AgentAction.
Hypothesis action_is_click : a_type action = "click_button".
Hypothesis oracle_constant :
  forall obs history w, (decideAction obs history w).1 = Returned action.
Hypothesis observe_returns : forall w, exists obs w', observePage w = (Returned obs, w').
Hypothesis wait_returns : forall ms w, exists w', waitForTimeout ms w = (Returned tt, w').

(** With fewer than two copies of the key in the window and fewer than four
    failures so far, the step continues. *)
Lemma constant_step_continues st w n :
  n < 2 ->
  ls_recentActions st = replicate n (actionKey action) ->
  ls_consecutiveFailures st < 4 ->
  exists st' w',
    step st w = (Continue st', w')
    /\ ls_steps st' = S (ls_steps st)
    /\ ls_recentActions st' = replicate (S n) (actionKey action)
    /\ ls_consecutiveFailures st' <= S (ls_consecutiveFailures st).
Proof.
  intros Hn Hrecent Hcf. unfold agentStep.
  destruct (observe_returns w) as (obs & w1 & ->).
  pose proof (oracle_constant obs (ls_actionHistory st) w1) as Hd.
  destruct (decideAction obs (ls_actionHistory st) w1) as [r w2]. cbn in Hd. subst r.
  assert (Hpush : pushRecent (ls_recentActions st) (actionKey action)
                  = replicate (S n) (actionKey action)).
  { rewrite Hrecent. unfold pushRecent.
    destruct n as [|[|n]]; [reflexivity | reflexivity | lia]. }
  rewrite Hpush, sameActionCount_replicate.
  destruct n as [|[|n]]; [| | lia].
  all: cbn [Nat.leb]; rewrite action_is_click; cbn [String.eqb Ascii.eqb Bool.eqb].
  all: destruct (ls_consecutiveFailures st) as [|[|[|[|c]]]] eqn:Ecf; [| | | | lia].
  all: destruct (executeAction action w2) as [[[]|err] w3]; cbn.
  all: unfold pause; destruct (wait_returns 100 w3) as (w4 & ->).
  all: eexists _, _; (split; [reflexivity |]); cbn; repeat split; lia.
Qed.

Lemma constant_oracle_stops_at_step_3 remaining w :
  exists w',
    loop (3 + remaining) initialLoop w
    = (Returned (mkResult false 3
                   ("Action loop detected: click_button - " +:+ targetText action)),
       w').
Proof.
  destruct (constant_step_continues initialLoop w 0) as (st1 & w1 & H1 & Hs1 & Hr1 & Hc1);
    [lia | reflexivity | cbn; lia |].
  destruct (constant_step_continues st1 w1 1) as (st2 & w2 & H2 & Hs2 & Hr2 & Hc2);
    [lia | exact Hr1 | cbn in Hc1; lia |].
  cbn [Nat.add agentLoop]. rewrite H1, H2.
  destruct (observe_returns w2) as (obs & w2' & Ho).
  pose proof (oracle_constant obs (ls_actionHistory st2) w2') as Hd.
  destruct (decideAction obs (ls_actionHistory st2) w2') as [r w3] eqn:Ed. cbn in Hd. subst r.
  rewrite (agentStep_guard st2 w2 obs w2' action w3 Ho Ed).
  - rewrite Hs2, Hs1, action_is_click. cbn. eauto.
  - rewrite Hr2. change (pushRecent _ _) with (replicate 3 (actionKey action)).
    by rewrite sameActionCount_replicate.
Qed.

(** Under a ceiling below three the guard is never reached. *)
Lemma constant_oracle_below_3 maxSteps w :
  maxSteps < 3 ->
  exists w',
    loop maxSteps initialLoop w
    = (Returned (mkResult false maxSteps "Max steps reached"), w').
Proof.
  intros Hmax. destruct maxSteps as [|[|[|n]]]; [| | | lia].
  - eexists. reflexivity.
  - destruct (constant_step_continues initialLoop w 0) as (st1 & w1 & H1 & Hs1 & _);
      [lia | reflexivity | cbn; lia |].
    cbn [agentLoop]. rewrite H1, Hs1. eexists. reflexivity.
  - destruct (constant_step_continues initialLoop w 0) as (st1 & w1 & H1 & Hs1 & Hr1 & Hc1);
      [lia | reflexivity | cbn; lia |].
    destruct (constant_step_continues st1 w1 1) as (st2 & w2 & H2 & Hs2 & _);
      [lia | exact Hr1 | cbn in Hc1; lia |].
    cbn [agentLoop]. rewrite H1, H2, Hs2, Hs1. eexists. reflexivity.
Qed.

End ConstantOracle.

(** C2 (amended). The loop keeps the last five action keys; a step whose
    decided key then occurs at least three times among them ends the run at
    once with [success = false] and a reason that reports the action loop, and
    a run that goes on has fewer than three copies of the decided key in its
    window.  For an oracle that always returns the same [click_button] action,
    and provided the observation of the page and the wait between two steps
    return, the run ends by this guard at step three when the step ceiling is
    at least three, and by the ceiling, with reason ["Max steps reached"],
    when it is below three.  Both calls are awaited outside the [try] of the
    loop: an observation that throws, or a wait that throws after a
    successful action, rejects the run from that iteration on. *)
Theorem C2_loop_guard :
  (forall keys key,
     pushRecent (lastFive keys) key = lastFive (keys ++ [key])
     /\ length (lastFive keys) <= 5)
  /\ (forall st w obs w1 action w2,
        observePage w = (Returned obs, w1) ->
        decideAction obs (ls_actionHistory st) w1 = (Returned action, w2) ->
        3 <= sameActionCount (pushRecent (ls_recentActions st) (actionKey action))
               (actionKey action) ->
        step st w
        = (Stop (mkResult false (S (ls_steps st))
                   ("Action loop detected: " +:+ a_type action +:+ " - "
                      +:+ targetText action)),
           w2))
  /\ (forall st w st' w',
        step st w = (Continue st', w') ->
        exists action,
          ls_recentActions st' = pushRecent (ls_recentActions st) (actionKey action)
          /\ sameActionCount (ls_recentActions st') (actionKey action) < 3)
  /\ (forall action maxSteps w,
        a_type action = "click_button" ->
        (forall obs history w0, (decideAction obs history w0).1 = Returned action) ->
        (forall w0, exists obs w1, observePage w0 = (Returned obs, w1)) ->
        (forall ms w0, exists w1, waitForTimeout ms w0 = (Returned tt, w1)) ->
        (3 <= maxSteps ->
         exists w',
           runFormAgent observePage decideAction executeAction waitForTimeout maxSteps w
           = (Returned (mkResult false 3
                          ("Action loop detected: click_button - " +:+ targetText action)),
              w'))
        /\ (maxSteps < 3 ->
            exists w',
              runFormAgent observePage decideAction executeAction waitForTimeout maxSteps w
              = (Returned (mkResult false maxSteps "Max steps reached"), w')))
  /\ (forall remaining st w err w1,
        observePage w = (Thrown err, w1) ->
        loop (S remaining) st w = (Thrown err, w1))
  /\ (forall remaining st w obs w1 action w2 w3 err w4,
        observePage w = (Returned obs, w1) ->
        decideAction obs (ls_actionHistory st) w1 = (Returned action, w2) ->
        sameActionCount (pushRecent (ls_recentActions st) (actionKey action))
          (actionKey action) < 3 ->
        a_type action <> "done" -> a_type action <> "need_help" ->
        executeAction action w2 = (Returned true, w3) ->
        waitForTimeout 100 w3 = (Thrown err, w4) ->
        loop (S remaining) st w = (Thrown err, w4)).
Proof.
  split; [| split; [| split; [| split; [| split]]]].
  - intros keys key. split; [apply pushRecent_lastFive | apply lastFive_length].
  - apply agentStep_guard.
  - intros st w st' w' Hs. destruct (agentStep_continue _ _ _ _ Hs) as (a & ? & ? & _).
    eauto.
  - intros action maxSteps w Hclick Hconst Hobs Hwait. unfold runFormAgent. split.
    + intros Hmax. replace maxSteps with (3 + (maxSteps - 3)) by lia.
      by apply constant_oracle_stops_at_step_3.
    + intros Hmax. by apply (constant_oracle_below_3 action).
  - apply observePage_throw_rejects.
  - apply waitForTimeout_throw_rejects.
Qed.

End LoopFacts.

(** C2, as stated, fails: under a step ceiling of two the same oracle ends
    the run by the ceiling, not by the loop guard. *)
Lemma C2_ceiling_of_two_ends_without_guard :
  Agent.runFormAgent idleObserve stuckOracle buttonMissing noWait 2 tt
  = (Returned (Agent.mkResult false 2 "Max steps reached"), tt).
Proof. vm_compute. reflexivity. Qed.

Lemma C2_witness :
  (exists w',
     Agent.runFormAgent idleObserve stuckOracle buttonMissing noWait 30 tt
     = (Returned (Agent.mkResult false 3
                    ("Action loop detected: click_button - " +:+ Agent.targetText addAction)),
        w'))
  /\ Agent.runFormAgent closedPage stuckOracle buttonMissing noWait 30 tt
     = (Thrown "page.evaluate: Target page, context or browser has been closed", tt)
  /\ Agent.runFormAgent idleObserve stuckOracle clickCloses closedWait 30 tt
     = (Thrown "page.waitForTimeout: Target page, context or browser has been closed", tt).
Proof.
  split; [| split].
  - destruct (proj1 (proj2 (proj2 (proj2
               (C2_loop_guard idleObserve stuckOracle buttonMissing noWait))))
               addAction 30 tt) as [Hguard _].
    + reflexivity.
    + reflexivity.
    + intros w0. exists tt, w0. reflexivity.
    + intros ms w0. exists w0. reflexivity.
    + apply Hguard. lia.
  - apply (proj1 (proj2 (proj2 (proj2 (proj2
             (C2_loop_guard closedPage stuckOracle buttonMissing noWait)))))
             29 Agent.initialLoop tt).
    reflexivity.
  - apply (proj2 (proj2 (proj2 (proj2 (proj2
             (C2_loop_guard idleObserve stuckOracle clickCloses closedWait)))))
             29 Agent.initialLoop tt tt tt addAction tt tt).
    + reflexivity.
    + reflexivity.
    + vm_compute. lia.
    + discriminate.
    + discriminate.
    + reflexivity.
    + reflexivity.
Defined.

(** * Further properties of the embedded code *)

(** ** Strings *)

Section StringFacts.

Lemma length_append (s t : string) :
  String.length (s +:+ t) = String.length s + String.length t.
Proof. induction s as [|c s IH]; simpl; [done | by rewrite IH]. Qed.

Lemma length_substring_0 (n : nat) (s : string) :
  String.length (String.substring 0 n s) = Nat.min n (String.length s).
Proof.
  revert s. induction n as [|n IH]; intros [|c s]; simpl; try done.
  by rewrite IH.
Qed.

Lemma substring_0_append (n : nat) (s t : string) :
  n <= String.length s ->
  String.substring 0 n (String.substring 0 n s +:+ t) = String.substring 0 n s.
Proof.
  revert s. induction n as [|n IH]; intros s Hn.
  - destruct s; simpl; by destruct t.
  - destruct s as [|c s]; simpl in *; [lia |].
    rewrite IH; [done | lia].
Qed.

Lemma includes_empty (s : string) : JS.includes s "" = true.
Proof. by destruct s. Qed.

Lemma prefix_append (s t : string) : String.prefix s (s +:+ t) = true.
Proof.
  induction s as [|c s IH]; simpl; [by destruct t |].
  destruct (ascii_dec c c); [exact IH | done].
Qed.

Lemma includes_prefix (s sub : string) :
  String.prefix sub s = true -> JS.includes s sub = true.
Proof. intros Hp. destruct s; simpl in *; by rewrite Hp. Qed.

Lemma includes_append_r (s t sub : string) :
  JS.includes t sub = true -> JS.includes (s +:+ t) sub = true.
Proof.
  intros Ht. induction s as [|c s IH]; [exact Ht |].
  change (JS.includes (String c s +:+ t) sub)
    with (String.prefix sub (String c (s +:+ t)) || JS.includes (s +:+ t) sub).
  rewrite IH. apply orb_true_r.
Qed.

End StringFacts.

(** ** The tracker: fill records *)

Section TrackerRecords.

Lemma getFilledCount_recordFill n selector label value module t :
  getFilledCount (recordFill n selector label value module t)
  = (if bool_decide (is_Some (filledFields t !! selector))
     then getFilledCount t else S (getFilledCount t)).
Proof.
  unfold recordFill, getFilledCount.
  destruct (filledFields t !! selector) eqn:E.
  - rewrite bool_decide_eq_true_2 by eauto. done.
  - rewrite bool_decide_eq_false_2 by (intros [? ?]; done).
    cbn [filledFields]. by rewrite map_size_insert_None.
Qed.

(** X1. A fill record is written once per selector: a second [recordFill] on
    the same selector changes nothing, whatever label, value, module and time
    it carries, and the filled count grows by one exactly when the selector
    had no record. *)
Theorem recordFill_writes_once n1 n2 selector l1 l2 v1 v2 m1 m2 t :
  recordFill n2 selector l2 v2 m2 (recordFill n1 selector l1 v1 m1 t)
  = recordFill n1 selector l1 v1 m1 t
  /\ getFilledCount (recordFill n1 selector l1 v1 m1 t)
     = (if bool_decide (is_Some (filledFields t !! selector))
        then getFilledCount t else S (getFilledCount t)).
Proof.
  split.
  - pose proof (recordFill_filled n1 selector l1 v1 m1 t) as [r Hr].
    unfold recordFill at 1. by rewrite Hr.
  - apply getFilledCount_recordFill.
Qed.

(** X2. The value kept in a fill record has at most 50 characters, and its
    first 47 characters are those of the value that was filled in. *)
Theorem truncateValue_bound (value : string) :
  String.length (truncateValue value) = Nat.min 50 (String.length value)
  /\ String.substring 0 47 (truncateValue value) = String.substring 0 47 value.
Proof.
  unfold truncateValue. destruct (Nat.ltb_spec 50 (String.length value)) as [Hlong | Hshort].
  - split.
    + rewrite length_append, length_substring_0. cbn [String.length]. lia.
    + apply substring_0_append. lia.
  - split; [lia | done].
Qed.

Lemma applyWrite_failedFields n u t selector :
  isFailureOn selector u = false ->
  failedFields (applyWrite n u t) !! selector = failedFields t !! selector.
Proof.
  destruct u as [s | s l v m | s l r m]; cbn [applyWrite isFailureOn]; intros Hu.
  - done.
  - unfold recordFill. by destruct (filledFields t !! s).
  - cbn [recordFailure failedFields]. apply lookup_insert_ne.
    intros ->. by rewrite String.eqb_refl in Hu.
Qed.

(** X3. A failure record outlives later writes: whatever is written to the
    tracker afterwards, short of another failure on the same selector, the
    selector keeps its failure record, also when a fill of it succeeds. *)
Theorem failure_record_survives_later_fill
    (writes : list (nat * TrackerWrite)) selector label reason module t :
  Forall (fun w => isFailureOn selector w.2 = false) writes ->
  failedFields
    (fold_left (fun acc w => applyWrite w.1 w.2 acc) writes
       (recordFailure selector label reason module t)) !! selector
  = Some (mkFailure (JS.or_else label selector) reason).
Proof.
  intros Hw.
  assert (Hgen : forall t0,
            failedFields (fold_left (fun acc w => applyWrite w.1 w.2 acc) writes t0)
              !! selector = failedFields t0 !! selector).
  { induction Hw as [|w writes Hu _ IH]; intros t0; cbn [fold_left]; [done |].
    rewrite IH. by apply applyWrite_failedFields. }
  rewrite Hgen. cbn [recordFailure failedFields]. apply lookup_insert_eq.
Qed.

End TrackerRecords.

Lemma failure_record_survives_later_fill_witness :
  let t := fold_left (fun acc w => applyWrite w.1 w.2 acc)
             [(3, WriteAttempted "#email"); (4, WriteFill "#email" "Email" "ada@example.org" "AI")]
             (recordFailure "#email" "Email" "Element not visible" "BasicFields" Tracker.empty) in
  failedFields t !! "#email" = Some (mkFailure "Email" "Element not visible")
  /\ is_Some (filledFields t !! "#email").
Proof.
  split.
  - apply (failure_record_survives_later_fill
             [(3, WriteAttempted "#email");
              (4, WriteFill "#email" "Email" "ada@example.org" "AI")]
             "#email" "Email" "Element not visible" "BasicFields" Tracker.empty).
    repeat constructor.
  - cbn [fold_left applyWrite fst snd]. apply recordFill_filled.
Defined.

(** ** The basic-fields pass *)

Section BasicPass.

Context {P H : Type} `{PM : PageModel P H}.

(** X4. When none of the candidate selectors of a basic field leads to a
    visible element, the pass only probes the page and leaves the tracker as it
    was: the field is neither filled, nor failed, nor marked attempted. *)
Theorem trySelectors_without_visible_candidate selectors value label (w : World P) :
  Forall (nothingToFill (page w)) selectors ->
  exists probes,
    trySelectors selectors value label w
    = (Returned tt, mkWorld (tracker w) (page w) (calls w ++ probes) (now w))
    /\ Forall (fun c => isProbe c = true) probes.
Proof.
  destruct w as [t p cs n]. cbn [page tracker calls now].
  intros Hsel. revert cs.
  induction Hsel as [|selector rest Hs _ IH]; intros cs.
  - exists []. rewrite app_nil_r. split; [reflexivity | constructor].
  - cbn -[fillTextField fillSelectField]. unfold bind at 1, pageCall at 1.
    cbn [page tracker calls now].
    destruct Hs as [Hq | (el & Hq & Hv)]; rewrite Hq.
    + destruct (IH (cs ++ [CallQuery selector])) as (probes & -> & Hp).
      exists (CallQuery selector :: probes). rewrite <- app_assoc.
      split; [reflexivity | by constructor].
    + unfold bind at 1, pageCall at 1. cbn [page tracker calls now]. rewrite Hv.
      cbn [negb].
      destruct (IH ((cs ++ [CallQuery selector]) ++ [CallIsVisible])) as (probes & -> & Hp).
      exists (CallQuery selector :: CallIsVisible :: probes). rewrite <- !app_assoc.
      split; [reflexivity | by repeat constructor].
Qed.

(** X5. Basic fields whose profile value is empty are skipped before anything
    else happens: the pass returns with the tracker, the page and the call log
    unchanged, whatever selectors are configured for them. *)
Theorem fillBasicFields_skips_empty_values profileValue fieldSelectors fields (w : World P) :
  Forall (fun f => profileValue f.1 = "") fields ->
  fillBasicFields profileValue fieldSelectors fields w = (Returned tt, w).
Proof.
  induction 1 as [|[name label] rest Hv _ IH]; [reflexivity |].
  cbn [fst] in Hv. cbn -[trySelectors]. by rewrite Hv.
Qed.

Lemma or_null_default (v : string) :
  default "" (if JS.truthy v then Some v else None) = v.
Proof.
  destruct (JS.truthy v) eqn:E; [done |]. cbn. symmetry. by apply falsy_empty.
Qed.

(** X11. The values that the first step of [autofillForm] fills in are the
    first name, last name, e-mail address, phone number and location of the
    profile and its LinkedIn and GitHub links, in this order: the education
    key words of [getProfileValue] shadow none of the seven field names.  For
    a profile in which the seven are empty the step only resets the tracker,
    whatever the ATS and its selectors. *)
Theorem basic_values_come_from_the_profile
    (patterns : ATS.ATSType -> ATS.ATSPattern) (profile : Questions.CandidateProfile)
    (atsType : ATS.ATSType) (w : World P) :
  map (fun f => FormFiller.basicValue profile f.1) basicFields
  = [ Questions.first_name (Questions.personal profile);
      Questions.last_name (Questions.personal profile);
      Questions.email (Questions.personal profile);
      Questions.phone (Questions.personal profile);
      Questions.location (Questions.personal profile);
      Questions.linkedin (Questions.links profile);
      Questions.github (Questions.links profile) ]
  /\ (Forall (fun f => FormFiller.basicValue profile f.1 = "") basicFields ->
      FormFiller.autofillBasics patterns profile atsType w
      = (Returned tt, mkWorld (reset (tracker w)) (page w) (calls w) (now w))).
Proof.
  split.
  - unfold basicFields, FormFiller.basicValue, FormFiller.getProfileValue.
    cbn [map fst]. destruct (Questions.education profile) as [|first rest].
    + cbn. by rewrite !or_null_default.
    + cbn. by rewrite !or_null_default.
  - intros Hempty. unfold FormFiller.autofillBasics, autofillStep1, bind, onTracker.
    generalize (mkWorld (reset (tracker w)) (page w) (calls w) (now w)).
    induction Hempty as [|[name label] rest Hv _ IH]; intros w0; [reflexivity |].
    cbn [fst] in Hv. cbn -[trySelectors]. rewrite Hv. apply IH.
Qed.

End BasicPass.

Lemma trySelectors_without_visible_candidate_witness :
  exists probes,
    trySelectors ["#tel"; "#phone"; "[name=phone]"] "+44 20 7946 0000" "Phone"
      (SimplePage.start emptyFormPage)
    = (Returned tt, mkWorld Tracker.empty emptyFormPage ([] ++ probes) 0)
    /\ Forall (fun c => isProbe c = true) probes.
Proof.
  apply (trySelectors_without_visible_candidate
           ["#tel"; "#phone"; "[name=phone]"] "+44 20 7946 0000" "Phone"
           (SimplePage.start emptyFormPage)).
  apply Forall_cons. split; [left; reflexivity |].
  apply Forall_cons. split; [right; by exists "#phone" |].
  apply Forall_cons. split; [left; reflexivity | apply Forall_nil_2].
Defined.

Lemma fillBasicFields_skips_empty_values_witness :
  fillBasicFields (fun _ => "") (fun _ => ["#newsletter"]) basicFields
    (SimplePage.start emptyFormPage)
  = (Returned tt, SimplePage.start emptyFormPage).
Proof.
  apply (fillBasicFields_skips_empty_values (fun _ => "") (fun _ => ["#newsletter"])
           basicFields (SimplePage.start emptyFormPage)).
  repeat constructor.
Defined.

(** ** Option matching *)

Section MatcherFacts.

Import Questions.

Lemma aliasRule_sound options lowerTarget entries v :
  aliasRule options lowerTarget entries = Some v ->
  exists o, o ∈ options /\ so_value o = v.
Proof.
  induction entries as [|[key matches] rest IH]; cbn [aliasRule]; [done |].
  destruct (existsb _ matches); [| exact IH].
  destruct (List.find _ options) as [opt|] eqn:Ef; [| exact IH].
  intros [= <-]. apply find_elem in Ef as [Hin _]. eauto.
Qed.

Lemma findMatchingOption_elem pageOptions targetValue optionMatches v :
  findMatchingOption pageOptions targetValue optionMatches = Some v ->
  exists options o,
    pageOptions = Returned options /\ o ∈ options /\ so_value o = v.
Proof.
  unfold findMatchingOption. destruct pageOptions as [options | err]; [| done].
  destruct (aliasPart options _ optionMatches) as [v'|] eqn:Ea.
  - intros [= <-]. destruct optionMatches as [entries|]; [| done].
    apply aliasRule_sound in Ea as (o & ? & ?). eauto.
  - unfold exactRule, partialRule.
    destruct (List.find (exactTest _) options) as [o|] eqn:Ee.
    + intros [= <-]. apply find_elem in Ee as [Hin _]. eauto.
    + destruct (List.find (partialTest _) options) as [o|] eqn:Ep; [| done].
      intros [= <-]. apply find_elem in Ep as [Hin _]. eauto.
Qed.

Lemma partialTest_blank lowerTarget o :
  so_text o = "" \/ lowerTarget = "" -> partialTest lowerTarget o = true.
Proof.
  unfold partialTest. intros [E | E]; rewrite E.
  - cbn [JS.toLowerCase]. rewrite includes_empty. apply orb_true_r.
  - by rewrite includes_empty.
Qed.

Lemma toLowerCase_empty s : s = "" -> JS.toLowerCase s = "".
Proof. by intros ->. Qed.

(** X6. Whatever [findMatchingOption] returns is the value of an option that
    the page listed, and it returns nothing when reading the options throws.
    Its partial rule accepts an option with empty text for every target, and
    every option for the empty target: with such an option on the page (or an
    empty target and any option at all) it always returns a value. *)
Theorem findMatchingOption_results pageOptions targetValue optionMatches :
  (forall v,
     findMatchingOption pageOptions targetValue optionMatches = Some v ->
     exists options o,
       pageOptions = Returned options /\ o ∈ options /\ so_value o = v)
  /\ (forall options,
        pageOptions = Returned options ->
        (exists o, o ∈ options /\ so_text o = "") \/ (targetValue = "" /\ options <> []) ->
        is_Some (findMatchingOption pageOptions targetValue optionMatches)).
Proof.
  split; [intros v; apply findMatchingOption_elem |].
  intros options -> Hblank. unfold findMatchingOption.
  destruct (aliasPart _ _ _); [eauto |].
  destruct (exactRule _ _); [eauto |].
  assert (exists y, partialRule options (JS.toLowerCase targetValue) = Some y) as [y ->];
    [| eauto].
  unfold partialRule. destruct Hblank as [(o & Hin & Ht) | [Ht Hne]].
  - apply (find_some_of_elem _ _ o Hin). apply partialTest_blank. by left.
  - destruct options as [|o rest]; [done |].
    apply (find_some_of_elem _ _ o); [by left |].
    apply partialTest_blank. right. by apply toLowerCase_empty.
Qed.

Context {P : Type}.
Variable regexTest : string -> string -> Outcome bool.
Variable readOptions : string -> P -> Outcome (list SelectOption) * P.
Variable selectOption : string -> string -> P -> Outcome unit * P.

(** X7. [handleDropdown] answers yes only after [selectOption] returned for
    a value that is not empty and is the value of an option the page listed
    when it was asked: an option with an empty value, the usual placeholder,
    is never selected, also when the matcher picks it. *)
Theorem handleDropdown_selects_listed_value selector label profile mappings (p p' : P) :
  QuestionHandler.handleDropdown regexTest readOptions selectOption selector label profile
    mappings p = (Returned true, p') ->
  exists p0 p1 options o,
    readOptions selector p0 = (Returned options, p1)
    /\ o ∈ options /\ so_value o <> ""
    /\ selectOption selector (so_value o) p1 = (Returned tt, p').
Proof.
  unfold QuestionHandler.handleDropdown. generalize (JS.toLowerCase label) as lowerLabel.
  intros lowerLabel. revert p.
  induction mappings as [|[key mapping] rest IH]; intros p; cbn [QuestionHandler.handleLoop];
    [done |].
  destruct (QuestionHandler.matchesPattern regexTest lowerLabel _) as [[]|]; [| apply IH | done].
  destruct (QuestionHandler.stringValue mapping _) as [target|]; [| apply IH].
  destruct (readOptions selector p) as [pageOptions p1] eqn:Er.
  destruct (findMatchingOption pageOptions target _) as [optionValue|] eqn:Ef; [| apply IH].
  destruct (JS.truthy optionValue) eqn:Et; [| apply IH].
  destruct (selectOption selector optionValue p1) as [[[]|err] p2] eqn:Es; [| apply IH].
  intros [= <-]. apply findMatchingOption_elem in Ef as (options & o & -> & Hin & <-).
  exists p, p1, options, o. split; [done |]. split; [done |].
  split; [by apply truthy_nonempty | done].
Qed.

End MatcherFacts.

Lemma findMatchingOption_results_witness :
  is_Some (Questions.findMatchingOption
             (Returned [Questions.mkSelectOption "" ""; Questions.mkSelectOption "us" "United States"])
             "Canada" None).
Proof.
  apply (proj2 (findMatchingOption_results
                  (Returned [Questions.mkSelectOption "" "";
                             Questions.mkSelectOption "us" "United States"])
                  "Canada" None)
           [Questions.mkSelectOption "" ""; Questions.mkSelectOption "us" "United States"]
           eq_refl).
  left. exists (Questions.mkSelectOption "" ""). split; [by left | reflexivity].
Defined.

Lemma handleDropdown_selects_listed_value_witness :
  exists p0 p1 options o,
    listYesNo "#sponsorship" p0 = (Returned options, p1)
    /\ o ∈ options /\ Questions.so_value o <> ""
    /\ chooseOption "#sponsorship" (Questions.so_value o) p1 = (Returned tt, ["1"]).
Proof.
  apply (handleDropdown_selects_listed_value noRegex listYesNo chooseOption "#sponsorship"
           "Do you require sponsorship?" (Questions.profileJS sampleProfile)
           sponsorshipMappings [] ["1"]).
  vm_compute. reflexivity.
Defined.

(** ** Counting markers *)

Section CountingFacts.

Import Dom Navigator.

Lemma sum_list_with_add {A} (f g : A -> nat) (l : list A) :
  sum_list_with (fun x => f x + g x) l = sum_list_with f l + sum_list_with g l.
Proof. induction l as [|x l IH]; simpl; [done | rewrite IH; lia]. Qed.

Lemma visibleCount_by_element sel doc :
  visibleCount doc sel
  = sum_list_with (fun e => if isVisible e && matchesSel sel e then 1 else 0) doc.
Proof.
  unfold visibleCount, queryAll. induction doc as [|e doc IH]; simpl; [done |].
  destruct (matchesSel sel e); simpl.
  - destruct (isVisible e); simpl; by rewrite IH.
  - by rewrite andb_false_r, IH.
Qed.

(** X8. The counters of the page classifier add up, over the elements of the
    document, the number of marker selectors each visible element matches: an
    element that matches several markers is counted once for each. *)
Theorem countVisible_counts_matches_per_element sels doc :
  countVisible sels doc
  = sum_list_with (fun e => if isVisible e then markersMatched sels e else 0) doc.
Proof.
  induction sels as [|sel sels IH].
  - unfold countVisible, markersMatched. simpl.
    induction doc as [|e doc IHd]; simpl; [done |]. rewrite <- IHd. by destruct (isVisible e).
  - rewrite countVisible_cons, IH, visibleCount_by_element, <- sum_list_with_add.
    clear IH. induction doc as [|e doc IHd]; simpl; [done |]. rewrite IHd.
    f_equal. unfold markersMatched. simpl.
    destruct (isVisible e), (matchesSel sel e); simpl; lia.
Qed.

Lemma find_app_Some {A} (f : A -> bool) (l k : list A) (x : A) :
  List.find f l = Some x -> List.find f (l ++ k) = Some x.
Proof.
  induction l as [|y l IH]; simpl; [done |]. destruct (f y); [done | exact IH].
Qed.

Lemma markerPresent_app doc extra sel :
  markerPresent doc sel = true -> markerPresent (doc ++ extra) sel = true.
Proof.
  unfold markerPresent, query.
  destruct (List.find (matchesSel sel) doc) as [e|] eqn:E; [| done].
  by rewrite (find_app_Some _ _ extra _ E).
Qed.

Lemma filter_length_mono {A} (f g : A -> bool) (l : list A) :
  (forall x, f x = true -> g x = true) ->
  length (List.filter f l) <= length (List.filter g l).
Proof.
  intros Hfg. induction l as [|x l IH]; simpl; [done |].
  destruct (f x) eqn:E.
  - rewrite (Hfg x E). simpl. lia.
  - destruct (g x); simpl; lia.
Qed.

(** X9. Elements added after the existing ones never turn an application
    form into something else: [page.$] keeps returning the same first match
    for every marker that had one. *)
Theorem isApplicationFormPage_append p extra :
  isApplicationFormPage p = true ->
  isApplicationFormPage (mkPage (url p) (bodyText p) (elements p ++ extra)) = true.
Proof.
  unfold isApplicationFormPage. cbn [elements].
  rewrite !markerLoop_spec by lia. rewrite !Nat.add_0_l.
  destruct (Nat.leb_spec 2 (length (List.filter (markerPresent (elements p))
                                      APPLICATION_FORM_INDICATORS))) as [Hge | Hlt].
  - intros _.
    pose proof (filter_length_mono (markerPresent (elements p))
                  (markerPresent (elements p ++ extra)) APPLICATION_FORM_INDICATORS
                  (markerPresent_app (elements p) extra)) as Hmono.
    rewrite (proj2 (Nat.leb_le 2 _)); [done | lia].
  - unfold query.
    destruct (List.find (matchesSel nameFieldSel) (elements p)) as [n|] eqn:En; [| done].
    destruct (List.find (matchesSel emailFieldSel) (elements p)) as [m|] eqn:Em; [| done].
    intros _. rewrite (find_app_Some _ _ extra _ En), (find_app_Some _ _ extra _ Em).
    by destruct (Nat.leb 2 _).
Qed.

End CountingFacts.

Lemma isApplicationFormPage_append_witness :
  Navigator.isApplicationFormPage
    (Navigator.mkPage (Navigator.url formPage) (Navigator.bodyText formPage)
       (Navigator.elements formPage ++ [submitButton; applyLink])) = true.
Proof.
  apply (isApplicationFormPage_append formPage [submitButton; applyLink]).
  vm_compute. reflexivity.
Defined.

(** ** The agent loop: step count, success and the failure budget *)

Section LoopBounds.

Import Agent.

Context {W Obs : Type}.
Variable observePage : W -> Outcome Obs * W.
Variable decideAction : Obs -> list string -> W -> Outcome AgentAction * W.
Variable executeAction : AgentAction -> W -> Outcome bool * W.
Variable waitForTimeout : nat -> W -> Outcome unit * W.

Abbreviation stepOf := (agentStep observePage decideAction executeAction waitForTimeout).
Abbreviation loopOf := (agentLoop observePage decideAction executeAction waitForTimeout).
Abbreviation runOf := (runFormAgent observePage decideAction executeAction waitForTimeout).

(** What a step that stops reports. *)
Lemma agentStep_stop st w r w' :
  stepOf st w = (Stop r, w') ->
  steps r = S (ls_steps st)
  /\ (success r = true ->
      exists obs history w1 action,
        decideAction obs history w1 = (Returned action, w')
        /\ a_type action = "done" /\ reason r = a_reason action).
Proof.
  unfold agentStep. destruct (observePage w) as [[obs|err] w1]; [| done].
  destruct (decideAction obs (ls_actionHistory st) w1) as [[action|err] w2] eqn:Ed; [| done].
  destruct (Nat.leb 3 _); [by intros [= <- <-] |].
  destruct (String.eqb (a_type action) "done") eqn:Edone.
  { intros [= <- <-]. split; [done |]. intros _.
    exists obs, (ls_actionHistory st), w1, action. apply String.eqb_eq in Edone. done. }
  destruct (String.eqb (a_type action) "need_help"); [by intros [= <- <-] |].
  destruct (executeAction action w2) as [[[]|err] w3].
  - intros Hp. by apply pause_stop in Hp.
  - match goal with |- context [if Nat.leb 5 ?c then _ else _] => destruct (Nat.leb 5 c) end;
      [by intros [= <- <-] | intros Hp; by apply pause_stop in Hp].
  - destruct (Nat.leb 5 _); [by intros [= <- <-] | intros Hp; by apply pause_stop in Hp].
Qed.

Lemma agentLoop_steps remaining : forall st w r w',
  loopOf remaining st w = (Returned r, w') ->
  ls_steps st <= steps r <= ls_steps st + remaining
  /\ (0 < remaining -> ls_steps st < steps r)
  /\ (success r = true ->
      exists obs history w1 action,
        decideAction obs history w1 = (Returned action, w')
        /\ a_type action = "done" /\ reason r = a_reason action).
Proof.
  induction remaining as [|remaining IH]; intros st w r w'; cbn [agentLoop].
  - intros [= <- <-]. cbn. split; [lia | split; [lia | done]].
  - destruct (stepOf st w) as [[r0 | st' | err] w1] eqn:Es; [| | done].
    + intros [= <- <-]. apply agentStep_stop in Es as [Hs Hd].
      split; [lia | split; [lia | exact Hd]].
    + intros Hl. apply agentStep_continue in Es as (_ & _ & _ & Hs).
      apply IH in Hl as (Hb & _ & Hd). split; [lia | split; [lia | exact Hd]].
Qed.

(** X10. A run that returns reports between one step and the step ceiling
    (no step when the ceiling is zero), and it reports success only when the
    oracle answered [done]: the reason reported is the reason of that action,
    and nothing is executed after the answer. *)
Theorem runFormAgent_steps_and_success maxSteps w r w' :
  runOf maxSteps w = (Returned r, w') ->
  steps r <= maxSteps
  /\ (0 < maxSteps -> 1 <= steps r)
  /\ (success r = true ->
      exists obs history w1 action,
        decideAction obs history w1 = (Returned action, w')
        /\ a_type action = "done" /\ reason r = a_reason action).
Proof.
  unfold runFormAgent. intros Hl. apply agentLoop_steps in Hl as (Hb & Hp & Hd).
  cbn in Hb, Hp. split; [lia |]. split; [intros Hm; specialize (Hp Hm); lia | exact Hd].
Qed.

(** A [click_button] action whose execution returns [false]: the step leaves
    the failure count as it was while fewer than four failures are counted,
    and stops the run when four are. *)
Lemma failed_click_step st w obs w1 action w2 w3 :
  observePage w = (Returned obs, w1) ->
  decideAction obs (ls_actionHistory st) w1 = (Returned action, w2) ->
  a_type action = "click_button" ->
  sameActionCount (pushRecent (ls_recentActions st) (actionKey action)) (actionKey action) < 3 ->
  executeAction action w2 = (Returned false, w3) ->
  stepOf st w
  = if Nat.ltb (ls_consecutiveFailures st) 4
    then pause waitForTimeout
           (mkLoop (S (ls_steps st)) (ls_consecutiveFailures st)
              (pushRecent (ls_recentActions st) (actionKey action))
              (ls_actionHistory st ++
               ["Step " +:+ pretty (S (ls_steps st)) +:+ ": " +:+ a_type action +:+ " - "
                  +:+ targetText action +:+ " - " +:+ a_reason action]))
           w3
    else (Stop (mkResult false (S (ls_steps st))
                  ("Too many failed actions. Last action: click_button - "
                     +:+ targetText action)),
          w3).
Proof.
  intros Ho Hd Hclick Hc He. unfold agentStep.
  rewrite Ho, Hd, (proj2 (Nat.leb_gt _ _) Hc), Hclick, He.
  cbn [String.eqb Ascii.eqb Bool.eqb andb].
  destruct (Nat.ltb_spec (ls_consecutiveFailures st) 4) as [Hlt | Hge].
  - rewrite (proj2 (Nat.ltb_lt (S (ls_consecutiveFailures st)) 5)) by lia.
    replace (Nat.max 0 (S (ls_consecutiveFailures st) - 1))
      with (ls_consecutiveFailures st) by lia.
    by rewrite (proj2 (Nat.leb_gt 5 (ls_consecutiveFailures st))) by lia.
  - rewrite (proj2 (Nat.ltb_ge (S (ls_consecutiveFailures st)) 5)) by lia.
    by rewrite (proj2 (Nat.leb_le 5 (S (ls_consecutiveFailures st)))) by lia.
Qed.

Section ClickingOracle.

Hypothesis oracle_clicks :
  forall obs history w, exists action w',
    decideAction obs history w = (Returned action, w') /\ a_type action = "click_button".
Hypothesis execute_returns :
  forall action w, exists b w', executeAction action w = (Returned b, w').
Hypothesis observe_returns : forall w, exists obs w', observePage w = (Returned obs, w').
Hypothesis wait_returns : forall ms w, exists w', waitForTimeout ms w = (Returned tt, w').

(** With at most three failures counted, a [click_button] step either stops
    by the loop guard or goes on with at most three failures counted. *)
Lemma click_step st w :
  ls_consecutiveFailures st <= 3 ->
  (exists action w',
     a_type action = "click_button"
     /\ stepOf st w
        = (Stop (mkResult false (S (ls_steps st))
                   ("Action loop detected: click_button - " +:+ targetText action)), w'))
  \/ (exists st' w',
        stepOf st w = (Continue st', w')
        /\ ls_steps st' = S (ls_steps st) /\ ls_consecutiveFailures st' <= 3).
Proof.
  intros Hcf. unfold agentStep. destruct (observe_returns w) as (obs & w1 & ->).
  destruct (oracle_clicks obs (ls_actionHistory st) w1) as (action & w2 & -> & Hclick).
  destruct (Nat.leb 3 _).
  { left. exists action, w2. by rewrite Hclick. }
  right. rewrite Hclick. cbn [String.eqb Ascii.eqb Bool.eqb andb].
  destruct (execute_returns action w2) as (b & w3 & ->). destruct b.
  - unfold pause. destruct (wait_returns 100 w3) as (w4 & ->).
    eexists _, _. split; [reflexivity |]. cbn. lia.
  - destruct (ls_consecutiveFailures st) as [|[|[|[|c]]]]; [| | | | lia].
    all: cbn; unfold pause; destruct (wait_returns 100 w3) as (w4 & ->).
    all: eexists _, _; (split; [reflexivity |]); cbn; lia.
Qed.

Lemma click_loop remaining : forall st w,
  ls_consecutiveFailures st <= 3 ->
  exists r w',
    loopOf remaining st w = (Returned r, w')
    /\ success r = false
    /\ ((reason r = "Max steps reached" /\ steps r = ls_steps st + remaining)
        \/ exists action,
             a_type action = "click_button"
             /\ reason r = "Action loop detected: click_button - " +:+ targetText action).
Proof.
  induction remaining as [|remaining IH]; intros st w Hcf; cbn [agentLoop].
  - eexists _, _. split; [reflexivity |]. cbn. split; [done |]. left. split; [done | lia].
  - destruct (click_step st w Hcf) as [(action & w' & Hclick & ->)
                                     | (st' & w' & -> & Hs & Hcf')].
    + eexists _, _. split; [reflexivity |]. cbn. split; [done |]. right. eauto.
    + destruct (IH st' w' Hcf') as (r & w'' & -> & Hf & Hr).
      exists r, w''. split; [done |]. split; [done |].
      destruct Hr as [[Hm Hst] | Hg]; [left | by right].
      split; [done | lia].
Qed.

End ClickingOracle.

(** X12. A failed button click is charged to the failure budget only as the
    fifth failure in a row.  When a [click_button] action passes the loop
    guard and its execution returns [false]: with fewer than four failures
    counted, the count is left as it was and the run goes on after the wait;
    with four counted, the step stops the run with [success = false] and the
    reason ["Too many failed actions. Last action: click_button - <target>"].
    Hence a run in which the oracle only ever answers [click_button] actions,
    and in which the observation, the execution and the wait return, ends by
    the step ceiling or by the loop guard, never by the five-failures rule. *)
Theorem failed_click_is_charged_only_as_fifth_failure :
  (forall st w obs w1 action w2 w3,
     observePage w = (Returned obs, w1) ->
     decideAction obs (ls_actionHistory st) w1 = (Returned action, w2) ->
     a_type action = "click_button" ->
     sameActionCount (pushRecent (ls_recentActions st) (actionKey action)) (actionKey action)
       < 3 ->
     executeAction action w2 = (Returned false, w3) ->
     (ls_consecutiveFailures st < 4 ->
      forall w4, waitForTimeout 100 w3 = (Returned tt, w4) ->
      exists st',
        stepOf st w = (Continue st', w4)
        /\ ls_consecutiveFailures st' = ls_consecutiveFailures st
        /\ ls_steps st' = S (ls_steps st))
     /\ (4 <= ls_consecutiveFailures st ->
         stepOf st w
         = (Stop (mkResult false (S (ls_steps st))
                    ("Too many failed actions. Last action: click_button - "
                       +:+ targetText action)),
            w3)))
  /\ (forall maxSteps w,
        (forall obs history w0, exists action w',
           decideAction obs history w0 = (Returned action, w')
           /\ a_type action = "click_button") ->
        (forall action w0, exists b w', executeAction action w0 = (Returned b, w')) ->
        (forall w0, exists obs w1, observePage w0 = (Returned obs, w1)) ->
        (forall ms w0, exists w1, waitForTimeout ms w0 = (Returned tt, w1)) ->
        exists r w',
          runOf maxSteps w = (Returned r, w')
          /\ success r = false
          /\ ((reason r = "Max steps reached" /\ steps r = maxSteps)
              \/ exists action,
                   a_type action = "click_button"
                   /\ reason r
                      = "Action loop detected: click_button - " +:+ targetText action)).
Proof.
  split.
  - intros st w obs w1 action w2 w3 Ho Hd Hclick Hc He.
    rewrite (failed_click_step st w obs w1 action w2 w3 Ho Hd Hclick Hc He). split.
    + intros Hlt w4 Hw. rewrite (proj2 (Nat.ltb_lt _ _) Hlt). unfold pause. rewrite Hw.
      eexists. split; [reflexivity |]. split; reflexivity.
    + intros Hge. by rewrite (proj2 (Nat.ltb_ge _ _) Hge).
  - intros maxSteps w Ho He Hobs Hwait. unfold runFormAgent.
    destruct (click_loop Ho He Hobs Hwait maxSteps initialLoop w) as (r & w' & Hl & Hf & Hr);
      [cbn; lia |].
    exists r, w'. split; [done |]. split; [done |]. exact Hr.
Qed.

End LoopBounds.

Lemma runFormAgent_steps_and_success_witness :
  1 <= 30
  /\ (0 < 30 -> 1 <= 1)
  /\ (true = true ->
      exists obs history w1 action,
        doneOracle obs history w1 = (Returned action, tt)
        /\ Agent.a_type action = "done"
        /\ "All visible fields are filled" = Agent.a_reason action).
Proof.
  apply (runFormAgent_steps_and_success idleObserve doneOracle buttonMissing noWait 30 tt
           (Agent.mkResult true 1 "All visible fields are filled") tt).
  vm_compute. reflexivity.
Defined.

(** Four fields that cannot be filled, then a button that cannot be clicked:
    the failed click is the fifth failure and ends the run. *)
Example fifth_failed_click_ends_the_run :
  stateAfter 4 Agent.initialLoop = Some fourFailures
  /\ Agent.runFormAgent idleObserve fillsThenClick nothingFound noWait 30 tt
     = (Returned (Agent.mkResult false 5
                    "Too many failed actions. Last action: click_button - Submit"), tt).
Proof. split; vm_compute; reflexivity. Qed.

Lemma failed_click_is_charged_only_as_fifth_failure_witness :
  (exists st',
     Agent.agentStep idleObserve stuckOracle buttonMissing noWait Agent.initialLoop tt
     = (Agent.Continue st', tt)
     /\ Agent.ls_consecutiveFailures st' = 0 /\ Agent.ls_steps st' = 1)
  /\ Agent.agentStep idleObserve fillsThenClick nothingFound noWait fourFailures tt
     = (Agent.Stop (Agent.mkResult false 5
                      "Too many failed actions. Last action: click_button - Submit"), tt).
Proof.
  split.
  - destruct (proj1 (failed_click_is_charged_only_as_fifth_failure
                       idleObserve stuckOracle buttonMissing noWait)
                Agent.initialLoop tt tt tt addAction tt tt) as [Hfree _];
      [reflexivity | reflexivity | reflexivity | vm_compute; lia | reflexivity |].
    eapply Hfree; [cbn; lia | reflexivity].
  - destruct (proj1 (failed_click_is_charged_only_as_fifth_failure
                       idleObserve fillsThenClick nothingFound noWait)
                fourFailures tt tt tt submitClick tt tt) as [_ Hcharged];
      [reflexivity | reflexivity | reflexivity | vm_compute; lia | reflexivity |].
    apply Hcharged. cbn. lia.
Defined.

(** ** The agent loop: five failures in a row *)

Section FailureBudget.

Import Agent.

Context {W Obs : Type}.
Variable observePage : W -> Outcome Obs * W.
Variable decideAction : Obs -> list string -> W -> Outcome AgentAction * W.
Variable executeAction : AgentAction -> W -> Outcome bool * W.
Variable waitForTimeout : nat -> W -> Outcome unit * W.

(** The oracle answers the actions of [script], one per step, none of them a
    click or a final answer, with five different keys; no execution succeeds;
    the observation and the wait return. *)
Variable script : nat -> AgentAction.
Hypothesis oracle_follows_script :
  forall obs history w, exists w',
    decideAction obs history w = (Returned (script (length history)), w').
Hypothesis script_types :
  forall i, i < 5 ->
    a_type (script i) <> "click_button" /\ a_type (script i) <> "done"
    /\ a_type (script i) <> "need_help".
Hypothesis script_keys : NoDup (map (fun i => actionKey (script i)) (seq 0 5)).
Hypothesis execute_fails :
  forall action w w', executeAction action w <> (Returned true, w').
Hypothesis observe_returns : forall w, exists obs w', observePage w = (Returned obs, w').
Hypothesis wait_returns : forall ms w, exists w', waitForTimeout ms w = (Returned tt, w').

Lemma sameActionCount_NoDup keys key : NoDup keys -> sameActionCount keys key <= 1.
Proof.
  unfold sameActionCount. induction 1 as [|k keys Hk _ IH]; simpl; [lia |].
  destruct (String.eqb_spec key k) as [-> | Hne]; simpl; [| lia].
  assert (E : List.filter (String.eqb k) keys = []); [| rewrite E; simpl; lia].
  clear IH. induction keys as [|x keys IHk]; simpl; [done |].
  apply not_elem_of_cons in Hk as [Hx Hk].
  rewrite (proj2 (String.eqb_neq k x) Hx). by apply IHk.
Qed.

Lemma script_keys_prefix i :
  i <= 5 -> NoDup (map (fun i => actionKey (script i)) (seq 0 i)).
Proof.
  intros Hi. pose proof script_keys as Hk.
  replace 5 with (i + (5 - i)) in Hk by lia.
  rewrite seq_app, map_app in Hk. by apply NoDup_app in Hk as [? _].
Qed.

Lemma failing_step i st w :
  i < 5 -> afterFailures script i st ->
  (i < 4 /\ exists st' w',
     agentStep observePage decideAction executeAction waitForTimeout st w = (Continue st', w')
     /\ afterFailures script (S i) st')
  \/ (i = 4 /\ exists r w',
        agentStep observePage decideAction executeAction waitForTimeout st w = (Stop r, w')
        /\ success r = false /\ steps r = 5
        /\ ((reason r = "Too many failed actions. Last action: " +:+ a_type (script 4)
                          +:+ " - " +:+ targetText (script 4)
             /\ exists w0, executeAction (script 4) w0 = (Returned false, w'))
            \/ exists error w0,
                 executeAction (script 4) w0 = (Thrown error, w')
                 /\ reason r = "Action execution error: " +:+ error)).
Proof.
  intros Hi (Hsteps & Hcf & Hrecent & Hhist). unfold agentStep.
  destruct (observe_returns w) as (obs & w1 & ->).
  destruct (oracle_follows_script obs (ls_actionHistory st) w1) as (w2 & ->).
  rewrite Hhist.
  assert (Hpush : pushRecent (ls_recentActions st) (actionKey (script i))
                  = map (fun i => actionKey (script i)) (seq 0 (S i))).
  { rewrite Hrecent, seq_S, map_app. unfold pushRecent.
    rewrite length_app, length_map, length_seq. cbn [map length Nat.add].
    by rewrite (proj2 (Nat.ltb_ge 5 (i + 1))) by lia. }
  rewrite Hpush.
  pose proof (sameActionCount_NoDup _ (actionKey (script i)) (script_keys_prefix (S i) Hi))
    as Hcount.
  rewrite (proj2 (Nat.leb_gt 3 _)) by lia.
  destruct (script_types i Hi) as (Hclick & Hdone & Hhelp).
  rewrite (proj2 (String.eqb_neq _ _) Hdone), (proj2 (String.eqb_neq _ _) Hhelp),
    (proj2 (String.eqb_neq _ _) Hclick). cbn [andb].
  rewrite Hcf, Hsteps.
  destruct (executeAction (script i) w2) as [[[]|error] w3] eqn:Ee.
  - by apply execute_fails in Ee.
  - destruct (decide (i = 4)) as [-> | Hne].
    + right. split; [done |]. eexists _, _. split; [reflexivity |]. cbn.
      split; [done |]. split; [done |]. left. split; [done |]. by exists w2.
    + left. split; [lia |]. rewrite (proj2 (Nat.leb_gt 5 (S i))) by lia.
      unfold pause. destruct (wait_returns 100 w3) as (w4 & ->).
      eexists _, _. split; [reflexivity |]. unfold afterFailures. cbn.
      rewrite length_app, Hhist. cbn. repeat split; first [done | lia].
  - destruct (decide (i = 4)) as [-> | Hne].
    + right. split; [done |]. eexists _, _. split; [reflexivity |]. cbn.
      split; [done |]. split; [done |]. right. by exists error, w2.
    + left. split; [lia |]. rewrite (proj2 (Nat.leb_gt 5 (S i))) by lia.
      unfold pause. destruct (wait_returns 100 w3) as (w4 & ->).
      eexists _, _. split; [reflexivity |]. unfold afterFailures. cbn.
      rewrite length_app, Hhist. cbn. repeat split; first [done | lia].
Qed.

Lemma failing_loop k : forall i st w remaining,
  i + k = 4 -> afterFailures script i st ->
  exists r w',
    agentLoop observePage decideAction executeAction waitForTimeout
      (S k + remaining) st w = (Returned r, w')
    /\ success r = false /\ steps r = 5
    /\ ((reason r = "Too many failed actions. Last action: " +:+ a_type (script 4)
                      +:+ " - " +:+ targetText (script 4)
         /\ exists w0, executeAction (script 4) w0 = (Returned false, w'))
        \/ exists error w0,
             executeAction (script 4) w0 = (Thrown error, w')
             /\ reason r = "Action execution error: " +:+ error).
Proof.
  induction k as [|k IH]; intros i st w remaining Hik Hst; cbn [Nat.add agentLoop].
  - destruct (failing_step i st w) as [[Hlt _] | (_ & r & w' & -> & Hr)]; [lia | done | lia |].
    eauto.
  - destruct (failing_step i st w) as [(_ & st' & w' & -> & Hst') | [Heq _]];
      [lia | done | | lia].
    apply (IH (S i)); [lia | done].
Qed.

End FailureBudget.

(** X13. Five failed executions in a row end the run at the fifth: when the
    oracle answers five actions with different keys, none of them a click or
    a final answer, no execution succeeds (each returns [false] or throws),
    and the observation and the wait between two steps return, a run with a
    ceiling of at least five steps stops at step five with [success = false].
    It reports the last action when the fifth execution returned [false], as
    every execution does that catches its own errors, and the error when the
    fifth execution threw. *)
Theorem five_failures_end_the_run {W Obs : Type}
    (observePage : W -> Outcome Obs * W)
    (decideAction : Obs -> list string -> W -> Outcome Agent.AgentAction * W)
    (executeAction : Agent.AgentAction -> W -> Outcome bool * W)
    (waitForTimeout : nat -> W -> Outcome unit * W)
    (script : nat -> Agent.AgentAction) (maxSteps : nat) (w : W) :
  (forall obs history w0, exists w',
     decideAction obs history w0 = (Returned (script (length history)), w')) ->
  (forall i, i < 5 ->
     Agent.a_type (script i) <> "click_button" /\ Agent.a_type (script i) <> "done"
     /\ Agent.a_type (script i) <> "need_help") ->
  NoDup (map (fun i => Agent.actionKey (script i)) (seq 0 5)) ->
  (forall action w0 w', executeAction action w0 <> (Returned true, w')) ->
  (forall w0, exists obs w1, observePage w0 = (Returned obs, w1)) ->
  (forall ms w0, exists w1, waitForTimeout ms w0 = (Returned tt, w1)) ->
  5 <= maxSteps ->
  exists r w',
    Agent.runFormAgent observePage decideAction executeAction waitForTimeout maxSteps w
    = (Returned r, w')
    /\ Agent.success r = false /\ Agent.steps r = 5
    /\ ((Agent.reason r
         = "Too many failed actions. Last action: " +:+ Agent.a_type (script 4)
             +:+ " - " +:+ Agent.targetText (script 4)
         /\ exists w0, executeAction (script 4) w0 = (Returned false, w'))
        \/ exists error w0,
             executeAction (script 4) w0 = (Thrown error, w')
             /\ Agent.reason r = "Action execution error: " +:+ error)
    /\ ((forall action w0, exists w1, executeAction action w0 = (Returned false, w1)) ->
        Agent.reason r
        = "Too many failed actions. Last action: " +:+ Agent.a_type (script 4)
            +:+ " - " +:+ Agent.targetText (script 4)).
Proof.
  intros Ho Ht Hk He Hobs Hwait Hmax. unfold Agent.runFormAgent.
  replace maxSteps with (5 + (maxSteps - 5)) by lia.
  destruct (failing_loop observePage decideAction executeAction waitForTimeout script
              Ho Ht Hk He Hobs Hwait 4 0 Agent.initialLoop w (maxSteps - 5))
    as (r & w' & Hrun & Hs & Hn & Hr); [lia | repeat split |].
  exists r, w'. split; [exact Hrun |]. split; [done |]. split; [done |].
  split; [exact Hr |]. intros Hfalse.
  destruct Hr as [[Hr _] | (error & w0 & Hthrow & _)]; [exact Hr |].
  destruct (Hfalse (script 4) w0) as (w1 & Hf). rewrite Hf in Hthrow. discriminate.
Qed.

Lemma five_failures_end_the_run_witness :
  exists r w',
    Agent.runFormAgent idleObserve scriptedOracle nothingFound noWait 30 tt = (Returned r, w')
    /\ Agent.success r = false /\ Agent.steps r = 5
    /\ Agent.reason r = "Too many failed actions. Last action: fill_field - #field4".
Proof.
  destruct (five_failures_end_the_run idleObserve scriptedOracle nothingFound noWait
              fillScript 30 tt) as (r & w' & Hrun & Hs & Hn & _ & Hreason).
  - intros obs history w0. by exists w0.
  - intros i _. repeat split; discriminate.
  - apply (bool_decide_unpack _). vm_compute. reflexivity.
  - intros action w0 w'. discriminate.
  - intros w0. exists tt, w0. reflexivity.
  - intros ms w0. exists w0. reflexivity.
  - lia.
  - exists r, w'. split; [exact Hrun |]. split; [done |]. split; [done |].
    rewrite Hreason; [reflexivity |]. intros action w0. by exists w0.
Defined.

(** ** The scans of the extractor and their composition *)

Section ScanFacts.

Import Extractor Scans.

Variable CSS_escape : string -> string.
Variable nodeEscape : string -> Outcome string.





Lemma extractSingleDropdown_field container f :
  extractSingleDropdown nodeEscape container = Some f ->
  selector f <> "" /\ type f = "select" /\ required f = false
  /\ options f = Some (getDropdownOptionsWithoutClick (dc_options container)).
Proof.
  unfold extractSingleDropdown. destruct (dc_info container) as [v | err]; [| done].
  destruct (negb _ && negb _); [done |].
  match goal with
  | |- match ?sel with Returned _ => _ | Thrown _ => _ end = _ -> _ =>
      destruct sel as [s | err]; [| done]
  end.
  destruct (JS.truthy s) eqn:Es; [| done]. cbn [negb].
  intros [= <-]. cbn. split; [by apply truthy_nonempty | done].
Qed.


Lemma omap_Forall {A B} (f : A -> option B) (Q : B -> Prop) (l : list A) :
  (forall a b, f a = Some b -> Q b) -> Forall Q (omap f l).
Proof.
  intros Hf. induction l as [|a l IH]; cbn [omap list_omap]; [constructor |].
  destruct (f a) as [b|] eqn:E; [constructor; eauto | done].
Qed.

Lemma omap_length_le {A B} (f : A -> option B) (l : list A) :
  length (omap f l) <= length l.
Proof.
  induction l as [|a l IH]; cbn [omap list_omap]; [done |].
  destruct (f a); simpl; lia.
Qed.

Lemma flat_map_Forall {A B} (f : A -> list B) (Q : B -> Prop) (l : list A) :
  (forall a, Forall Q (f a)) -> Forall Q (flat_map f l).
Proof.
  intros Hf. induction l as [|a l IH]; simpl; [constructor |].
  apply Forall_app. split; [apply Hf | exact IH].
Qed.

Lemma extractCustomDropdownsSafe_fields containers :
  Forall (fun f => selector f <> "" /\ type f = "select" /\ required f = false)
    (extractCustomDropdownsSafe nodeEscape containers).
Proof.
  unfold extractCustomDropdownsSafe. apply flat_map_Forall. intros sel.
  apply omap_Forall. intros c f Hf.
  by apply extractSingleDropdown_field in Hf as (? & ? & ? & _).
Qed.





End ScanFacts.

(** ** Custom dropdowns *)

Section DropdownFacts.

Import Extractor Scans.

Lemma pushListboxOption_plain options opt :
  Forall plainOption options -> Forall plainOption (pushListboxOption options opt).
Proof.
  intros Ho. unfold pushListboxOption. destruct (JS.truthy (JS.trim opt)) eqn:E; [| done].
  apply Forall_app_2; [done |]. repeat constructor. by apply truthy_nonempty.
Qed.

Lemma pushVisibleOption_plain options opt :
  Forall plainOption options -> Forall plainOption (pushVisibleOption options opt).
Proof.
  intros Ho. unfold pushVisibleOption. destruct (JS.truthy (JS.trim opt)) eqn:E; [| done].
  destruct (negb _); [| done]. cbn [andb].
  apply Forall_app_2; [done |]. repeat constructor. by apply truthy_nonempty.
Qed.

Lemma fold_left_invariant {A B} (Q : A -> Prop) (f : A -> B -> A) (l : list B) (a : A) :
  (forall a b, Q a -> Q (f a b)) -> Q a -> Q (fold_left f l a).
Proof. intros Hf. revert a. induction l as [|b l IH]; simpl; auto. Qed.

Lemma pushListboxOption_texts lb : forall options,
  map opt_text (fold_left pushListboxOption lb options)
  = map opt_text options ++ List.filter JS.truthy (map JS.trim lb).
Proof.
  induction lb as [|opt lb IH]; intros options; simpl; [by rewrite app_nil_r |].
  rewrite IH. unfold pushListboxOption. destruct (JS.truthy (JS.trim opt)); [| done].
  rewrite map_app, <- app_assoc. done.
Qed.

Lemma pushVisibleOption_NoDup options opt :
  NoDup (map opt_text options) -> NoDup (map opt_text (pushVisibleOption options opt)).
Proof.
  intros Hnd. unfold pushVisibleOption. destruct (JS.truthy (JS.trim opt)); [| done].
  destruct (List.find _ options) as [o|] eqn:Ef.
  - rewrite bool_decide_eq_true_2 by eauto. done.
  - rewrite bool_decide_eq_false_2 by (intros [? ?]; done). cbn [negb andb].
    rewrite map_app. apply NoDup_app. split; [done |]. split; [| apply NoDup_singleton].
    intros t Ht Ht'. cbn in Ht'. apply list_elem_of_singleton in Ht'. subst t.
    apply list_elem_of_fmap in Ht as (o & Ho & Hin).
    pose proof (find_some_of_elem (fun o => String.eqb (opt_text o) (JS.trim opt))
                  options o Hin) as [y Hy]; [| congruence].
    rewrite <- Ho. apply String.eqb_refl.
Qed.

(** X15. The options read from a custom dropdown without opening it: at most
    twenty, each with one non-empty trimmed text as value and as text; they
    are pairwise different when the linked listbox, if there is one, lists no
    text twice.  When the read throws there are none. *)
Theorem getDropdownOptionsWithoutClick_options (sources : Outcome OptionSources) :
  length (getDropdownOptionsWithoutClick sources) <= 20
  /\ Forall plainOption (getDropdownOptionsWithoutClick sources)
  /\ (forall e, sources = Thrown e -> getDropdownOptionsWithoutClick sources = [])
  /\ (forall src,
        sources = Returned src ->
        NoDup (List.filter JS.truthy (map JS.trim (default [] (os_listbox src)))) ->
        NoDup (map opt_text (getDropdownOptionsWithoutClick sources))).
Proof.
  unfold getDropdownOptionsWithoutClick.
  split; [| split; [| split]].
  - destruct sources as [src | err]; [| simpl; lia]. rewrite length_take. lia.
  - destruct sources as [src | err]; [| constructor].
    apply Forall_take. apply fold_left_invariant; [apply pushVisibleOption_plain |].
    apply fold_left_invariant; [apply pushListboxOption_plain | constructor].
  - by intros e ->.
  - intros src -> Hnd. rewrite <- firstn_map.
    eapply sublist_NoDup; [| apply sublist_take].
    apply (fold_left_invariant (fun options => NoDup (map opt_text options)));
      [intros a b; apply pushVisibleOption_NoDup |].
    by rewrite pushListboxOption_texts.
Qed.

Variable nodeEscape : string -> Outcome string.

Lemma extractSingleDropdown_escape_throws container :
  (forall s, exists e, nodeEscape s = Thrown e) ->
  extractSingleDropdown nodeEscape container = None.
Proof.
  intros Hthrow. unfold extractSingleDropdown.
  destruct (dc_info container) as [v | err]; [| done].
  destruct (negb _ && negb _); [done |].
  destruct (JS.truthy (info_inputId (dropdownInfo v))).
  - by destruct (Hthrow (info_inputId (dropdownInfo v))) as [e ->].
  - destruct (JS.truthy (info_id (dropdownInfo v))); [| done].
    by destruct (Hthrow (info_id (dropdownInfo v))) as [e ->].
Qed.

Lemma omap_none {A B} (f : A -> option B) (l : list A) :
  (forall a, f a = None) -> omap f l = [].
Proof.
  intros Hf. induction l as [|a l IH]; cbn [omap list_omap]; [done |]. by rewrite Hf.
Qed.

(** X16. The custom-dropdown scan looks at no more than ten containers for
    each of its four patterns, so it yields at most forty fields, all of type
    [select], not required, each with a selector; a pattern whose query throws
    is skipped.  The selector is built with [CSS.escape] outside the page:
    where that call throws, the scan yields no field at all. *)
Theorem extractCustomDropdownsSafe_bounded
    (containers : string -> Outcome (list DropdownContainer)) :
  length (extractCustomDropdownsSafe nodeEscape containers) <= 40
  /\ Forall (fun f => selector f <> "" /\ type f = "select" /\ required f = false)
       (extractCustomDropdownsSafe nodeEscape containers)
  /\ ((forall s, exists e, nodeEscape s = Thrown e) ->
      extractCustomDropdownsSafe nodeEscape containers = []).
Proof.
  split; [| split].
  - unfold extractCustomDropdownsSafe, dropdownSelectors. cbn [flat_map].
    rewrite !length_app. cbn [length].
    repeat match goal with
    | |- context [length (omap ?f (take 10 ?l))] =>
        let Hle := fresh "Hle" in
        pose proof (omap_length_le f (take 10 l)) as Hle;
        rewrite length_take in Hle;
        generalize dependent (length (omap f (take 10 l))); intros
    end.
    lia.
  - apply extractCustomDropdownsSafe_fields.
  - intros Hthrow. unfold extractCustomDropdownsSafe, dropdownSelectors. cbn [flat_map].
    rewrite !omap_none by (intros c; by apply extractSingleDropdown_escape_throws).
    reflexivity.
Qed.

End DropdownFacts.


Lemma getDropdownOptionsWithoutClick_options_witness :
  Scans.getDropdownOptionsWithoutClick (Returned schoolOptions)
  = [ Extractor.mkOption "MIT" "MIT"; Extractor.mkOption "Stanford" "Stanford";
      Extractor.mkOption "Oxford" "Oxford" ]
  /\ NoDup (map Extractor.opt_text
              (Scans.getDropdownOptionsWithoutClick (Returned schoolOptions))).
Proof.
  split; [vm_compute; reflexivity |].
  apply (proj2 (proj2 (proj2 (getDropdownOptionsWithoutClick_options (Returned schoolOptions))))
           schoolOptions eq_refl).
  apply (bool_decide_unpack _). vm_compute. reflexivity.
Defined.

Lemma extractCustomDropdownsSafe_bounded_witness :
  Scans.extractCustomDropdownsSafe nodeEscapeMissing (Scans.fp_containers applicationPage) = []
  /\ length (Scans.extractCustomDropdownsSafe nodeEscapeReturns
               (Scans.fp_containers applicationPage)) = 1.
Proof.
  split.
  - apply (proj2 (proj2 (extractCustomDropdownsSafe_bounded nodeEscapeMissing
                           (Scans.fp_containers applicationPage)))).
    intros s. by eexists.
  - vm_compute. reflexivity.
Defined.

(** ** Lower case and substrings *)

Section LowerCaseFacts.

Lemma lower_ascii_idem c : JS.lower_ascii (JS.lower_ascii c) = JS.lower_ascii c.
Proof. destruct c as [[] [] [] [] [] [] [] []]; reflexivity. Qed.

Lemma toLowerCase_idem s : JS.toLowerCase (JS.toLowerCase s) = JS.toLowerCase s.
Proof. induction s as [|c s IH]; simpl; [done |]. by rewrite lower_ascii_idem, IH. Qed.

Lemma toLowerCase_append s t :
  JS.toLowerCase (s +:+ t) = JS.toLowerCase s +:+ JS.toLowerCase t.
Proof. induction s as [|c s IH]; simpl; [done | by rewrite IH]. Qed.

Lemma toLowerCase_length s : String.length (JS.toLowerCase s) = String.length s.
Proof. induction s as [|c s IH]; simpl; [done | by rewrite IH]. Qed.

Lemma prefix_split sub s :
  String.prefix sub s = true -> exists post, s = sub +:+ post.
Proof.
  revert s. induction sub as [|c sub IH]; intros s Hp; [by exists s |].
  destruct s as [|d s]; [done |]. simpl in Hp.
  destruct (ascii_dec c d) as [-> |]; [| done].
  destruct (IH s Hp) as [post ->]. by exists post.
Qed.

Lemma includes_split s sub :
  JS.includes s sub = true -> exists pre post, s = pre +:+ sub +:+ post.
Proof.
  induction s as [|c s IH]; intros Hi.
  - change (JS.includes "" sub) with (String.prefix sub "" || false) in Hi.
    rewrite orb_false_r in Hi.
    apply prefix_split in Hi as [post Hpost]. exists "", post. exact Hpost.
  - change (JS.includes (String c s) sub)
      with (String.prefix sub (String c s) || JS.includes s sub) in Hi.
    apply orb_true_iff in Hi as [Hp | Hi].
    + apply prefix_split in Hp as [post ->]. by exists "", post.
    + destruct (IH Hi) as (pre & post & ->). by exists (String c pre), post.
Qed.

Lemma append_inj_length a b a' b' :
  String.length a = String.length a' -> a +:+ b = a' +:+ b' -> a = a' /\ b = b'.
Proof.
  revert a'. induction a as [|c a IH]; intros [|c' a'] Hl He; simpl in *; try done.
  injection He as -> He. destruct (IH a') as [-> ->]; [lia | done | done].
Qed.

(** A substring of a lower-case string is in lower case. *)
Lemma includes_lower u p :
  JS.includes (JS.toLowerCase u) p = true -> JS.toLowerCase p = p.
Proof.
  intros Hi. apply includes_split in Hi as (pre & post & He).
  pose proof (f_equal JS.toLowerCase He) as Hl.
  rewrite toLowerCase_idem, He, !toLowerCase_append in Hl.
  apply append_inj_length in Hl as [_ Hl]; [| by rewrite toLowerCase_length].
  apply append_inj_length in Hl as [Hl _]; [| by rewrite toLowerCase_length].
  done.
Qed.

End LowerCaseFacts.

(** ** ATS detection *)

Section ATSFacts.

Import ATS.

Variable patterns : ATSType -> ATSPattern.

Lemma find_split {A} (f : A -> bool) (l : list A) (x : A) :
  List.find f l = Some x ->
  exists pre post, l = pre ++ x :: post /\ f x = true /\ Forall (fun y => f y = false) pre.
Proof.
  induction l as [|y l IH]; simpl; [done |]. destruct (f y) eqn:E.
  - intros [= ->]. exists [], l. done.
  - intros Hf. destruct (IH Hf) as (pre & post & -> & Hx & Hpre).
    exists (y :: pre), post. split; [done |]. split; [done |]. by constructor.
Qed.

(** X17. [detectATS] ignores the case of the URL and answers the first ATS,
    in the order greenhouse, lever, workday, ashby, icims, whose non-empty URL
    pattern occurs in the lower-cased URL; it answers [custom] exactly when
    none does.  The pattern itself is compared as configured: an ATS whose
    pattern has an upper-case letter is never detected. *)
Theorem detectATS_first_matching_pattern (url : string) :
  detectATS patterns (JS.toLowerCase url) = detectATS patterns url
  /\ (detectATS patterns url = custom
      <-> forall ats, ats ∈ atsTypes -> urlMatches patterns (JS.toLowerCase url) ats = false)
  /\ (forall ats,
        detectATS patterns url = ats -> ats <> custom ->
        exists pre post,
          atsTypes = pre ++ ats :: post
          /\ urlMatches patterns (JS.toLowerCase url) ats = true
          /\ Forall (fun a => urlMatches patterns (JS.toLowerCase url) a = false) pre)
  /\ (forall ats pattern,
        ats <> custom -> urlPattern (patterns ats) = Some pattern ->
        JS.toLowerCase pattern <> pattern ->
        detectATS patterns url <> ats).
Proof.
  assert (Hfound : forall ats,
            List.find (urlMatches patterns (JS.toLowerCase url)) atsTypes = Some ats ->
            ats <> custom).
  { intros ats Hf. apply find_elem in Hf as [Hin _]. intros ->.
    unfold atsTypes in Hin. rewrite !elem_of_cons, elem_of_nil in Hin.
    intuition discriminate. }
  split; [| split; [| split]].
  - unfold detectATS. by rewrite toLowerCase_idem.
  - unfold detectATS.
    destruct (List.find _ atsTypes) as [ats|] eqn:Ef; simpl; split.
    + intros E. by destruct (Hfound ats).
    + intros Hnone. apply find_elem in Ef as [Hin Hm]. rewrite Hnone in Hm; done.
    + intros _ ats Hin. destruct (urlMatches patterns _ ats) eqn:Hm; [| done].
      destruct (find_some_of_elem _ _ _ Hin Hm) as [y Hy]. congruence.
    + done.
  - intros ats Hd Hne. unfold detectATS in Hd.
    destruct (List.find _ atsTypes) as [a|] eqn:Ef; simpl in Hd; [| congruence].
    subst a. by apply find_split.
  - intros ats pattern Hne Hp Hupper Hd. unfold detectATS in Hd.
    destruct (List.find _ atsTypes) as [a|] eqn:Ef; simpl in Hd; [| congruence].
    subst a. apply find_elem in Ef as [_ Hm]. unfold urlMatches in Hm. rewrite Hp in Hm.
    apply andb_true_iff in Hm as [_ Hi]. by apply includes_lower in Hi.
Qed.

Lemma mapGet_mapSet {V} (key key' : ATSType) (value : V) m :
  mapGet key' (mapSet key value m)
  = if bool_decide (key = key') then Some value else mapGet key' m.
Proof.
  induction m as [|[k v] m IH]; cbn [mapSet mapGet].
  - destruct (bool_decide_reflect (key = key')); done.
  - destruct (bool_decide_reflect (k = key)) as [-> | Hne]; cbn [mapGet].
    + destruct (bool_decide_reflect (key = key')); done.
    + rewrite IH. destruct (bool_decide_reflect (k = key')) as [-> | Hne'].
      * rewrite bool_decide_eq_false_2 by congruence. done.
      * done.
Qed.

Lemma mapSet_keys {V} (key : ATSType) (value : V) m :
  NoDup (map fst m) ->
  NoDup (map fst (mapSet key value m))
  /\ forall k, k ∈ map fst (mapSet key value m) <-> k = key \/ k ∈ map fst m.
Proof.
  induction m as [|[k v] m IH]; cbn [mapSet map fst]; intros Hnd.
  - split; [apply NoDup_singleton |]. intros k'. rewrite list_elem_of_singleton, elem_of_nil.
    tauto.
  - apply NoDup_cons in Hnd as [Hk Hnd].
    destruct (bool_decide_reflect (k = key)) as [-> | Hne]; cbn [map fst].
    + split; [by apply NoDup_cons |]. intros k'. rewrite elem_of_cons. tauto.
    + destruct (IH Hnd) as [Hnd' Hkeys]. split.
      * apply NoDup_cons. split; [| done]. rewrite Hkeys. intros [-> | Hin]; done.
      * intros k'. rewrite !elem_of_cons, Hkeys. tauto.
Qed.

Lemma groupJobsByATS_loop jobs : forall processed groups,
  NoDup (map fst groups) ->
  (forall ats, mapGet ats groups = groupOf patterns ats processed) ->
  let result :=
    fold_left (fun groups job =>
                 let ats := detectATS patterns (apply_url job) in
                 let existing := default [] (mapGet ats groups) in
                 mapSet ats (existing ++ [job]) groups) jobs groups in
  NoDup (map fst result)
  /\ forall ats, mapGet ats result = groupOf patterns ats (processed ++ jobs).
Proof.
  induction jobs as [|job jobs IH]; intros processed groups Hnd Hget; cbn [fold_left].
  - rewrite app_nil_r. done.
  - replace (processed ++ job :: jobs) with ((processed ++ [job]) ++ jobs)
      by (by rewrite <- app_assoc).
    apply IH.
    + by apply mapSet_keys.
    + intros ats. rewrite mapGet_mapSet, Hget. unfold groupOf.
      rewrite List.filter_app. cbn [List.filter].
      destruct (bool_decide_reflect (detectATS patterns (apply_url job) = ats)) as [-> | Hne].
      * destruct (List.filter _ processed) as [|j group]; done.
      * rewrite app_nil_r. done.
Qed.

(** X18. [groupJobsByATS] puts every job in the group of the ATS detected
    from its URL and in no other: the group of an ATS is the list of its jobs
    in their original order, an ATS without a job has no group, and no ATS
    has two groups. *)
Theorem groupJobsByATS_groups_by_detected_ats (jobs : list Job) :
  NoDup (map fst (groupJobsByATS patterns jobs))
  /\ forall ats, mapGet ats (groupJobsByATS patterns jobs) = groupOf patterns ats jobs.
Proof.
  apply (groupJobsByATS_loop jobs [] []); [constructor | done].
Qed.

End ATSFacts.

Lemma detectATS_first_matching_pattern_witness :
  ATS.detectATS samplePatterns "https://boards.GREENHOUSE.io/acme/jobs/1" = ATS.greenhouse
  /\ ATS.detectATS samplePatterns "https://careers.icims.com/jobs/7" <> ATS.icims.
Proof.
  split; [vm_compute; reflexivity |].
  apply (proj2 (proj2 (proj2 (detectATS_first_matching_pattern samplePatterns
                                "https://careers.icims.com/jobs/7")))
           ATS.icims "iCIMS.com").
  - discriminate.
  - reflexivity.
  - vm_compute. discriminate.
Defined.

(** ** Application history *)

Section HistoryFacts.

Import History.

Variable withoutTracking : string -> option string.

Abbreviation keyOf := (fun j => normalizeUrl withoutTracking (aj_url j)).

Lemma replaceFirst_Some n application l l' :
  replaceFirst withoutTracking n application l = Some l' ->
  application ∈ l' /\ length l' = length l
  /\ (keyOf application = n -> map keyOf l' = map keyOf l).
Proof.
  revert l'. induction l as [|job rest IH]; intros l'; cbn [replaceFirst]; [done |].
  destruct (String.eqb_spec (normalizeUrl withoutTracking (aj_url job)) n) as [E | Hne].
  - intros [= <-]. split; [by left |]. split; [done |]. intros Hk. cbn. by rewrite Hk, E.
  - destruct (replaceFirst withoutTracking n application rest) as [r|]; [| done].
    intros [= <-]. destruct (IH r eq_refl) as (Hin & Hlen & Hkeys).
    split; [by right |]. split; [cbn; by rewrite Hlen |].
    intros Hk. cbn. by rewrite Hkeys.
Qed.

Lemma replaceFirst_None n application l :
  replaceFirst withoutTracking n application l = None -> n ∉ map keyOf l.
Proof.
  induction l as [|job rest IH]; cbn [replaceFirst]; [intros _ Hin; inversion Hin |].
  destruct (String.eqb_spec (normalizeUrl withoutTracking (aj_url job)) n) as [E | Hne];
    [done |].
  destruct (replaceFirst withoutTracking n application rest) as [r|]; [done |].
  intros _. cbn. apply not_elem_of_cons. split; [congruence | by apply IH].
Qed.

Lemma recordApplication_jobs company role url status notes d :
  writable d = true ->
  let application := mkApplied company role url (clock d) status notes in
  exists h,
    file (recordApplication withoutTracking company role url status notes d) = Stored h
    /\ application ∈ jobs h
    /\ (consistent withoutTracking (loadHistory d) -> consistent withoutTracking h).
Proof.
  intros Hw application. unfold recordApplication, saveHistory. rewrite Hw.
  fold application. cbn [file].
  destruct (replaceFirst withoutTracking _ application (jobs (loadHistory d)))
    as [updated|] eqn:Er.
  - apply replaceFirst_Some in Er as (Hin & Hlen & Hkeys).
    eexists. split; [reflexivity |]. cbn [jobs total_applications].
    split; [done |]. intros [Ht Hnd]. split; cbn [jobs total_applications].
    + by rewrite Hlen.
    + by rewrite Hkeys.
  - apply replaceFirst_None in Er.
    eexists. split; [reflexivity |]. cbn [jobs total_applications].
    split; [apply elem_of_app; right; by left |].
    intros [Ht Hnd]. split; cbn [jobs total_applications].
    + rewrite length_app. cbn. lia.
    + rewrite map_app. apply NoDup_app. split; [done |].
      split; [| apply NoDup_singleton].
      intros k Hk Hk'. cbn in Hk'. apply list_elem_of_singleton in Hk'. by subst k.
Qed.

Lemma includes_refl s : JS.includes s s = true.
Proof.
  apply includes_prefix. apply String.prefix_correct.
  clear. induction s as [|c s IH]; simpl; [done | by rewrite IH].
Qed.

(** X19. Once an application is recorded and the history file could be
    written, [hasApplied] answers yes for its URL, and for every URL whose
    normalized form contains, or is contained in, the normalized form of the
    recorded one; [getApplicationStatus] finds an entry.  When the file cannot
    be written the record is lost: the state is as before. *)
Theorem recorded_application_is_found company role url status notes d :
  let d' := recordApplication withoutTracking company role url status notes d in
  (writable d = true ->
     hasApplied withoutTracking url d' = true
     /\ is_Some (getApplicationStatus withoutTracking url d')
     /\ forall other,
          JS.includes (normalizeUrl withoutTracking other) (normalizeUrl withoutTracking url)
            = true
          \/ JS.includes (normalizeUrl withoutTracking url) (normalizeUrl withoutTracking other)
             = true ->
          hasApplied withoutTracking other d' = true)
  /\ (writable d = false -> d' = d).
Proof.
  intros d'. split.
  - intros Hw.
    destruct (recordApplication_jobs company role url status notes d Hw)
      as (h & Hfile & Hin & _).
    assert (Hother : forall other,
              JS.includes (normalizeUrl withoutTracking other)
                (normalizeUrl withoutTracking url) = true
              \/ JS.includes (normalizeUrl withoutTracking url)
                   (normalizeUrl withoutTracking other) = true ->
              exists j, j ∈ jobs (loadHistory d')
                        /\ sameJob withoutTracking (normalizeUrl withoutTracking other) j
                           = true).
    { intros other Hinc. eexists. split.
      - unfold loadHistory. subst d'. rewrite Hfile. exact Hin.
      - unfold sameJob. cbn [aj_url]. destruct Hinc as [-> | ->];
          by rewrite ?orb_true_r. }
    split; [| split].
    + destruct (Hother url) as (j & Hj & Hs); [left; apply includes_refl |].
      unfold hasApplied. apply existsb_exists. exists j. split; [| done].
      by apply list_elem_of_In.
    + destruct (Hother url) as (j & Hj & Hs); [left; apply includes_refl |].
      unfold getApplicationStatus.
      destruct (find_some_of_elem _ _ _ Hj Hs) as [y ->]. eauto.
    + intros other Hinc. destruct (Hother other Hinc) as (j & Hj & Hs).
      unfold hasApplied. apply existsb_exists. exists j. split; [| done].
      by apply list_elem_of_In.
  - intros Hw. subst d'. unfold recordApplication, saveHistory. by rewrite Hw.
Qed.

Lemma countStatus_total l :
  countStatus submitted l + countStatus partial l + countStatus failed l = length l.
Proof.
  unfold countStatus. induction l as [|j l IH]; simpl; [done |].
  destruct (aj_status j); simpl; lia.
Qed.

Lemma serve_consistent d r :
  consistent withoutTracking (loadHistory d) ->
  consistent withoutTracking (loadHistory (serve withoutTracking d r)).
Proof.
  intros Hc. unfold serve.
  set (d0 := mkDisk (file d) (rq_writable r) (rq_clock r)).
  assert (Hc0 : consistent withoutTracking (loadHistory d0)).
  { unfold loadHistory in *. cbn [file d0] in *. destruct (file d); [| | done].
    all: split; cbn; [done | constructor]. }
  destruct (writable d0) eqn:Hw.
  - destruct (recordApplication_jobs (rq_company r) (rq_role r) (rq_url r) (rq_status r)
                (rq_notes r) d0 Hw) as (h & Hfile & _ & Hcons).
    unfold loadHistory at 1. rewrite Hfile. by apply Hcons.
  - unfold recordApplication, saveHistory. by rewrite Hw.
Qed.

(** X20. The history written by the tool stays consistent: through any run
    of recorded applications, with writes that succeed or fail, the counter
    [total_applications] is the number of entries and no two entries have the
    same normalized URL; the statistics count every entry under exactly one
    status. *)
Theorem history_stays_consistent (requests : list Request) (d : Disk) :
  consistent withoutTracking (loadHistory d) ->
  let d' := fold_left (serve withoutTracking) requests d in
  consistent withoutTracking (loadHistory d')
  /\ st_total (getStats d') = total_applications (loadHistory d')
  /\ st_submitted (getStats d') + st_partial (getStats d') + st_failed (getStats d')
     = st_total (getStats d').
Proof.
  intros Hc d'.
  assert (Hc' : consistent withoutTracking (loadHistory d')).
  { subst d'. revert d Hc. induction requests as [|r requests IH]; intros d Hc; [done |].
    cbn [fold_left]. apply IH. by apply serve_consistent. }
  split; [exact Hc' |]. split.
  - destruct Hc' as [Ht _]. cbn. by rewrite Ht.
  - cbn. apply countStatus_total.
Qed.

End HistoryFacts.

Lemma recorded_application_is_found_witness :
  let d' := History.recordApplication plainUrls "Initech" "Intern"
              "https://jobs.example.org/initech/1" History.submitted None freshDisk in
  History.hasApplied plainUrls "https://jobs.example.org/initech/1" d' = true
  /\ History.hasApplied plainUrls "https://jobs.example.org/INITECH/12" d' = true.
Proof.
  intros d'.
  destruct (proj1 (recorded_application_is_found plainUrls "Initech" "Intern"
                     "https://jobs.example.org/initech/1" History.submitted None freshDisk)
              eq_refl) as (Hsame & _ & Hother).
  split; [exact Hsame |]. apply Hother. left. vm_compute. reflexivity.
Defined.

Lemma history_stays_consistent_witness :
  let d' := fold_left (History.serve plainUrls) twoRequests freshDisk in
  History.consistent plainUrls (History.loadHistory d')
  /\ History.st_total (History.getStats d') = 2
  /\ History.total_applications (History.loadHistory d') = 2.
Proof.
  intros d'.
  destruct (history_stays_consistent plainUrls twoRequests freshDisk) as (Hc & Ht & _).
  - split; [reflexivity | constructor].
  - split; [exact Hc |]. split; [vm_compute; reflexivity | vm_compute; reflexivity].
Defined.

(** ** Required fields and submission *)

Section SubmitFacts.

Import Submit.

Lemma or_else_nonempty a b : b <> "" -> JS.or_else a b <> "".
Proof.
  intros Hb. unfold JS.or_else. destruct (JS.truthy a) eqn:E; [| done].
  by apply truthy_nonempty.
Qed.

(** X21. Every name reported by [checkRequiredFields] is non-empty (an input
    without label, name and id is reported as an unknown field), and an input
    whose value has a character that is not white space is not reported. *)
Theorem missingFields_names (requiredInputs : list RequiredInput) :
  Forall (fun name => name <> "") (missingFields requiredInputs)
  /\ length (missingFields requiredInputs) <= length requiredInputs
  /\ (Forall (fun input => exists value,
                ri_value input = Returned value /\ JS.trim value <> "") requiredInputs ->
      missingFields requiredInputs = []).
Proof.
  split; [| split].
  - apply omap_Forall. intros input name. unfold missingName.
    destruct (isBlank _); [| done]. destruct (ri_details input) as [d|]; [| done].
    intros [= <-]. unfold fieldName. by repeat apply or_else_nonempty.
  - apply omap_length_le.
  - intros Hall. unfold missingFields.
    induction Hall as [|input rest (value & Hv & Ht) _ IH]; [done |].
    cbn [omap list_omap]. unfold missingName at 1. rewrite Hv.
    assert (Hb : isBlank value = false).
    { unfold isBlank. apply orb_false_iff. split.
      - apply negb_false_iff, truthy_nonempty. intros ->. by apply Ht.
      - by apply String.eqb_neq. }
    rewrite Hb. exact IH.
Qed.

Context {W : Type}.
Variable getPage : W -> Outcome unit.
Variable checkRequiredFields : W -> Outcome (list string) * W.
Variable takeScreenshot : string -> W -> Outcome unit * W.
Variable findAndClickSubmit : W -> Outcome bool * W.
Variable waitForTimeout : nat -> W -> Outcome unit * W.
Variable detectSubmissionSuccess : W -> Outcome bool * W.
Variable detectSubmissionError : W -> Outcome (option string) * W.
Variable sleep : nat -> W -> W.

Abbreviation submitOnce :=
  (submitApplication getPage checkRequiredFields takeScreenshot findAndClickSubmit
     waitForTimeout detectSubmissionSuccess detectSubmissionError).
Abbreviation retryFrom :=
  (retryLoop getPage checkRequiredFields takeScreenshot findAndClickSubmit
     waitForTimeout detectSubmissionSuccess detectSubmissionError sleep).
Abbreviation submitRetrying :=
  (submitWithRetry getPage checkRequiredFields takeScreenshot findAndClickSubmit
     waitForTimeout detectSubmissionSuccess detectSubmissionError sleep).

Lemma missing_is_validation_error names :
  isValidationError (Some ("Missing required fields: " +:+ names)) = true.
Proof.
  unfold isValidationError. apply includes_prefix.
  change ("Missing required fields: " +:+ names)
    with ("Missing required fields" +:+ (": " +:+ names)).
  apply prefix_append.
Qed.

(** X22. Missing required fields block the submission: the application is
    not submitted (the state is the one left by the check: no screenshot, no
    click), the error names the fields, and [submitWithRetry] gives up after
    this one attempt whatever the number of retries allowed. *)
Theorem missing_fields_block_submission (w w1 : W) (missing : list string) (maxRetries : nat) :
  getPage w = Returned tt ->
  checkRequiredFields w = (Returned missing, w1) ->
  missing <> [] ->
  0 < maxRetries ->
  submitOnce w
  = (Returned (mkSubmit false (Some ("Missing required fields: " +:+ join ", " missing))), w1)
  /\ submitRetrying maxRetries w
     = (Returned (mkRetry false (Some ("Missing required fields: " +:+ join ", " missing)) 1),
        w1).
Proof.
  intros Hp Hc Hm Hr.
  assert (Hs : submitOnce w
               = (Returned (mkSubmit false
                              (Some ("Missing required fields: " +:+ join ", " missing))), w1)).
  { unfold submitApplication, validateBeforeSubmit. rewrite Hp, Hc.
    destruct missing as [|m missing]; [done |]. reflexivity. }
  split; [exact Hs |].
  unfold submitWithRetry. destruct maxRetries as [|n]; [lia |].
  cbn [retryLoop]. rewrite Hs. cbn [sr_success sr_error].
  by rewrite missing_is_validation_error.
Qed.

Lemma retryLoop_attempts remaining : forall done lastError w r w',
  retryFrom remaining done lastError w = (Returned r, w') ->
  done <= attempts r <= done + remaining
  /\ (rr_success r = true -> done < attempts r /\ rr_error r = None)
  /\ (rr_success r = false -> attempts r < done + remaining ->
      isValidationError (rr_error r) = true).
Proof.
  induction remaining as [|remaining IH]; intros done lastError w r w'; cbn [retryLoop].
  - intros [= <- <-]. cbn. repeat split; try lia; done.
  - destruct (submitOnce w) as [[result | err] w1]; [| done].
    destruct (sr_success result).
    { intros [= <- <-]. cbn. repeat split; try lia; done. }
    destruct (isValidationError (sr_error result)) eqn:Ev.
    { intros [= <- <-]. cbn. repeat split; try lia; done. }
    intros Hl. apply IH in Hl as (Hb & Hs & Hf).
    split; [lia |]. split.
    + intros Ht. destruct (Hs Ht). split; [lia | done].
    + intros Hfalse Hlt. apply Hf; [done | lia].
Qed.

(** X23. [submitWithRetry] never makes more attempts than allowed; it reports
    success only after an attempt, and then without an error; when it reports
    failure with attempts to spare, the last error was a validation error. *)
Theorem submitWithRetry_attempts (maxRetries : nat) (w : W) r w' :
  submitRetrying maxRetries w = (Returned r, w') ->
  attempts r <= maxRetries
  /\ (rr_success r = true -> 1 <= attempts r /\ rr_error r = None)
  /\ (rr_success r = false -> attempts r < maxRetries ->
      isValidationError (rr_error r) = true).
Proof.
  unfold submitWithRetry. intros Hl. apply retryLoop_attempts in Hl as (Hb & Hs & Hf).
  split; [lia |]. split.
  - intros Ht. destruct (Hs Ht). split; [lia | done].
  - intros Hfalse Hlt. apply Hf; [done | lia].
Qed.

End SubmitFacts.

Lemma missingFields_names_witness :
  Submit.missingFields [filledRequired; filledRequired] = []
  /\ Submit.missingFields [filledRequired; blankRequired] = ["unknown field"].
Proof.
  split.
  - apply (proj2 (proj2 (missingFields_names [filledRequired; filledRequired]))).
    repeat constructor; exists "ada@example.org"; (split; [reflexivity | discriminate]).
  - vm_compute. reflexivity.
Defined.

Lemma missing_fields_block_submission_witness :
  Submit.submitApplication pageReady twoMissing logScreenshot logClick logWait
    nothingDetected noErrorShown []
  = (Returned (Submit.mkSubmit false (Some "Missing required fields: Email, Phone")), ["check"])
  /\ Submit.submitWithRetry pageReady twoMissing logScreenshot logClick logWait
       nothingDetected noErrorShown logSleep 3 []
     = (Returned (Submit.mkRetry false (Some "Missing required fields: Email, Phone") 1),
        ["check"]).
Proof.
  apply (missing_fields_block_submission pageReady twoMissing logScreenshot logClick logWait
           nothingDetected noErrorShown logSleep [] ["check"] ["Email"; "Phone"] 3).
  - reflexivity.
  - reflexivity.
  - discriminate.
  - lia.
Defined.

Lemma submitWithRetry_attempts_witness :
  2 <= 2
  /\ (false = true -> 1 <= 2 /\ Some "Could not confirm submission status" = None)
  /\ (false = false -> 2 < 2 ->
      Submit.isValidationError (Some "Could not confirm submission status") = true).
Proof.
  apply (submitWithRetry_attempts pageReady noneMissing logScreenshot logClick logWait
           nothingDetected noErrorShown logSleep 2 []
           (Submit.mkRetry false (Some "Could not confirm submission status") 2)
           ["check"; "screenshot pre-submit"; "click"; "screenshot post-submit"; "sleep";
            "check"; "screenshot pre-submit"; "click"; "screenshot post-submit"]).
  vm_compute. reflexivity.
Defined.

(** ** The agent's observation of form fields *)

Section ObserveFacts.

Import Observe.

Lemma fieldSelector_nonempty el idx : fieldSelector el idx <> "".
Proof.
  unfold fieldSelector. destruct (JS.truthy (fe_id el)); [done |].
  destruct (JS.truthy (fe_name el)); done.
Qed.

Lemma observeLoop_spec innerHeight allInputs : forall idx processed,
  let fields := observeLoop innerHeight allInputs idx processed in
  NoDup (map of_selector fields)
  /\ (forall s, s ∈ map of_selector fields -> s ∉ processed)
  /\ length fields <= length allInputs
  /\ (forall i el,
        allInputs !! i = Some el -> skipped el = false ->
        fieldSelector el (idx + i) ∈ processed
        \/ fieldSelector el (idx + i) ∈ map of_selector fields).
Proof.
  induction allInputs as [|el rest IH]; intros idx processed; cbn [observeLoop].
  - split; [constructor |]. split; [intros s Hs; inversion Hs |]. split; [done |].
    intros i el Hi. by rewrite lookup_nil in Hi.
  - destruct (IH (S idx) processed) as (Hnd & Hnew & Hlen & Hall).
    destruct (IH (S idx) ({[fieldSelector el idx]} ∪ processed))
      as (Hnd' & Hnew' & Hlen' & Hall').
    assert (Hshift : forall i, S idx + i = idx + S i) by (intros; lia).
    destruct (skipped el) eqn:Es.
    { split; [exact Hnd |]. split; [exact Hnew |]. split; [cbn; lia |].
      intros [|i] e Hi Hsk; cbn in Hi.
      - injection Hi as <-. congruence.
      - rewrite <- Hshift. by apply Hall. }
    destruct (bool_decide_reflect (fieldSelector el idx ∈ processed)) as [Hin | Hnin].
    { split; [exact Hnd |]. split; [exact Hnew |]. split; [cbn; lia |].
      intros [|i] e Hi Hsk; cbn in Hi.
      - injection Hi as <-. left. by rewrite Nat.add_0_r.
      - rewrite <- Hshift. by apply Hall. }
    cbn [map of_selector observeField length]. split; [| split; [| split]].
    + apply NoDup_cons. split; [| exact Hnd'].
      intros Hs. apply Hnew' in Hs. apply Hs. apply elem_of_union. left.
      by apply elem_of_singleton.
    + intros s Hs. apply elem_of_cons in Hs as [-> | Hs]; [exact Hnin |].
      apply Hnew' in Hs. intros Hp. apply Hs. apply elem_of_union. by right.
    + lia.
    + intros [|i] e Hi Hsk; cbn in Hi.
      * injection Hi as <-. right. rewrite Nat.add_0_r. by left.
      * rewrite <- Hshift. destruct (Hall' i e Hi Hsk) as [Hp | Hf].
        -- apply elem_of_union in Hp as [Hp | Hp]; [| by left].
           apply elem_of_singleton in Hp. right. rewrite Hp. by left.
        -- right. by right.
Qed.

Lemma observeLoop_selectors innerHeight allInputs : forall idx processed,
  Forall (fun f => of_selector f <> "") (observeLoop innerHeight allInputs idx processed).
Proof.
  induction allInputs as [|el rest IH]; intros idx processed; cbn [observeLoop];
    [constructor |].
  destruct (skipped el); [apply IH |].
  destruct (bool_decide _); [apply IH |].
  constructor; [apply fieldSelector_nonempty | apply IH].
Qed.

Lemma rawLabel_nonempty el idx : rawLabel el idx <> "".
Proof.
  unfold rawLabel.
  match goal with
  | |- (if negb (JS.truthy ?l) then _ else _) <> _ => destruct (JS.truthy l) eqn:E
  end; cbn [negb]; [by apply truthy_nonempty | done].
Qed.

Lemma rawLabel_unlabeled el idx :
  unlabeled el -> rawLabel el idx = "Field " +:+ pretty (idx + 1).
Proof.
  intros (Hfor & Hparent & Hrest). unfold rawLabel.
  assert (E1 : (if JS.truthy (fe_id el)
                then match fe_labelFor el with
                     | Some text => JS.or_else (JS.trim text) ""
                     | None => ""
                     end
                else "") = "").
  { destruct Hfor as [-> | ->]; [done | by destruct (JS.truthy (fe_id el))]. }
  rewrite E1. cbn [JS.truthy String.eqb negb].
  assert (E2 : match fe_parentLabel el with
               | Some (Some text) => JS.or_else (JS.trim text) ""
               | _ => ""
               end = "") by (destruct Hparent as [-> | ->]; done).
  rewrite E2. cbn [JS.truthy String.eqb negb].
  destruct (fe_kind el); [| | done].
  all: destruct Hrest as (-> & -> & ->); reflexivity.
Qed.

(** X24. The fields the agent observes have pairwise different, non-empty
    selectors: of several elements with one selector, radio buttons of a
    group for one, only the first is observed.  Every element that is not
    skipped is represented by its selector.  Before its clean-up a label is
    never empty, and an element with nothing to take a label from (a [select],
    whatever its ARIA label and name, once it has neither an associated nor a
    nearby label) is called "Field N", N counting all inputs, text areas and
    selects of the document. *)
Theorem observeFields_selectors innerHeight (allInputs : list FieldElement) :
  NoDup (map of_selector (observeFields innerHeight allInputs))
  /\ Forall (fun f => of_selector f <> "") (observeFields innerHeight allInputs)
  /\ length (observeFields innerHeight allInputs) <= length allInputs
  /\ (forall idx el,
        allInputs !! idx = Some el -> skipped el = false ->
        fieldSelector el idx ∈ map of_selector (observeFields innerHeight allInputs))
  /\ (forall el idx, rawLabel el idx <> "")
  /\ (forall el idx, unlabeled el -> rawLabel el idx = "Field " +:+ pretty (idx + 1)).
Proof.
  unfold observeFields.
  destruct (observeLoop_spec innerHeight allInputs 0 ∅) as (Hnd & _ & Hlen & Hall).
  split; [exact Hnd |]. split; [| split; [exact Hlen | split; [| split]]].
  - apply observeLoop_selectors.
  - intros idx el Hi Hsk. destruct (Hall idx el Hi Hsk) as [Hp | Hf]; [set_solver | done].
  - apply rawLabel_nonempty.
  - apply rawLabel_unlabeled.
Qed.

End ObserveFacts.

Lemma observeFields_selectors_witness :
  map Observe.of_selector (Observe.observeFields 800 [radioYes; radioNo; ariaSelect])
  = [ "[name=" +:+ JS.dquote +:+ "sponsorship" +:+ JS.dquote +:+ "]"; "input:nth-of-type(3)" ]
  /\ Observe.fieldSelector ariaSelect 2
     ∈ map Observe.of_selector (Observe.observeFields 800 [radioYes; radioNo; ariaSelect])
  /\ Observe.rawLabel ariaSelect 2 = "Field " +:+ pretty (2 + 1).
Proof.
  split; [vm_compute; reflexivity |].
  destruct (observeFields_selectors 800 [radioYes; radioNo; ariaSelect])
    as (_ & _ & _ & Hall & _ & Hunlabeled).
  split.
  - apply (Hall 2 ariaSelect); reflexivity.
  - apply Hunlabeled. unfold Observe.unlabeled. cbn. auto.
Defined.

(** ** Applying generated answers *)

Section ApplyFacts.

Import Extractor AIFiller.

Context {P : Type}.
Variable fillField : ExtractedField -> string -> P -> Outcome bool * P.
Variable waitForTimeout : nat -> P -> Outcome unit * P.

Lemma isFieldFilled_false selector t :
  isFieldFilled selector t = false -> filledFields t !! selector = None.
Proof.
  unfold isFieldFilled. intros Hf. apply orb_false_iff in Hf as [Hf _].
  apply bool_decide_eq_false in Hf. destruct (filledFields t !! selector); [| done].
  destruct Hf. eauto.
Qed.

Lemma applyLoop_accounting fields answers : forall filled failed (w : World P) n m w',
  applyLoop fillField waitForTimeout fields answers filled failed w = (Returned (n, m), w') ->
  filled <= n /\ failed <= m
  /\ (n - filled) + (m - failed) <= length answers
  /\ getFilledCount (tracker w') = getFilledCount (tracker w) + (n - filled)
  /\ attemptedSelectors (tracker w') = attemptedSelectors (tracker w).
Proof.
  induction answers as [|a rest IH]; intros filled failed w n m w'; cbn [applyLoop].
  - intros [= <- <- <-]. cbn. repeat split; lia.
  - destruct (fieldAt fields (fieldIndex a - 1)) as [field|].
    2: { intros Hl. apply IH in Hl as (? & ? & ? & ? & ?). cbn. repeat split; try lia; done. }
    destruct (isFieldFilled (selector field) (tracker w)) eqn:Ef.
    { intros Hl. apply IH in Hl as (? & ? & ? & ? & ?). cbn. repeat split; try lia; done. }
    apply isFieldFilled_false in Ef.
    destruct (fillField field (answer a) (page w)) as [[[]|err] p1];
      destruct (waitForTimeout 50 p1) as [[[]|err'] p2]; try done.
    + intros Hl. apply IH in Hl as (? & ? & ? & Hc & Ha). cbn [tracker] in Hc, Ha.
      rewrite getFilledCount_recordFill in Hc.
      rewrite bool_decide_eq_false_2 in Hc by (rewrite Ef; intros [? ?]; done).
      unfold recordFill in Ha. rewrite Ef in Ha. cbn in Ha.
      cbn. repeat split; try lia; done.
    + intros Hl. apply IH in Hl as (? & ? & ? & Hc & Ha). cbn [tracker] in Hc, Ha.
      cbn. repeat split; try lia; done.
    + intros Hl. apply IH in Hl as (? & ? & ? & Hc & Ha). cbn [tracker] in Hc, Ha.
      cbn. repeat split; try lia; done.
Qed.

Lemma applyLoop_out_of_range fields answers : forall filled failed (w : World P),
  Forall (fun a => fieldAt fields (fieldIndex a - 1) = None) answers ->
  applyLoop fillField waitForTimeout fields answers filled failed w
  = (Returned (filled, failed + length answers), w).
Proof.
  induction answers as [|a rest IH]; intros filled failed w Hall; cbn [applyLoop length].
  - by rewrite Nat.add_0_r.
  - apply Forall_cons in Hall as [Ha Hall]. rewrite Ha, IH by done.
    by replace (S failed + length rest) with (failed + S (length rest)) by lia.
Qed.

(** X25. [applyAnswersToForm] counts each answer at most once, as filled or
    as failed; the filled ones are exactly the fill records it adds to the
    tracker; it never marks a selector attempted, so a field it failed on can
    be tried again.  An answer whose field number is outside the form is
    counted as failed without touching the page or the tracker. *)
Theorem applyAnswersToForm_accounting fields answers (w : World P) :
  (forall n m w',
     applyAnswersToForm fillField waitForTimeout fields answers w = (Returned (n, m), w') ->
     n + m <= length answers
     /\ getFilledCount (tracker w') = getFilledCount (tracker w) + n
     /\ attemptedSelectors (tracker w') = attemptedSelectors (tracker w))
  /\ (Forall (fun a => fieldAt fields (fieldIndex a - 1) = None) answers ->
      applyAnswersToForm fillField waitForTimeout fields answers w
      = (Returned (0, length answers), w)).
Proof.
  unfold applyAnswersToForm. split.
  - intros n m w' Hl. apply applyLoop_accounting in Hl as (_ & _ & Hle & Hc & Ha).
    rewrite !Nat.sub_0_r in *. done.
  - intros Hall. by rewrite applyLoop_out_of_range.
Qed.

End ApplyFacts.

Section CheckboxFacts.

Import AIFiller.

Context {P H : Type}.
Variable query : string -> P -> Outcome (option H) * P.
Variable isChecked : H -> P -> Outcome bool * P.
Variable click : H -> P -> Outcome unit * P.

(** X26. [fillCheckbox] clicks exactly when the state of the box differs
    from the one asked for, and only "check", "yes" and "true" (in any case)
    ask for a checked box: with any other answer a checked box is clicked, and
    so unchecked, and an unchecked box is left alone. *)
Theorem fillCheckbox_clicks_on_difference selector value p element p1 checked p2 :
  query selector p = (Returned (Some element), p1) ->
  isChecked element p1 = (Returned checked, p2) ->
  (checked = shouldCheck value ->
     fillCheckbox query isChecked click selector value p = (Returned true, p2))
  /\ (checked <> shouldCheck value ->
      fillCheckbox query isChecked click selector value p
      = match click element p2 with
        | (Thrown e, p3) => (Thrown e, p3)
        | (Returned _, p3) => (Returned true, p3)
        end)
  /\ (JS.toLowerCase value ∉ ["check"; "yes"; "true"] -> shouldCheck value = false).
Proof.
  intros Hq Hc. unfold fillCheckbox. rewrite Hq, Hc. split; [| split].
  - intros ->. by rewrite Bool.eqb_reflx.
  - intros Hne. destruct checked, (shouldCheck value); done.
  - intros Hnot. unfold shouldCheck.
    rewrite !not_elem_of_cons in Hnot. destruct Hnot as (H1 & H2 & H3 & _).
    by rewrite (proj2 (String.eqb_neq _ _) H1), (proj2 (String.eqb_neq _ _) H2),
      (proj2 (String.eqb_neq _ _) H3).
Qed.

End CheckboxFacts.

Lemma applyAnswersToForm_accounting_witness :
  AIFiller.applyAnswersToForm fillIfPresent waitReturns [schoolInput; emailField]
    sampleAnswers (SimplePage.start emailPage)
  = (Returned (1, 3),
     snd (AIFiller.applyAnswersToForm fillIfPresent waitReturns [schoolInput; emailField]
            sampleAnswers (SimplePage.start emailPage)))
  /\ getFilledCount
       (tracker (snd (AIFiller.applyAnswersToForm fillIfPresent waitReturns
                        [schoolInput; emailField] sampleAnswers
                        (SimplePage.start emailPage))))
     = getFilledCount (tracker (SimplePage.start emailPage)) + 1.
Proof.
  assert (Hrun : AIFiller.applyAnswersToForm fillIfPresent waitReturns
                   [schoolInput; emailField] sampleAnswers (SimplePage.start emailPage)
                 = (Returned (1, 3),
                    snd (AIFiller.applyAnswersToForm fillIfPresent waitReturns
                           [schoolInput; emailField] sampleAnswers
                           (SimplePage.start emailPage))))
    by (vm_compute; reflexivity).
  split; [exact Hrun |].
  by destruct (proj1 (applyAnswersToForm_accounting fillIfPresent waitReturns
                        [schoolInput; emailField] sampleAnswers
                        (SimplePage.start emailPage)) 1 3 _ Hrun) as (_ & Hc & _).
Defined.

Lemma fillCheckbox_clicks_on_difference_witness :
  AIFiller.fillCheckbox theCheckbox readChecked toggle "#terms" "checked" true
  = (Returned true, false)
  /\ AIFiller.fillCheckbox theCheckbox readChecked toggle "#terms" "Yes" true
     = (Returned true, true).
Proof.
  split.
  - apply (proj1 (proj2 (fillCheckbox_clicks_on_difference theCheckbox readChecked toggle
                           "#terms" "checked" true tt true true true eq_refl eq_refl))).
    discriminate.
  - apply (proj1 (fillCheckbox_clicks_on_difference theCheckbox readChecked toggle
                    "#terms" "Yes" true tt true true true eq_refl eq_refl)).
    reflexivity.
Defined.

(** ** Native selects and degree names *)

Section DropdownHandlerFacts.

Import Dropdowns.

(** X27. [tryNativeSelect] reports success only after selecting the value of
    an option of the element that passes its test, the first such in
    document order.  The test accepts an option with blank text for every
    target: when the first option of a select is such a placeholder, it is the
    one selected, whatever the target. *)
Theorem tryNativeSelect_selects_first_match (probe : NativeProbe) (targetValue : string) :
  (forall v,
     tryNativeSelect probe targetValue = (true, v) ->
     exists opts m,
       np_options probe = Returned opts
       /\ List.find (nativeTest (JS.toLowerCase targetValue)) (map readOption opts) = Some m
       /\ v = Some m.1 /\ np_selectOption probe m.1 = Returned tt)
  /\ (forall o rest,
        np_element probe = Returned (Some (Returned "select")) ->
        np_options probe = Returned (o :: rest) ->
        (readOption o).2 = "" ->
        tryNativeSelect probe targetValue
        = (match np_selectOption probe (readOption o).1 with
           | Returned _ => true
           | Thrown _ => false
           end, Some (readOption o).1)).
Proof.
  unfold tryNativeSelect. split.
  - intros v. destruct (np_element probe) as [[[tagName|]|]|]; try done.
    destruct (String.eqb tagName "select"); [| done]. cbn [negb].
    destruct (np_options probe) as [opts|]; [| done].
    destruct (List.find _ (map readOption opts)) as [m|] eqn:Ef; [| done].
    destruct (np_selectOption probe m.1) as [[]|] eqn:Es; [| done].
    intros [= <-]. exists opts, m. done.
  - intros o rest -> -> Hblank. cbn [String.eqb Ascii.eqb Bool.eqb negb map List.find].
    assert (Ht : nativeTest (JS.toLowerCase targetValue) (readOption o) = true).
    { unfold nativeTest. rewrite Hblank, includes_empty. by rewrite !orb_true_r. }
    rewrite Ht. by destruct (np_selectOption probe (readOption o).1).
Qed.

(** X28. The degree looked for in a degree dropdown is one of the five
    degree names or the degree as given; it is the first name, in the order
    Bachelor's, Master's, PhD, Associate's, High School, that the degree
    mentions by name or by alias as a substring (so every degree that contains
    "ba" or "bs" is a Bachelor's); naming a degree twice changes nothing. *)
Theorem degreeValue_normal_form (degree : string) :
  degreeValue (degreeValue degree) = degreeValue degree
  /\ (degreeValue degree = degree \/ degreeValue degree ∈ map fst degreeMap)
  /\ (forall alias,
        alias ∈ ["bachelor"; "bs"; "ba"; "b.s."; "b.a."; "undergraduate"] ->
        JS.includes (JS.toLowerCase degree) alias = true ->
        degreeValue degree = "Bachelor's").
Proof.
  split; [| split].
  - unfold degreeValue at 2 3.
    destruct (List.find (degreeMatches degree) degreeMap) as [[key aliases]|] eqn:Ef.
    + apply find_elem in Ef as [Hin _]. unfold degreeMap in Hin.
      repeat (apply elem_of_cons in Hin as [[= -> ->] | Hin]; [vm_compute; reflexivity |]).
      inversion Hin.
    + unfold degreeValue. by rewrite Ef.
  - unfold degreeValue.
    destruct (List.find (degreeMatches degree) degreeMap) as [[key aliases]|] eqn:Ef;
      [right | by left].
    apply find_elem in Ef as [Hin _]. apply list_elem_of_fmap. by exists (key, aliases).
  - intros alias Hin Hi. unfold degreeValue, degreeMap. cbn [List.find].
    assert (Hm : degreeMatches degree
                   ("Bachelor's", ["bachelor"; "bs"; "ba"; "b.s."; "b.a."; "undergraduate"])
                 = true).
    { unfold degreeMatches. apply orb_true_iff. right. apply existsb_exists.
      exists alias. split; [by apply list_elem_of_In | done]. }
    by rewrite Hm.
Qed.

End DropdownHandlerFacts.

Lemma tryNativeSelect_selects_first_match_witness :
  Dropdowns.tryNativeSelect countryProbe "France" = (true, Some "").
Proof.
  apply (proj2 (tryNativeSelect_selects_first_match countryProbe "France")
           (Dropdowns.mkNative (Some "") (Some "  "))
           [Dropdowns.mkNative (Some "fr") (Some "France")]); reflexivity.
Defined.

Lemma degreeValue_normal_form_witness :
  Dropdowns.degreeValue "MBA" = "Bachelor's"
  /\ Dropdowns.degreeValue "MS" = "Master's".
Proof.
  split; [| vm_compute; reflexivity].
  apply (proj2 (proj2 (degreeValue_normal_form "MBA")) "ba").
  - repeat first [apply list_elem_of_here | apply list_elem_of_further].
  - vm_compute. reflexivity.
Defined.

(** ** Merging the parsed job tables *)

Section IngestFacts.

Import ATS Ingest.

Variable parseHtmlTable : string -> list Job.
Variable parseMarkdownTable : string -> list Job.

Lemma existsb_url jobs job :
  existsb (fun j => String.eqb (apply_url j) (apply_url job)) jobs = true
  <-> apply_url job ∈ map apply_url jobs.
Proof.
  rewrite existsb_exists. split.
  - intros (j & Hin & He). apply String.eqb_eq in He.
    apply list_elem_of_fmap. exists j. split; [done | by apply list_elem_of_In].
  - intros Hin. apply list_elem_of_fmap in Hin as (j & He & Hin).
    exists j. split; [by apply list_elem_of_In | by apply String.eqb_eq].
Qed.

Lemma pushIfNew_loop md : forall jobs,
  exists added,
    fold_left pushIfNew md jobs = jobs ++ added
    /\ (forall j, j ∈ added -> j ∈ md /\ apply_url j ∉ map apply_url jobs)
    /\ NoDup (map apply_url added)
    /\ (forall j, j ∈ md -> apply_url j ∈ map apply_url (jobs ++ added)).
Proof.
  induction md as [|job md IH]; intros jobs; cbn [fold_left].
  - exists []. rewrite app_nil_r. split; [done |]. split; [intros j Hj; inversion Hj |].
    split; [constructor | intros j Hj; inversion Hj].
  - unfold pushIfNew at 2.
    destruct (existsb _ jobs) eqn:Ee.
    + apply existsb_url in Ee.
      destruct (IH jobs) as (added & -> & Hfrom & Hnd & Hall).
      exists added. split; [done |]. split.
      { intros j Hj. destruct (Hfrom j Hj). split; [by right | done]. }
      split; [done |]. intros j Hj. apply elem_of_cons in Hj as [-> | Hj]; [| by apply Hall].
      rewrite map_app. apply elem_of_app. by left.
    + assert (Hnew : apply_url job ∉ map apply_url jobs).
      { intros Hin. apply existsb_url in Hin. congruence. }
      destruct (IH (jobs ++ [job])) as (added & -> & Hfrom & Hnd & Hall).
      exists (job :: added). rewrite <- app_assoc. split; [done |]. split.
      { intros j Hj. apply elem_of_cons in Hj as [-> | Hj]; [split; [by left | done] |].
        destruct (Hfrom j Hj) as [Hin Hnot]. split; [by right |].
        intros Hu. apply Hnot. rewrite map_app. apply elem_of_app. by left. }
      split.
      { cbn. apply NoDup_cons. split; [| done]. intros Hu.
        apply list_elem_of_fmap in Hu as (j & He & Hj).
        destruct (Hfrom j Hj) as [_ Hnot]. apply Hnot. rewrite map_app, <- He.
        apply elem_of_app. right. by left. }
      intros j Hj. rewrite <- app_assoc in Hall.
      apply elem_of_cons in Hj as [-> | Hj]; [| by apply Hall].
      rewrite map_app. apply elem_of_app. right. by left.
Qed.

(** X29. [parseJobs] keeps the jobs of the HTML tables as they are and, after
    them, those jobs of the Markdown tables whose URL has not been seen: the
    added jobs have pairwise different URLs, none of them a URL of an HTML job;
    every URL of a Markdown job is in the result; and when the HTML jobs have
    pairwise different URLs, so has the result. *)
Theorem parseJobs_merges_by_url (content : string) :
  exists added,
    parseJobs parseHtmlTable parseMarkdownTable content
    = htmlPart parseHtmlTable content ++ added
    /\ (forall j, j ∈ added ->
          j ∈ markdownPart parseMarkdownTable content
          /\ apply_url j ∉ map apply_url (htmlPart parseHtmlTable content))
    /\ NoDup (map apply_url added)
    /\ (forall j, j ∈ markdownPart parseMarkdownTable content ->
          apply_url j
          ∈ map apply_url (parseJobs parseHtmlTable parseMarkdownTable content))
    /\ (NoDup (map apply_url (htmlPart parseHtmlTable content)) ->
        NoDup (map apply_url (parseJobs parseHtmlTable parseMarkdownTable content))).
Proof.
  unfold parseJobs, markdownPart. destruct (JS.includes content "|").
  - destruct (pushIfNew_loop (parseMarkdownTable content) (htmlPart parseHtmlTable content))
      as (added & Heq & Hfrom & Hnd & Hall).
    exists added. rewrite Heq. split; [done |]. split; [done |]. split; [done |].
    split; [done |]. intros Hhtml. rewrite map_app. apply NoDup_app.
    split; [done |]. split; [| done].
    intros u Hu Hu'. apply list_elem_of_fmap in Hu' as (j & -> & Hj).
    by destruct (Hfrom j Hj).
  - exists []. rewrite app_nil_r. split; [done |].
    split; [intros j Hj; inversion Hj |]. split; [constructor |].
    split; [intros j Hj; inversion Hj | done].
Qed.

End IngestFacts.

(** ** Answers of the oracle in prose *)

Section OracleFacts.

Import Agent Oracle.

Variable jsonAction : string -> option AgentAction.
Context {W Obs : Type}.
Variable getAgentPrompt : Obs -> list string -> string.
Variable complete : string -> W -> Outcome string * W.
Variable observePage : W -> Outcome Obs * W.
Variable executeAction : AgentAction -> W -> Outcome bool * W.
Variable waitForTimeout : nat -> W -> Outcome unit * W.

Lemma saysDone_action text :
  saysDone jsonAction text ->
  parseActionFromText jsonAction text
  = Some (mkAction "done" None None "AI indicated completion").
Proof.
  intros (Hj & Hc & Hw). unfold parseActionFromText, keywordAction. rewrite Hj, Hc.
  cbn [andb]. destruct Hw as [-> | [-> | ->]]; by rewrite ?orb_true_r.
Qed.

(** X30. An answer of the oracle in prose is read by key words: when no JSON
    object is found in the first answer, it does not mention a click and it
    contains "complete", "done" or "filled" anywhere, the run ends at step one
    with [success = true], nothing having been executed; when the answer can
    be read in no way, the run ends at step one asking for help. *)
Theorem prose_answer_ends_the_run (maxSteps : nat) (w w1 w2 : W) (obs : Obs)
    (text : string) :
  0 < maxSteps ->
  observePage w = (Returned obs, w1) ->
  complete (getAgentPrompt obs []) w1 = (Returned text, w2) ->
  (saysDone jsonAction text ->
     runFormAgent observePage (decide jsonAction getAgentPrompt complete)
       executeAction waitForTimeout maxSteps w
     = (Returned (mkResult true 1 "AI indicated completion"), w2))
  /\ (parseActionFromText jsonAction text = None ->
      runFormAgent observePage (decide jsonAction getAgentPrompt complete)
        executeAction waitForTimeout maxSteps w
      = (Returned (mkResult false 1 "Could not parse AI response - try manual filling"),
         w2)).
Proof.
  intros Hmax Ho Hc. destruct maxSteps as [|n]; [lia |].
  unfold runFormAgent. cbn [agentLoop]. unfold agentStep, decide, decideAction.
  rewrite Ho. cbn [initialLoop ls_actionHistory].
  rewrite Hc. split.
  - intros Hd. rewrite (saysDone_action text Hd). reflexivity.
  - intros ->. reflexivity.
Qed.

End OracleFacts.

Lemma parseJobs_merges_by_url_witness :
  map ATS.company (Ingest.parseJobs htmlJobs markdownJobs "<table></table> | a | b |")
  = ["Acme"; "Initech"; "Globex"]
  /\ NoDup (map ATS.apply_url
              (Ingest.parseJobs htmlJobs markdownJobs "<table></table> | a | b |")).
Proof.
  split; [vm_compute; reflexivity |].
  destruct (parseJobs_merges_by_url htmlJobs markdownJobs "<table></table> | a | b |")
    as (added & _ & _ & _ & _ & Hnd).
  apply Hnd. apply (bool_decide_unpack _). vm_compute. reflexivity.
Defined.

Lemma prose_answer_ends_the_run_witness :
  Agent.runFormAgent idleObserve (Oracle.decide noJson fixedPrompt proseModel)
    buttonMissing noWait 30 tt
  = (Returned (Agent.mkResult true 1 "AI indicated completion"), tt).
Proof.
  destruct (prose_answer_ends_the_run noJson fixedPrompt proseModel idleObserve
              buttonMissing noWait 30 tt tt tt tt "I am not done yet, two fields are left.")
    as [Hdone _]; [lia | reflexivity | reflexivity |].
  apply Hdone.
  split; [reflexivity |]. split; [vm_compute; reflexivity |].
  right. left. vm_compute. reflexivity.
Defined.

Lemma basic_values_come_from_the_profile_witness :
  FormFiller.autofillBasics samplePatterns blankProfile ATS.greenhouse afterEmailFill
  = (Returned tt,
     mkWorld (reset (tracker afterEmailFill)) (page afterEmailFill) (calls afterEmailFill)
       (now afterEmailFill)).
Proof.
  apply (proj2 (basic_values_come_from_the_profile samplePatterns blankProfile
                  ATS.greenhouse afterEmailFill)).
  repeat constructor.
Defined.
